(** * The D-Bus transport core and its debug allocator

    A shallow embedding of [dbus/dbus-memory.c] and [dbus/dbus-transport.c].

    C objects become records, pointers that may be [NULL] become [option]
    values (or an integer address for raw memory blocks), and every function
    that mutates an object returns the new object.  Code that lives in other
    translation units (the C library, the authenticator, the message loader,
    the string helpers, the backends) is taken as an interface: a record of
    operations over abstract state. *)

From Stdlib Require Import ZArith List String Bool Lia.
Import ListNotations.
Open Scope Z_scope.

(* ===================================================================== *)
(** * dbus-memory.c *)
(* ===================================================================== *)

Module Memory.

(** A raw block is addressed by an integer; [NULL] is address zero. *)
Definition ptr := Z.
Definition NULL : ptr := 0.

(** [INT_MAX] for a 32-bit [int]. *)
Definition _DBUS_INT_MAX : Z := 2147483647.

(** Guard layout constants, as [#define]d in the source. *)
Definition GUARD_VALUE : Z := 0xdeadbeef.
Definition GUARD_INFO_SIZE : Z := 8.
Definition GUARD_START_PAD : Z := 16.
Definition GUARD_END_PAD : Z := 16.
Definition GUARD_START_OFFSET : Z := GUARD_START_PAD + GUARD_INFO_SIZE.
Definition GUARD_EXTRA_SIZE : Z := GUARD_START_OFFSET + GUARD_END_PAD.

(** [BlockSource], stored in the guard header as its enumerator value. *)
Inductive BlockSource :=
| SOURCE_UNKNOWN
| SOURCE_MALLOC
| SOURCE_REALLOC
| SOURCE_MALLOC_ZERO
| SOURCE_REALLOC_NULL.

Definition BlockSource_value (s : BlockSource) : Z :=
  match s with
  | SOURCE_UNKNOWN => 0
  | SOURCE_MALLOC => 1
  | SOURCE_REALLOC => 2
  | SOURCE_MALLOC_ZERO => 3
  | SOURCE_REALLOC_NULL => 4
  end.

Definition source_string (s : BlockSource) : string :=
  match s with
  | SOURCE_UNKNOWN => "unknown"
  | SOURCE_MALLOC => "malloc"
  | SOURCE_REALLOC => "realloc"
  | SOURCE_MALLOC_ZERO => "malloc0"
  | SOURCE_REALLOC_NULL => "realloc(NULL)"
  end.

(** The C library and the process environment, as the allocator sees them.
    [Heap] is the whole state of the underlying allocator and of raw
    memory.  [size_modulus] is [SIZE_MAX + 1]: [size_t] arithmetic wraps
    around it. *)
Record Libc (Heap : Type) := {
  malloc : Heap -> Z -> Heap * ptr;
  calloc : Heap -> Z -> Z -> Heap * ptr;
  realloc : Heap -> ptr -> Z -> Heap * ptr;
  free : Heap -> ptr -> Heap;
  store32 : Heap -> ptr -> Z -> Heap;
  atoi : string -> Z;
  _dbus_getenv : string -> option string;
  size_modulus : Z
}.

Arguments malloc {Heap}.
Arguments calloc {Heap}.
Arguments realloc {Heap}.
Arguments free {Heap}.
Arguments store32 {Heap}.
Arguments atoi {Heap}.
Arguments _dbus_getenv {Heap}.
Arguments size_modulus {Heap}.

(** The file-scope statics of the test build. *)
Record MallocDebug := {
  debug_initialized : bool;
  fail_counts : Z;
  fail_size : Z;
  fail_alloc_counter : Z;
  guards : bool;
  disable_mem_pools : bool
}.

Definition MallocDebug_static_init : MallocDebug :=
  {| debug_initialized := false;
     fail_counts := -1;
     fail_size := 0;
     fail_alloc_counter := _DBUS_INT_MAX;
     guards := false;
     disable_mem_pools := false |}.

Definition set_fail_alloc_counter (d : MallocDebug) (v : Z) : MallocDebug :=
  {| debug_initialized := debug_initialized d;
     fail_counts := fail_counts d;
     fail_size := fail_size d;
     fail_alloc_counter := v;
     guards := guards d;
     disable_mem_pools := disable_mem_pools d |}.

(** Process state seen by the allocator: its statics and the heap. *)
Record MemState (Heap : Type) := {
  dbg : MallocDebug;
  heap : Heap
}.

Arguments dbg {Heap}.
Arguments heap {Heap}.

Section Allocator.

Context {Heap : Type}.
Variable libc : Libc Heap.

(** [DBUS_BUILD_TESTS]: whether the debug allocator is compiled in. *)
Variable DBUS_BUILD_TESTS : bool.

Definition with_dbg (st : MemState Heap) (d : MallocDebug) : MemState Heap :=
  {| dbg := d; heap := heap st |}.

Definition with_heap (st : MemState Heap) (h : Heap) : MemState Heap :=
  {| dbg := dbg st; heap := h |}.

Definition is_set (v : option string) : bool :=
  match v with Some _ => true | None => false end.

Definition _dbus_initialize_malloc_debug (d : MallocDebug) : MallocDebug :=
  if debug_initialized d then d
  else
    let nth := _dbus_getenv libc "DBUS_MALLOC_FAIL_NTH" in
    let gt := _dbus_getenv libc "DBUS_MALLOC_FAIL_GREATER_THAN" in
    {| debug_initialized := true;
       fail_counts :=
         match nth with Some s => atoi libc s | None => fail_counts d end;
       fail_size :=
         match gt with
         | Some s => (atoi libc s) mod (size_modulus libc)
         | None => fail_size d
         end;
       fail_alloc_counter :=
         match nth with
         | Some s => atoi libc s
         | None => fail_alloc_counter d
         end;
       guards :=
         if is_set (_dbus_getenv libc "DBUS_MALLOC_GUARDS") then true
         else guards d;
       disable_mem_pools :=
         if is_set (_dbus_getenv libc "DBUS_DISABLE_MEM_POOLS") then true
         else disable_mem_pools d |}.

Definition _dbus_disable_mem_pools (d : MallocDebug) : MallocDebug * bool :=
  let d1 := _dbus_initialize_malloc_debug d in
  (d1, disable_mem_pools d1).

Definition _dbus_set_fail_alloc_counter (d : MallocDebug) (until_next_fail : Z)
  : MallocDebug :=
  set_fail_alloc_counter (_dbus_initialize_malloc_debug d) until_next_fail.

Definition _dbus_get_fail_alloc_counter (d : MallocDebug) : MallocDebug * Z :=
  let d1 := _dbus_initialize_malloc_debug d in
  (d1, fail_alloc_counter d1).

(** Returns [true] when the allocation about to run must fail. *)
Definition _dbus_decrement_fail_alloc_counter (d : MallocDebug)
  : MallocDebug * bool :=
  let d1 := _dbus_initialize_malloc_debug d in
  if fail_alloc_counter d1 <=? 0 then
    (set_fail_alloc_counter d1
       (if fail_counts d1 >=? 0 then fail_counts d1 else _DBUS_INT_MAX),
     true)
  else
    (set_fail_alloc_counter d1 (fail_alloc_counter d1 - 1), false).

(** The four-byte stores of a guard loop: [i], [i+4], ... below [stop].
    [n] bounds the number of iterations ([GUARD_START_PAD / 4] words, the
    request being smaller than the range of the [unsigned int] index). *)
Fixpoint guard_fill (n : nat) (h : Heap) (block : ptr) (i stop : Z) : Heap :=
  match n with
  | O => h
  | S n' =>
      if i <? stop
      then guard_fill n' (store32 libc h (block + i) GUARD_VALUE) block (i + 4) stop
      else h
  end.

(** [check_guards] reads the header and the guard words of a block, warns
    about each damaged one and then asserts; it writes nothing and has no
    counterpart here, so the model follows the source on the calls where
    every check passes.  In the guarded branch of [dbus_realloc] two
    behaviours of the source are outside the model for that reason: when
    [realloc] returns [NULL], the check after it reads the header through
    [NULL] (its argument, [NULL + GUARD_START_OFFSET], is not [NULL]); and
    when a block is resized to fewer bytes, the check after [realloc] looks
    for the end guard where the old size put it, past the new block, and
    with assertions on the process aborts if it is not found there.  The
    statements that reach that branch are about the block handed to the
    library and the pointer returned when [realloc] succeeds. *)
Definition set_guards (h : Heap) (real_block : ptr) (requested_bytes : Z)
    (source : BlockSource) : Heap * ptr :=
  let block := real_block in
  if block =? NULL then (h, NULL)
  else
    let h1 := store32 libc h block (requested_bytes mod 2 ^ 32) in
    let h2 := store32 libc h1 (block + 4) (BlockSource_value source) in
    let h3 := guard_fill 4 h2 block GUARD_INFO_SIZE GUARD_START_OFFSET in
    let h4 := guard_fill 4 h3 block (GUARD_START_OFFSET + requested_bytes)
                (GUARD_START_OFFSET + requested_bytes + GUARD_END_PAD) in
    (h4, block + GUARD_START_OFFSET).

Definition size_add (a b : Z) : Z := (a + b) mod (size_modulus libc).

Definition dbus_free (st : MemState Heap) (memory : ptr) : MemState Heap :=
  if DBUS_BUILD_TESTS && guards (dbg st) then
    if memory =? NULL then st
    else with_heap st (free libc (heap st) (memory - GUARD_START_OFFSET))
  else
    if memory =? NULL then st
    else with_heap st (free libc (heap st) memory).

Definition dbus_malloc (st : MemState Heap) (bytes : Z) : MemState Heap * ptr :=
  if DBUS_BUILD_TESTS then
    let d0 := _dbus_initialize_malloc_debug (dbg st) in
    let '(d, fail) := _dbus_decrement_fail_alloc_counter d0 in
    let st1 := with_dbg st d in
    if fail then (st1, NULL)
    else if bytes =? 0 then (st1, NULL)
    else if negb (fail_size d =? 0) && (bytes >? fail_size d) then (st1, NULL)
    else if guards d then
      let '(h, block) := malloc libc (heap st1) (size_add bytes GUARD_EXTRA_SIZE) in
      let '(h', p) := set_guards h block bytes SOURCE_MALLOC in
      (with_heap st1 h', p)
    else
      let '(h, p) := malloc libc (heap st1) bytes in (with_heap st1 h, p)
  else
    if bytes =? 0 then (st, NULL)
    else let '(h, p) := malloc libc (heap st) bytes in (with_heap st h, p).

Definition dbus_malloc0 (st : MemState Heap) (bytes : Z) : MemState Heap * ptr :=
  if DBUS_BUILD_TESTS then
    let d0 := _dbus_initialize_malloc_debug (dbg st) in
    let '(d, fail) := _dbus_decrement_fail_alloc_counter d0 in
    let st1 := with_dbg st d in
    if fail then (st1, NULL)
    else if bytes =? 0 then (st1, NULL)
    else if negb (fail_size d =? 0) && (bytes >? fail_size d) then (st1, NULL)
    else if guards d then
      let '(h, block) := calloc libc (heap st1) (size_add bytes GUARD_EXTRA_SIZE) 1 in
      let '(h', p) := set_guards h block bytes SOURCE_MALLOC_ZERO in
      (with_heap st1 h', p)
    else
      let '(h, p) := calloc libc (heap st1) bytes 1 in (with_heap st1 h, p)
  else
    if bytes =? 0 then (st, NULL)
    else let '(h, p) := calloc libc (heap st) bytes 1 in (with_heap st h, p).

Definition dbus_realloc (st : MemState Heap) (memory : ptr) (bytes : Z)
  : MemState Heap * ptr :=
  if DBUS_BUILD_TESTS then
    let d0 := _dbus_initialize_malloc_debug (dbg st) in
    let '(d, fail) := _dbus_decrement_fail_alloc_counter d0 in
    let st1 := with_dbg st d in
    if fail then (st1, NULL)
    else if bytes =? 0 then (dbus_free st1 memory, NULL)
    else if negb (fail_size d =? 0) && (bytes >? fail_size d) then (st1, NULL)
    else if guards d then
      if negb (memory =? NULL) then
        let '(h, block) :=
          realloc libc (heap st1) (memory - GUARD_START_OFFSET)
            (size_add bytes GUARD_EXTRA_SIZE) in
        let '(h', p) := set_guards h block bytes SOURCE_REALLOC in
        (with_heap st1 h', p)
      else
        let '(h, block) := malloc libc (heap st1) (size_add bytes GUARD_EXTRA_SIZE) in
        let '(h', p) := set_guards h block bytes SOURCE_REALLOC_NULL in
        (with_heap st1 h', p)
    else
      let '(h, p) := realloc libc (heap st1) memory bytes in (with_heap st1 h, p)
  else
    if bytes =? 0 then (dbus_free st memory, NULL)
    else let '(h, p) := realloc libc (heap st) memory bytes in (with_heap st h, p).

(** A call to one of the three allocating entry points. *)
Inductive AllocCall :=
| Call_malloc (bytes : Z)
| Call_malloc0 (bytes : Z)
| Call_realloc (memory : ptr) (bytes : Z).

Definition do_call (st : MemState Heap) (c : AllocCall) : MemState Heap * ptr :=
  match c with
  | Call_malloc b => dbus_malloc st b
  | Call_malloc0 b => dbus_malloc0 st b
  | Call_realloc m b => dbus_realloc st m b
  end.

(** Runs the calls in order; the results come back in call order. *)
Fixpoint run_calls (st : MemState Heap) (cs : list AllocCall)
  : MemState Heap * list ptr :=
  match cs with
  | [] => (st, [])
  | c :: rest =>
      let '(st1, p) := do_call st c in
      let '(st2, ps) := run_calls st1 rest in
      (st2, p :: ps)
  end.

(** What the same call does once fault injection has let it through: the
    size checks, the guard wrapping and the C library. *)
Definition ordinary_call (st : MemState Heap) (c : AllocCall) : MemState Heap * ptr :=
  let d := dbg st in
  let too_big b := negb (fail_size d =? 0) && (b >? fail_size d) in
  match c with
  | Call_malloc b =>
      if b =? 0 then (st, NULL)
      else if DBUS_BUILD_TESTS && too_big b then (st, NULL)
      else if DBUS_BUILD_TESTS && guards d then
        let '(h, block) := malloc libc (heap st) (size_add b GUARD_EXTRA_SIZE) in
        let '(h', p) := set_guards h block b SOURCE_MALLOC in
        (with_heap st h', p)
      else let '(h, p) := malloc libc (heap st) b in (with_heap st h, p)
  | Call_malloc0 b =>
      if b =? 0 then (st, NULL)
      else if DBUS_BUILD_TESTS && too_big b then (st, NULL)
      else if DBUS_BUILD_TESTS && guards d then
        let '(h, block) := calloc libc (heap st) (size_add b GUARD_EXTRA_SIZE) 1 in
        let '(h', p) := set_guards h block b SOURCE_MALLOC_ZERO in
        (with_heap st h', p)
      else let '(h, p) := calloc libc (heap st) b 1 in (with_heap st h, p)
  | Call_realloc m b =>
      if b =? 0 then (dbus_free st m, NULL)
      else if DBUS_BUILD_TESTS && too_big b then (st, NULL)
      else if DBUS_BUILD_TESTS && guards d then
        if negb (m =? NULL) then
          let '(h, block) :=
            realloc libc (heap st) (m - GUARD_START_OFFSET)
              (size_add b GUARD_EXTRA_SIZE) in
          let '(h', p) := set_guards h block b SOURCE_REALLOC in
          (with_heap st h', p)
        else
          let '(h, block) := malloc libc (heap st) (size_add b GUARD_EXTRA_SIZE) in
          let '(h', p) := set_guards h block b SOURCE_REALLOC_NULL in
          (with_heap st h', p)
      else let '(h, p) := realloc libc (heap st) m b in (with_heap st h, p)
  end.

(** The decision taken by the fault-injection test at the head of each
    entry point: it fires when the countdown has reached zero. *)
Definition injection_fires (st : MemState Heap) : bool :=
  DBUS_BUILD_TESTS
  && (fail_alloc_counter (_dbus_initialize_malloc_debug (dbg st)) <=? 0).

(** The state a call continues from once the countdown was consulted: in a
    test build the countdown has moved, the heap has not. *)
Definition after_countdown (st : MemState Heap) : MemState Heap :=
  if DBUS_BUILD_TESTS
  then with_dbg st (fst (_dbus_decrement_fail_alloc_counter (dbg st)))
  else st.

(** What the underlying C library returns for the request, with no D-Bus
    logic in between. *)
Definition underlying_call (h : Heap) (c : AllocCall) : Heap * ptr :=
  match c with
  | Call_malloc b => malloc libc h b
  | Call_malloc0 b => calloc libc h b 1
  | Call_realloc m b => realloc libc h m b
  end.

(** With [DBUS_MALLOC_FAIL_NTH=N], where the countdown stands after [j]
    calls: at [N - j mod (N + 1)]. *)
Definition countdown_at (N j : Z) (d : MallocDebug) : Prop :=
  fail_counts (_dbus_initialize_malloc_debug d) = N
  /\ fail_alloc_counter (_dbus_initialize_malloc_debug d) = N - j mod (N + 1).

(** The process as it starts: statics at their initialisers. *)
Definition process_start (h : Heap) : MemState Heap :=
  {| dbg := MallocDebug_static_init; heap := h |}.

(** The sentence "zero-size requests never yield a block, and
    [dbus_realloc (m, 0)] frees [m] and returns [NULL]", read literally. *)
Definition zero_size_as_stated : Prop :=
  forall (st : MemState Heap) (m : ptr),
    snd (dbus_malloc st 0) = NULL
    /\ snd (dbus_malloc0 st 0) = NULL
    /\ snd (dbus_realloc st m 0) = NULL
    /\ heap (fst (dbus_realloc st m 0))
       = heap (dbus_free (with_dbg st (_dbus_initialize_malloc_debug (dbg st))) m).

(** ** Runs that interleave all the entry points

    [_dbus_set_fail_alloc_counter], [_dbus_get_fail_alloc_counter] and
    [_dbus_disable_mem_pools] are compiled in test builds only. *)
Inductive MemOp :=
| MO_call (c : AllocCall)
| MO_free (memory : ptr)
| MO_set_fail_alloc_counter (until_next_fail : Z)
| MO_get_fail_alloc_counter
| MO_disable_mem_pools.

Definition do_mem_op (st : MemState Heap) (op : MemOp) : MemState Heap :=
  match op with
  | MO_call c => fst (do_call st c)
  | MO_free memory => dbus_free st memory
  | MO_set_fail_alloc_counter n =>
      with_dbg st (_dbus_set_fail_alloc_counter (dbg st) n)
  | MO_get_fail_alloc_counter =>
      with_dbg st (fst (_dbus_get_fail_alloc_counter (dbg st)))
  | MO_disable_mem_pools =>
      with_dbg st (fst (_dbus_disable_mem_pools (dbg st)))
  end.

Definition run_mem_ops (st : MemState Heap) (ops : list MemOp) : MemState Heap :=
  fold_left do_mem_op ops st.

(** The statics that only [_dbus_initialize_malloc_debug] writes. *)
Definition environment_settings (d : MallocDebug) : Z * Z * bool * bool :=
  (fail_counts d, fail_size d, guards d, disable_mem_pools d).

Definition requested_bytes (c : AllocCall) : Z :=
  match c with
  | Call_malloc b => b
  | Call_malloc0 b => b
  | Call_realloc _ b => b
  end.

(** The sentence "with [DBUS_MALLOC_FAIL_NTH] set to [N >= 1], the
    [k*N]-th call returns [NULL] and every other call is passed through to
    the underlying allocator", read for which calls the countdown fails:
    the call that follows the calls [pre] is call number [length pre + 1];
    a call of a size other than zero that is not failed returns what the
    underlying allocator returns. *)
Definition fail_every_nth_as_stated : Prop :=
  forall (s : string) (N : Z) (h : Heap) (pre : list AllocCall) (c : AllocCall),
    _dbus_getenv libc "DBUS_MALLOC_FAIL_NTH" = Some s ->
    atoi libc s = N ->
    1 <= N ->
    requested_bytes c <> 0 ->
    let st := fst (run_calls (process_start h) pre) in
    let j := Z.of_nat (List.length pre) + 1 in
    if j mod N =? 0
    then snd (do_call st c) = NULL
    else snd (do_call st c) = snd (underlying_call (heap st) c).

(** The request that reaches the C library for a call that is let through:
    with guards on, the size grows by [GUARD_EXTRA_SIZE] and a block passed
    to [dbus_realloc] is stepped back to where the C library's block
    starts. *)
Definition library_request (d : MallocDebug) (c : AllocCall) : AllocCall :=
  if DBUS_BUILD_TESTS && guards d then
    match c with
    | Call_malloc b => Call_malloc (size_add b GUARD_EXTRA_SIZE)
    | Call_malloc0 b => Call_malloc0 (size_add b GUARD_EXTRA_SIZE)
    | Call_realloc m b =>
        if negb (m =? NULL)
        then Call_realloc (m - GUARD_START_OFFSET) (size_add b GUARD_EXTRA_SIZE)
        else Call_malloc (size_add b GUARD_EXTRA_SIZE)
    end
  else c.

End Allocator.

(** ** A small C library to run the allocator on

    A bump allocator that never fails: blocks are handed out at increasing
    addresses and [live] lists the blocks not yet freed. *)
Record ToyHeap := {
  brk : Z;
  live : list ptr;
  stores : list (ptr * Z)
}.

Definition toy_alloc (h : ToyHeap) (n : Z) : ToyHeap * ptr :=
  ({| brk := brk h + Z.max n 1; live := brk h :: live h; stores := stores h |},
   brk h).

Definition toy_free (h : ToyHeap) (p : ptr) : ToyHeap :=
  {| brk := brk h;
     live := filter (fun q => negb (q =? p)) (live h);
     stores := stores h |}.

Definition toy_store32 (h : ToyHeap) (p : ptr) (v : Z) : ToyHeap :=
  {| brk := brk h; live := live h; stores := (p, v) :: stores h |}.

Definition toy_digit (a : Ascii.ascii) : Z :=
  Z.of_nat (Ascii.nat_of_ascii a) - 48.

Fixpoint toy_atoi_from (acc : Z) (s : string) : Z :=
  match s with
  | EmptyString => acc
  | String a rest =>
      if (0 <=? toy_digit a) && (toy_digit a <=? 9)
      then toy_atoi_from (10 * acc + toy_digit a) rest
      else acc
  end.

(** [toy_libc nth]: the environment holds [DBUS_MALLOC_FAIL_NTH=nth] (when
    given) and nothing else; [size_t] has 64 bits. *)
Definition toy_libc (nth : option string) : Libc ToyHeap :=
  {| malloc := toy_alloc;
     calloc := fun h n m => toy_alloc h (n * m);
     realloc := fun h p n => toy_alloc (toy_free h p) n;
     free := toy_free;
     store32 := toy_store32;
     atoi := toy_atoi_from 0;
     _dbus_getenv := fun name =>
       if String.eqb name "DBUS_MALLOC_FAIL_NTH" then nth else None;
     size_modulus := 2 ^ 64 |}.

Definition toy_heap : ToyHeap := {| brk := 4096; live := []; stores := [] |}.

(** [toy_libc_env env]: the same C library under the environment [env]. *)
Definition toy_libc_env (env : string -> option string) : Libc ToyHeap :=
  {| malloc := toy_alloc;
     calloc := fun h n m => toy_alloc h (n * m);
     realloc := fun h p n => toy_alloc (toy_free h p) n;
     free := toy_free;
     store32 := toy_store32;
     atoi := toy_atoi_from 0;
     _dbus_getenv := env;
     size_modulus := 2 ^ 64 |}.

(** An environment with [DBUS_MALLOC_FAIL_GREATER_THAN=16] and
    [DBUS_MALLOC_GUARDS] set. *)
Definition toy_env_limit_guards (name : string) : option string :=
  if String.eqb name "DBUS_MALLOC_FAIL_GREATER_THAN" then Some "16"%string
  else if String.eqb name "DBUS_MALLOC_GUARDS" then Some "1"%string
  else None.

End Memory.

(* ===================================================================== *)
(** * dbus-transport.c *)
(* ===================================================================== *)

Module Transport.

(** Modelled from the spec: [DBusAuthState], whose header is not part of
    this development.  The Auth session is in one of the states
    NegotiatingMechanism, Continuing, WaitingForMemory, Authenticated,
    Rejected; the two enumerators the transport tests are named as in the
    source. *)
Inductive DBusAuthState :=
| DBUS_AUTH_STATE_NEGOTIATING_MECHANISM
| DBUS_AUTH_STATE_CONTINUING
| DBUS_AUTH_STATE_WAITING_FOR_MEMORY
| DBUS_AUTH_STATE_AUTHENTICATED
| DBUS_AUTH_STATE_REJECTED.

Inductive DBusDispatchStatus :=
| DBUS_DISPATCH_DATA_REMAINS
| DBUS_DISPATCH_COMPLETE
| DBUS_DISPATCH_NEED_MEMORY.

Inductive DBusTransportOpenResult :=
| DBUS_TRANSPORT_OPEN_OK
| DBUS_TRANSPORT_OPEN_NOT_HANDLED
| DBUS_TRANSPORT_OPEN_BAD_ADDRESS
| DBUS_TRANSPORT_OPEN_DID_NOT_CONNECT.

Definition DBusDispatchStatus_eqb (a b : DBusDispatchStatus) : bool :=
  match a, b with
  | DBUS_DISPATCH_DATA_REMAINS, DBUS_DISPATCH_DATA_REMAINS => true
  | DBUS_DISPATCH_COMPLETE, DBUS_DISPATCH_COMPLETE => true
  | DBUS_DISPATCH_NEED_MEMORY, DBUS_DISPATCH_NEED_MEMORY => true
  | _, _ => false
  end.

Record DBusCredentials := {
  pid : Z;
  uid : Z;
  gid : Z
}.

(** Modelled from the spec: constants of headers that are not part of this
    development.  In credentials [-1] means unset; the default for
    [max_live_messages_size] is 63 MiB. *)
Definition DBUS_UID_UNSET : Z := -1.
Definition DBUS_PID_UNSET : Z := -1.
Definition _DBUS_INT32_MAX : Z := 2147483647.
Definition _DBUS_ONE_KILOBYTE : Z := 1024.
Definition _DBUS_ONE_MEGABYTE : Z := 1024 * _DBUS_ONE_KILOBYTE.

(** The iteration flags are single bits. *)
Definition DBUS_ITERATION_DO_WRITING : Z := 1.
Definition DBUS_ITERATION_DO_READING : Z := 2.

(** A [DBusError] is clear ([None]) or carries a name and a message. *)
Record DBusErrorContent := {
  error_name : string;
  error_message : string
}.
Definition DBusError := option DBusErrorContent.

Definition dbus_error_is_set (e : DBusError) : bool :=
  match e with Some _ => true | None => false end.

Definition DBUS_ERROR_NO_MEMORY : string := "org.freedesktop.DBus.Error.NoMemory".
Definition DBUS_ERROR_BAD_ADDRESS : string := "org.freedesktop.DBus.Error.BadAddress".

Definition _DBUS_SET_OOM : DBusError :=
  Some {| error_name := DBUS_ERROR_NO_MEMORY; error_message := "Not enough memory" |}.

(** [_dbus_set_bad_address (error, NULL, NULL, msg)]. *)
Definition _dbus_set_bad_address (msg : string) : DBusError :=
  Some {| error_name := DBUS_ERROR_BAD_ADDRESS; error_message := msg |}.

(** A connection is known to the transport by its address only. *)
Definition ConnPtr := nat.

Definition option_nat_eqb (a b : option nat) : bool :=
  match a, b with
  | Some x, Some y => Nat.eqb x y
  | None, None => true
  | _, _ => false
  end.

(** A watch, as far as the transport looks into it. *)
Record DBusWatch := {
  watch_fd : Z;
  watch_flags : Z
}.

(** Owned objects whose acquisition and release are recorded. *)
Inductive Resource :=
| RLoader
| RAuth
| RCounter
| RAddress
| RExpectedGuid.

Definition Resource_eqb (a b : Resource) : bool :=
  match a, b with
  | RLoader, RLoader | RAuth, RAuth | RCounter, RCounter
  | RAddress, RAddress | RExpectedGuid, RExpectedGuid => true
  | _, _ => false
  end.

(** A block of a C function either falls through to the next statement or
    returns from the function. *)
Inductive Flow (S R : Type) :=
| Go (s : S)
| Ret (r : R).
Arguments Go {S R}.
Arguments Ret {S R}.

(** ** The collaborators

    Everything the transport calls that lives in another translation unit:
    the authenticator, the message loader and messages, the live-bytes
    counter, the string and memory helpers ([Sys] is the state they share:
    the allocator and the process), and address entries.  A constructor or
    a copy that can run out of memory returns [None] (or [false]). *)
Class Collaborators := {
  DBusAuth : Type;
  DBusMessageLoader : Type;
  DBusMessage : Type;
  DBusCounter : Type;
  DBusAddressEntry : Type;
  Backend : Type;
  Sys : Type;

  _dbus_auth_server_new : Sys -> string -> Sys * option DBusAuth;
  _dbus_auth_client_new : Sys -> Sys * option DBusAuth;
  _dbus_auth_do_work : DBusAuth -> DBusAuth * DBusAuthState;
  _dbus_auth_get_guid_from_server : DBusAuth -> string;
  _dbus_auth_get_identity : DBusAuth -> DBusCredentials;
  _dbus_auth_needs_decoding : DBusAuth -> bool;
  _dbus_auth_get_unused_bytes : DBusAuth -> string;
  _dbus_auth_decode_data :
    Sys -> DBusAuth -> string -> string -> Sys * DBusAuth * option string;
  _dbus_auth_delete_unused_bytes : DBusAuth -> DBusAuth;
  _dbus_auth_set_mechanisms :
    Sys -> DBusAuth -> list string -> Sys * DBusAuth * bool;

  _dbus_message_loader_new : Sys -> Sys * option DBusMessageLoader;
  _dbus_message_loader_get_buffer :
    DBusMessageLoader -> DBusMessageLoader * string;
  _dbus_message_loader_return_buffer :
    DBusMessageLoader -> string -> Z -> DBusMessageLoader;
  _dbus_message_loader_queue_messages :
    DBusMessageLoader -> DBusMessageLoader * bool;
  _dbus_message_loader_peek_message : DBusMessageLoader -> option DBusMessage;
  _dbus_message_loader_pop_message_link :
    DBusMessageLoader -> option (DBusMessage * DBusMessageLoader);
  _dbus_message_loader_putback_message_link :
    DBusMessageLoader -> DBusMessage -> DBusMessageLoader;
  _dbus_message_loader_get_is_corrupted : DBusMessageLoader -> bool;
  _dbus_message_loader_set_max_message_size :
    DBusMessageLoader -> Z -> DBusMessageLoader;
  _dbus_message_loader_get_max_message_size : DBusMessageLoader -> Z;

  (** Attaching a counter to a message: the new counter, whether the
      attachment succeeded, and whether the adjustment made the counter call
      its notify function. *)
  _dbus_message_add_size_counter :
    Sys -> DBusMessage -> DBusCounter -> Sys * DBusCounter * bool * bool;
  _dbus_counter_new : Sys -> Sys * option DBusCounter;
  _dbus_counter_get_value : DBusCounter -> Z;
  (** [_dbus_counter_set_notify (counter, guard, function, data)]; the
      boolean tells whether [function] is non-[NULL]. *)
  _dbus_counter_set_notify : DBusCounter -> Z -> bool -> DBusCounter;

  _dbus_strdup : Sys -> option string -> Sys * option string;
  _dbus_string_copy_data : Sys -> option string -> Sys * option string;
  _dbus_string_init : Sys -> Sys * bool;
  (** [_dbus_string_move (src, start, dest, insert_at)] and
      [_dbus_string_copy]: the new contents of [dest], or [None]. *)
  _dbus_string_move : Sys -> string -> Z -> string -> Z -> Sys * option string;
  _dbus_string_copy : Sys -> string -> Z -> string -> Z -> Sys * option string;

  _dbus_credentials_from_current_process : Sys -> DBusCredentials;
  _dbus_credentials_match : DBusCredentials -> DBusCredentials -> bool;

  _dbus_watch_sanitize_condition : DBusWatch -> Z -> Z;

  dbus_address_entry_get_method : DBusAddressEntry -> string;
  dbus_address_entry_get_value : DBusAddressEntry -> string -> option string;
  dbus_parse_address :
    Sys -> string -> DBusError
    -> Sys * option (list DBusAddressEntry) * DBusError;
  (** [_dbus_get_autolaunch_address (address, error)]: the new contents of
      [address], whether the call succeeded, and [error]. *)
  _dbus_get_autolaunch_address :
    Sys -> string -> DBusError -> Sys * string * bool * DBusError
}.

Section TransportBase.

Context {collab : Collaborators}.

(** [DBusAllowUnixUserFunction]: called with the connection, the uid and
    the user data. *)
Definition DBusAllowUnixUserFunction := option ConnPtr -> Z -> Z -> bool.

(** What the transport does to objects it does not own, and the
    acquisitions and releases of those it owns, newest first. *)
Inductive Event :=
| EvConnectionRef (c : option ConnPtr)
| EvConnectionUnref (c : option ConnPtr)
| EvConnectionUnlock (c : option ConnPtr)
| EvConnectionLock (c : option ConnPtr)
| EvQueueReceivedMessage (c : option ConnPtr) (m : DBusMessage)
| EvAcquire (r : Resource)
| EvRelease (r : Resource)
| EvFreeUserData (free_function data : Z)
| EvWarnCheckFailed.

Record World := {
  sys : Sys;
  trace : list Event
}.

Definition emit (e : Event) (w : World) : World :=
  {| sys := sys w; trace := e :: trace w |}.

Definition set_sys (s : Sys) (w : World) : World :=
  {| sys := s; trace := trace w |}.

(** [struct DBusTransport].  Owned collaborators are held by value; the
    part of the object that belongs to the backend subclass is [backend]. *)
Record DBusTransport := {
  refcount : Z;
  loader : DBusMessageLoader;
  auth : DBusAuth;
  live_messages_size : DBusCounter;
  max_live_messages_size : Z;
  connection : option ConnPtr;
  disconnected : bool;
  authenticated : bool;
  is_server : bool;
  send_credentials_pending : bool;
  receive_credentials_pending : bool;
  unused_bytes_recovered : bool;
  address : option string;
  expected_guid : option string;
  unix_user_function : option DBusAllowUnixUserFunction;
  unix_user_data : Z;
  free_unix_user_data : option Z;
  credentials : DBusCredentials;
  backend : Backend
}.

Definition set_refcount (v : Z) (t : DBusTransport)
  : DBusTransport :=
  {| refcount := v; loader := loader t; auth := auth t;
     live_messages_size := live_messages_size t;
     max_live_messages_size := max_live_messages_size t;
     connection := connection t; disconnected := disconnected t;
     authenticated := authenticated t; is_server := is_server t;
     send_credentials_pending := send_credentials_pending t;
     receive_credentials_pending := receive_credentials_pending t;
     unused_bytes_recovered := unused_bytes_recovered t;
     address := address t; expected_guid := expected_guid t;
     unix_user_function := unix_user_function t;
     unix_user_data := unix_user_data t;
     free_unix_user_data := free_unix_user_data t;
     credentials := credentials t; backend := backend t |}.

Definition set_loader (v : DBusMessageLoader) (t : DBusTransport)
  : DBusTransport :=
  {| refcount := refcount t; loader := v; auth := auth t;
     live_messages_size := live_messages_size t;
     max_live_messages_size := max_live_messages_size t;
     connection := connection t; disconnected := disconnected t;
     authenticated := authenticated t; is_server := is_server t;
     send_credentials_pending := send_credentials_pending t;
     receive_credentials_pending := receive_credentials_pending t;
     unused_bytes_recovered := unused_bytes_recovered t;
     address := address t; expected_guid := expected_guid t;
     unix_user_function := unix_user_function t;
     unix_user_data := unix_user_data t;
     free_unix_user_data := free_unix_user_data t;
     credentials := credentials t; backend := backend t |}.

Definition set_auth (v : DBusAuth) (t : DBusTransport)
  : DBusTransport :=
  {| refcount := refcount t; loader := loader t; auth := v;
     live_messages_size := live_messages_size t;
     max_live_messages_size := max_live_messages_size t;
     connection := connection t; disconnected := disconnected t;
     authenticated := authenticated t; is_server := is_server t;
     send_credentials_pending := send_credentials_pending t;
     receive_credentials_pending := receive_credentials_pending t;
     unused_bytes_recovered := unused_bytes_recovered t;
     address := address t; expected_guid := expected_guid t;
     unix_user_function := unix_user_function t;
     unix_user_data := unix_user_data t;
     free_unix_user_data := free_unix_user_data t;
     credentials := credentials t; backend := backend t |}.

Definition set_live_messages_size (v : DBusCounter) (t : DBusTransport)
  : DBusTransport :=
  {| refcount := refcount t; loader := loader t; auth := auth t;
     live_messages_size := v;
     max_live_messages_size := max_live_messages_size t;
     connection := connection t; disconnected := disconnected t;
     authenticated := authenticated t; is_server := is_server t;
     send_credentials_pending := send_credentials_pending t;
     receive_credentials_pending := receive_credentials_pending t;
     unused_bytes_recovered := unused_bytes_recovered t;
     address := address t; expected_guid := expected_guid t;
     unix_user_function := unix_user_function t;
     unix_user_data := unix_user_data t;
     free_unix_user_data := free_unix_user_data t;
     credentials := credentials t; backend := backend t |}.

Definition set_max_live_messages_size (v : Z) (t : DBusTransport)
  : DBusTransport :=
  {| refcount := refcount t; loader := loader t; auth := auth t;
     live_messages_size := live_messages_size t;
     max_live_messages_size := v; connection := connection t;
     disconnected := disconnected t; authenticated := authenticated t;
     is_server := is_server t;
     send_credentials_pending := send_credentials_pending t;
     receive_credentials_pending := receive_credentials_pending t;
     unused_bytes_recovered := unused_bytes_recovered t;
     address := address t; expected_guid := expected_guid t;
     unix_user_function := unix_user_function t;
     unix_user_data := unix_user_data t;
     free_unix_user_data := free_unix_user_data t;
     credentials := credentials t; backend := backend t |}.

Definition set_connection (v : option ConnPtr) (t : DBusTransport)
  : DBusTransport :=
  {| refcount := refcount t; loader := loader t; auth := auth t;
     live_messages_size := live_messages_size t;
     max_live_messages_size := max_live_messages_size t; connection := v;
     disconnected := disconnected t; authenticated := authenticated t;
     is_server := is_server t;
     send_credentials_pending := send_credentials_pending t;
     receive_credentials_pending := receive_credentials_pending t;
     unused_bytes_recovered := unused_bytes_recovered t;
     address := address t; expected_guid := expected_guid t;
     unix_user_function := unix_user_function t;
     unix_user_data := unix_user_data t;
     free_unix_user_data := free_unix_user_data t;
     credentials := credentials t; backend := backend t |}.

Definition set_disconnected (v : bool) (t : DBusTransport)
  : DBusTransport :=
  {| refcount := refcount t; loader := loader t; auth := auth t;
     live_messages_size := live_messages_size t;
     max_live_messages_size := max_live_messages_size t;
     connection := connection t; disconnected := v;
     authenticated := authenticated t; is_server := is_server t;
     send_credentials_pending := send_credentials_pending t;
     receive_credentials_pending := receive_credentials_pending t;
     unused_bytes_recovered := unused_bytes_recovered t;
     address := address t; expected_guid := expected_guid t;
     unix_user_function := unix_user_function t;
     unix_user_data := unix_user_data t;
     free_unix_user_data := free_unix_user_data t;
     credentials := credentials t; backend := backend t |}.

Definition set_authenticated (v : bool) (t : DBusTransport)
  : DBusTransport :=
  {| refcount := refcount t; loader := loader t; auth := auth t;
     live_messages_size := live_messages_size t;
     max_live_messages_size := max_live_messages_size t;
     connection := connection t; disconnected := disconnected t;
     authenticated := v; is_server := is_server t;
     send_credentials_pending := send_credentials_pending t;
     receive_credentials_pending := receive_credentials_pending t;
     unused_bytes_recovered := unused_bytes_recovered t;
     address := address t; expected_guid := expected_guid t;
     unix_user_function := unix_user_function t;
     unix_user_data := unix_user_data t;
     free_unix_user_data := free_unix_user_data t;
     credentials := credentials t; backend := backend t |}.

Definition set_send_credentials_pending (v : bool) (t : DBusTransport)
  : DBusTransport :=
  {| refcount := refcount t; loader := loader t; auth := auth t;
     live_messages_size := live_messages_size t;
     max_live_messages_size := max_live_messages_size t;
     connection := connection t; disconnected := disconnected t;
     authenticated := authenticated t; is_server := is_server t;
     send_credentials_pending := v;
     receive_credentials_pending := receive_credentials_pending t;
     unused_bytes_recovered := unused_bytes_recovered t;
     address := address t; expected_guid := expected_guid t;
     unix_user_function := unix_user_function t;
     unix_user_data := unix_user_data t;
     free_unix_user_data := free_unix_user_data t;
     credentials := credentials t; backend := backend t |}.

Definition set_receive_credentials_pending (v : bool) (t : DBusTransport)
  : DBusTransport :=
  {| refcount := refcount t; loader := loader t; auth := auth t;
     live_messages_size := live_messages_size t;
     max_live_messages_size := max_live_messages_size t;
     connection := connection t; disconnected := disconnected t;
     authenticated := authenticated t; is_server := is_server t;
     send_credentials_pending := send_credentials_pending t;
     receive_credentials_pending := v;
     unused_bytes_recovered := unused_bytes_recovered t;
     address := address t; expected_guid := expected_guid t;
     unix_user_function := unix_user_function t;
     unix_user_data := unix_user_data t;
     free_unix_user_data := free_unix_user_data t;
     credentials := credentials t; backend := backend t |}.

Definition set_unused_bytes_recovered (v : bool) (t : DBusTransport)
  : DBusTransport :=
  {| refcount := refcount t; loader := loader t; auth := auth t;
     live_messages_size := live_messages_size t;
     max_live_messages_size := max_live_messages_size t;
     connection := connection t; disconnected := disconnected t;
     authenticated := authenticated t; is_server := is_server t;
     send_credentials_pending := send_credentials_pending t;
     receive_credentials_pending := receive_credentials_pending t;
     unused_bytes_recovered := v; address := address t;
     expected_guid := expected_guid t;
     unix_user_function := unix_user_function t;
     unix_user_data := unix_user_data t;
     free_unix_user_data := free_unix_user_data t;
     credentials := credentials t; backend := backend t |}.

Definition set_expected_guid (v : option string) (t : DBusTransport)
  : DBusTransport :=
  {| refcount := refcount t; loader := loader t; auth := auth t;
     live_messages_size := live_messages_size t;
     max_live_messages_size := max_live_messages_size t;
     connection := connection t; disconnected := disconnected t;
     authenticated := authenticated t; is_server := is_server t;
     send_credentials_pending := send_credentials_pending t;
     receive_credentials_pending := receive_credentials_pending t;
     unused_bytes_recovered := unused_bytes_recovered t;
     address := address t; expected_guid := v;
     unix_user_function := unix_user_function t;
     unix_user_data := unix_user_data t;
     free_unix_user_data := free_unix_user_data t;
     credentials := credentials t; backend := backend t |}.

Definition set_backend (v : Backend) (t : DBusTransport)
  : DBusTransport :=
  {| refcount := refcount t; loader := loader t; auth := auth t;
     live_messages_size := live_messages_size t;
     max_live_messages_size := max_live_messages_size t;
     connection := connection t; disconnected := disconnected t;
     authenticated := authenticated t; is_server := is_server t;
     send_credentials_pending := send_credentials_pending t;
     receive_credentials_pending := receive_credentials_pending t;
     unused_bytes_recovered := unused_bytes_recovered t;
     address := address t; expected_guid := expected_guid t;
     unix_user_function := unix_user_function t;
     unix_user_data := unix_user_data t;
     free_unix_user_data := free_unix_user_data t;
     credentials := credentials t; backend := v |}.

(** Modelled from the spec: the backends are not part of this development.
    What a backend does to the base object while it performs I/O: feed the
    authenticator or the loader, note that credentials went out or came in
    (each credentials flag "transitions to false exactly once"), disconnect,
    or have the base queue the messages read so far. *)
Inductive BackendAction :=
| BA_auth_progress (a : DBusAuth)
| BA_loader_progress (l : DBusMessageLoader)
| BA_credentials_sent
| BA_credentials_received
| BA_disconnect
| BA_queue_messages.

(** [DBusTransportVTable].  A hook reads the transport and the system and
    yields the new backend part; the two I/O hooks also yield what they do
    to the base object.  The vtable of a transport never changes. *)
Record DBusTransportVTable := {
  vt_finalize : Sys -> DBusTransport -> Sys * Backend;
  vt_handle_watch :
    Sys -> DBusTransport -> DBusWatch -> Z
    -> Sys * Backend * list BackendAction * bool;
  vt_disconnect : Sys -> DBusTransport -> Sys * Backend;
  vt_connection_set : Sys -> DBusTransport -> Sys * Backend * bool;
  vt_do_iteration :
    Sys -> DBusTransport -> Z -> Z -> Sys * Backend * list BackendAction;
  vt_live_messages_changed : option (Sys -> DBusTransport -> Sys * Backend);
  vt_get_socket_fd : option (Sys -> DBusTransport -> Sys * Backend * option Z)
}.

(** ** The base class *)

Variable vtable : DBusTransportVTable.

(** [DBUS_WIN] and [DBUS_BUILD_TESTS], the two build switches the file
    tests. *)
Variable DBUS_WIN : bool.
Variable DBUS_BUILD_TESTS : bool.

Definition is_some {A : Type} (p : option A) : bool :=
  match p with Some _ => true | None => false end.

(** Calling a vtable hook: the system and the backend part move on. *)
Definition run_hook (h : Sys -> DBusTransport -> Sys * Backend)
    (w : World) (t : DBusTransport) : World * DBusTransport :=
  let '(s, b) := h (sys w) t in (set_sys s w, set_backend b t).

(** [dbus_free (p)] on an owned string: nothing happens for [NULL]. *)
Definition release_if_set {A : Type} (r : Resource) (p : option A) (w : World)
  : World :=
  match p with Some _ => emit (EvRelease r) w | None => w end.

Definition acquire_if_set {A : Type} (r : Resource) (p : option A) (w : World)
  : World :=
  match p with Some _ => emit (EvAcquire r) w | None => w end.

Definition _dbus_transport_ref (t : DBusTransport) : DBusTransport :=
  set_refcount (refcount t + 1) t.

Definition _dbus_transport_disconnect (w : World) (t : DBusTransport)
  : World * DBusTransport :=
  if disconnected t then (w, t)
  else
    let '(w1, t1) := run_hook (vt_disconnect vtable) w t in
    (w1, set_disconnected true t1).

Definition _dbus_transport_finalize_base (w : World) (t : DBusTransport)
  : World * DBusTransport :=
  let '(w1, t1) :=
    if negb (disconnected t) then _dbus_transport_disconnect w t else (w, t) in
  let w2 :=
    match free_unix_user_data t1 with
    | Some f => emit (EvFreeUserData f (unix_user_data t1)) w1
    | None => w1
    end in
  let w3 := emit (EvRelease RLoader) w2 in
  let w4 := emit (EvRelease RAuth) w3 in
  let t2 :=
    set_live_messages_size
      (_dbus_counter_set_notify (live_messages_size t1) 0 false) t1 in
  let w5 := emit (EvRelease RCounter) w4 in
  let w6 := release_if_set RAddress (address t2) w5 in
  let w7 := release_if_set RExpectedGuid (expected_guid t2) w6 in
  (w7, t2).

(** The subclass finaliser releases the backend part and chains up to
    [_dbus_transport_finalize_base]. *)
Definition _dbus_transport_unref (w : World) (t : DBusTransport)
  : World * DBusTransport :=
  let t1 := set_refcount (refcount t - 1) t in
  if refcount t1 =? 0 then
    let '(w2, t2) := run_hook (vt_finalize vtable) w t1 in
    _dbus_transport_finalize_base w2 t2
  else (w, t1).

(** The notify function installed on the live-messages counter. *)
Definition live_messages_size_notify (w : World) (t : DBusTransport)
  : World * DBusTransport :=
  let t1 := _dbus_transport_ref t in
  let '(w2, t2) :=
    match vt_live_messages_changed vtable with
    | Some h => run_hook h w t1
    | None => (w, t1)
    end in
  _dbus_transport_unref w2 t2.

(** [transport->vtable = vtable] has no counterpart: the vtable is the
    [vtable] of this section.  The fields the function does not write
    ([connection], [unused_bytes_recovered], the backend part) keep what
    [transport] holds. *)
Definition _dbus_transport_init_base (w : World) (transport : DBusTransport)
    (server_guid : option string) (address : option string)
  : World * DBusTransport * bool :=
  let '(s1, loader) := _dbus_message_loader_new (sys w) in
  match loader with
  | None => (set_sys s1 w, transport, false)
  | Some loader =>
    let w1 := emit (EvAcquire RLoader) (set_sys s1 w) in
    let '(s2, auth) :=
      match server_guid with
      | Some g => _dbus_auth_server_new (sys w1) g
      | None => _dbus_auth_client_new (sys w1)
      end in
    match auth with
    | None => (emit (EvRelease RLoader) (set_sys s2 w1), transport, false)
    | Some auth =>
      let w2 := emit (EvAcquire RAuth) (set_sys s2 w1) in
      let '(s3, counter) := _dbus_counter_new (sys w2) in
      match counter with
      | None =>
          (emit (EvRelease RLoader) (emit (EvRelease RAuth) (set_sys s3 w2)),
           transport, false)
      | Some counter =>
        let w3 := emit (EvAcquire RCounter) (set_sys s3 w2) in
        let '(w4, address_copy, copied) :=
          match server_guid with
          | Some _ => (w3, None, true)
          | None =>
              let '(s4, c) := _dbus_string_copy_data (sys w3) address in
              (acquire_if_set RAddress c (set_sys s4 w3), c, is_some c)
          end in
        if negb copied then
          (emit (EvRelease RLoader)
             (emit (EvRelease RAuth) (emit (EvRelease RCounter) w4)),
           transport, false)
        else
          let srv := is_some server_guid in
          let max := _DBUS_ONE_MEGABYTE * 63 in
          (w4,
           {| refcount := 1;
              loader := loader;
              auth := auth;
              live_messages_size := _dbus_counter_set_notify counter max true;
              max_live_messages_size := max;
              connection := connection transport;
              disconnected := false;
              authenticated := false;
              is_server := srv;
              send_credentials_pending := negb srv;
              receive_credentials_pending := srv;
              unused_bytes_recovered := unused_bytes_recovered transport;
              address := address_copy;
              expected_guid := None;
              unix_user_function := None;
              unix_user_data := 0;
              free_unix_user_data := None;
              credentials := {| pid := -1; uid := -1; gid := -1 |};
              backend := backend transport |},
           true)
      end
    end
  end.

Definition _dbus_transport_get_is_connected (t : DBusTransport) : bool :=
  negb (disconnected t).

(** ** Authentication *)

Definition IsAuthResult : Type := World * DBusTransport * bool.

(** The block guarded by [maybe_authenticated && !transport->is_server]. *)
Definition check_server_guid (w : World) (t : DBusTransport)
  : Flow (World * DBusTransport) IsAuthResult :=
  let server_guid := _dbus_auth_get_guid_from_server (auth t) in
  let mismatch :=
    match expected_guid t with
    | Some g => negb (String.eqb g server_guid)
    | None => false
    end in
  if mismatch then
    let '(w1, t1) := _dbus_transport_disconnect w t in
    Ret (emit (EvConnectionUnref (connection t1)) w1, t1, false)
  else
    match expected_guid t with
    | Some _ => Go (w, t)
    | None =>
        let '(s, dup) := _dbus_strdup (sys w) (Some server_guid) in
        let w1 := acquire_if_set RExpectedGuid dup (set_sys s w) in
        let t1 := set_expected_guid dup t in
        match dup with
        | None => Ret (w1, t1, false)
        | Some _ => Go (w1, t1)
        end
    end.

(** The block guarded by [maybe_authenticated && transport->is_server]. *)
Definition check_auth_identity (w : World) (t : DBusTransport)
  : Flow (World * DBusTransport) IsAuthResult :=
  let on_windows := DBUS_WIN in
  let auth_identity := _dbus_auth_get_identity (auth t) in
  match unix_user_function t with
  | Some f =>
      if negb on_windows then
        let cn := connection t in
        let unix_user_function := f in
        let data := unix_user_data t in
        let w1 := emit (EvConnectionUnlock cn) w in
        let allow := unix_user_function cn (uid auth_identity) data in
        let w2 := emit (EvConnectionLock cn) w1 in
        if allow then Go (w2, t)
        else
          let '(w3, t3) := _dbus_transport_disconnect w2 t in
          Ret (emit (EvConnectionUnref cn) w3, t3, false)
      else
        let our_identity := _dbus_credentials_from_current_process (sys w) in
        if negb (_dbus_credentials_match our_identity auth_identity) then
          let '(w1, t1) := _dbus_transport_disconnect w t in
          Ret (emit (EvConnectionUnref (connection t1)) w1, t1, false)
        else Go (w, t)
  | None =>
      let our_identity := _dbus_credentials_from_current_process (sys w) in
      if negb (_dbus_credentials_match our_identity auth_identity) then
        let '(w1, t1) := _dbus_transport_disconnect w t in
        Ret (emit (EvConnectionUnref (connection t1)) w1, t1, false)
      else Go (w, t)
  end.

Definition _dbus_transport_get_is_authenticated (w : World) (t : DBusTransport)
  : IsAuthResult :=
  if authenticated t then (w, t, true)
  else if disconnected t then (w, t, false)
  else
    (* paranoia ref since we call user callbacks sometimes *)
    let w0 := emit (EvConnectionRef (connection t)) w in
    let maybe0 :=
      negb (send_credentials_pending t || receive_credentials_pending t) in
    let '(t0, maybe_authenticated) :=
      if maybe0 then
        let '(a, st) := _dbus_auth_do_work (auth t) in
        (set_auth a t,
         match st with
         | DBUS_AUTH_STATE_AUTHENTICATED => true
         | _ => false
         end)
      else (t, false) in
    match
      (if maybe_authenticated && negb (is_server t0)
       then check_server_guid w0 t0 else Go (w0, t0))
    with
    | Ret r => r
    | Go (w1, t1) =>
        match
          (if maybe_authenticated && is_server t1
           then check_auth_identity w1 t1 else Go (w1, t1))
        with
        | Ret r => r
        | Go (w2, t2) =>
            let t3 := set_authenticated maybe_authenticated t2 in
            (emit (EvConnectionUnref (connection t3)) w2, t3,
             maybe_authenticated)
        end
    end.

Definition _dbus_transport_get_address (t : DBusTransport) : option string :=
  address t.

(** ** Dispatch status *)

Definition recover_unused_bytes (w : World) (t : DBusTransport)
  : World * DBusTransport * bool :=
  if _dbus_auth_needs_decoding (auth t) then
    let '(s1, inited) := _dbus_string_init (sys w) in
    if negb inited then (set_sys s1 w, t, false)
    else
      let plaintext := EmptyString in
      let encoded := _dbus_auth_get_unused_bytes (auth t) in
      let '(s2, a2, decoded) :=
        _dbus_auth_decode_data s1 (auth t) encoded plaintext in
      let t2 := set_auth a2 t in
      match decoded with
      | None => (set_sys s2 w, t2, false)
      | Some plaintext =>
          let '(l3, buffer) := _dbus_message_loader_get_buffer (loader t2) in
          let t3 := set_loader l3 t2 in
          let orig_len := Z.of_nat (String.length buffer) in
          let '(s4, moved) := _dbus_string_move s2 plaintext 0 buffer orig_len in
          match moved with
          | None => (set_sys s4 w, t3, false)
          | Some buffer =>
              let l5 :=
                _dbus_message_loader_return_buffer (loader t3) buffer
                  (Z.of_nat (String.length buffer) - orig_len) in
              let t5 := set_loader l5 t3 in
              let t6 := set_auth (_dbus_auth_delete_unused_bytes (auth t5)) t5 in
              (set_sys s4 w, t6, true)
          end
      end
  else
    let '(l1, buffer) := _dbus_message_loader_get_buffer (loader t) in
    let t1 := set_loader l1 t in
    let orig_len := Z.of_nat (String.length buffer) in
    let bytes := _dbus_auth_get_unused_bytes (auth t1) in
    let '(s2, copied) :=
      _dbus_string_copy (sys w) bytes 0 buffer (Z.of_nat (String.length buffer)) in
    let succeeded := is_some copied in
    let buffer := match copied with Some b => b | None => buffer end in
    let l3 :=
      _dbus_message_loader_return_buffer (loader t1) buffer
        (Z.of_nat (String.length buffer) - orig_len) in
    let t3 := set_loader l3 t1 in
    if succeeded
    then (set_sys s2 w, set_auth (_dbus_auth_delete_unused_bytes (auth t3)) t3, true)
    else (set_sys s2 w, t3, false).

Definition DispatchResult : Type := World * DBusTransport * DBusDispatchStatus.

(** The block guarded by the first [!_dbus_transport_get_is_authenticated]. *)
Definition dispatch_authenticate (w : World) (t : DBusTransport)
  : Flow (World * DBusTransport) DispatchResult :=
  let '(w1, t1, authed) := _dbus_transport_get_is_authenticated w t in
  if negb authed then
    let '(a, st) := _dbus_auth_do_work (auth t1) in
    let t2 := set_auth a t1 in
    match st with
    | DBUS_AUTH_STATE_WAITING_FOR_MEMORY => Ret (w1, t2, DBUS_DISPATCH_NEED_MEMORY)
    | _ =>
        let '(w3, t3, authed3) := _dbus_transport_get_is_authenticated w1 t2 in
        if negb authed3 then Ret (w3, t3, DBUS_DISPATCH_COMPLETE)
        else Go (w3, t3)
    end
  else Go (w1, t1).

Definition _dbus_transport_get_dispatch_status (w : World) (t : DBusTransport)
  : DispatchResult :=
  if _dbus_counter_get_value (live_messages_size t) >=? max_live_messages_size t
  then (w, t, DBUS_DISPATCH_COMPLETE)
  else
    match dispatch_authenticate w t with
    | Ret r => r
    | Go (w1, t1) =>
        let '(w2, t2, recovered) :=
          if negb (unused_bytes_recovered t1)
          then recover_unused_bytes w1 t1
          else (w1, t1, true) in
        if negb recovered then (w2, t2, DBUS_DISPATCH_NEED_MEMORY)
        else
          let t3 := set_unused_bytes_recovered true t2 in
          let '(l, queued) := _dbus_message_loader_queue_messages (loader t3) in
          let t4 := set_loader l t3 in
          if negb queued then (w2, t4, DBUS_DISPATCH_NEED_MEMORY)
          else
            match _dbus_message_loader_peek_message (loader t4) with
            | Some _ => (w2, t4, DBUS_DISPATCH_DATA_REMAINS)
            | None => (w2, t4, DBUS_DISPATCH_COMPLETE)
            end
    end.

(** ** Queueing messages

    The [while] loop of [_dbus_transport_queue_messages], with the final
    value of [status].  [fuel] bounds the number of iterations; [None]
    means that the bound was too small, or that popping a message the loader
    had just shown failed (the source asserts that it cannot). *)
Fixpoint queue_messages_loop (fuel : nat) (w : World) (t : DBusTransport)
  : option DispatchResult :=
  match fuel with
  | O => None
  | S fuel' =>
      let '(w1, t1, status) := _dbus_transport_get_dispatch_status w t in
      match status with
      | DBUS_DISPATCH_DATA_REMAINS =>
          match _dbus_message_loader_pop_message_link (loader t1) with
          | None => None
          | Some (message, l2) =>
              let t2 := set_loader l2 t1 in
              let '(s3, c3, added, notified) :=
                _dbus_message_add_size_counter (sys w1) message
                  (live_messages_size t2) in
              let w3 := set_sys s3 w1 in
              let t3 := set_live_messages_size c3 t2 in
              let '(w4, t4) :=
                if notified then live_messages_size_notify w3 t3 else (w3, t3) in
              if negb added then
                let l5 :=
                  _dbus_message_loader_putback_message_link (loader t4) message in
                Some (w4, set_loader l5 t4, DBUS_DISPATCH_NEED_MEMORY)
              else
                (* pass ownership of link and message ref to connection *)
                queue_messages_loop fuel'
                  (emit (EvQueueReceivedMessage (connection t4) message) w4) t4
          end
      | _ => Some (w1, t1, status)
      end
  end.

Definition _dbus_transport_queue_messages (fuel : nat) (w : World)
    (t : DBusTransport) : option (World * DBusTransport * bool) :=
  match queue_messages_loop fuel w t with
  | None => None
  | Some (w1, t1, status) =>
      let '(w2, t2) :=
        if _dbus_message_loader_get_is_corrupted (loader t1)
        then _dbus_transport_disconnect w1 t1
        else (w1, t1) in
      Some (w2, t2, negb (DBusDispatchStatus_eqb status DBUS_DISPATCH_NEED_MEMORY))
  end.

(** ** Backend I/O *)

(** Modelled from the spec: the backends ([dbus-transport-socket.c] and the
    like) are not part of this development.  While it reads and writes, a
    backend feeds the Auth or the loader, clears a credentials-pending flag
    once the credentials went out or came in, disconnects, or asks the base
    to queue messages; it never sets [authenticated], which "is reached only
    through" [_dbus_transport_get_is_authenticated]. *)
Definition apply_backend_action (fuel : nat) (a : BackendAction) (w : World)
    (t : DBusTransport) : option (World * DBusTransport) :=
  match a with
  | BA_auth_progress a' => Some (w, set_auth a' t)
  | BA_loader_progress l => Some (w, set_loader l t)
  | BA_credentials_sent => Some (w, set_send_credentials_pending false t)
  | BA_credentials_received => Some (w, set_receive_credentials_pending false t)
  | BA_disconnect => Some (_dbus_transport_disconnect w t)
  | BA_queue_messages =>
      match _dbus_transport_queue_messages fuel w t with
      | None => None
      | Some (w1, t1, _) => Some (w1, t1)
      end
  end.

Fixpoint apply_backend_actions (fuel : nat) (acts : list BackendAction)
    (w : World) (t : DBusTransport) : option (World * DBusTransport) :=
  match acts with
  | [] => Some (w, t)
  | a :: rest =>
      match apply_backend_action fuel a w t with
      | None => None
      | Some (w1, t1) => apply_backend_actions fuel rest w1 t1
      end
  end.

(** The reference taken on [watch] across the hook is not recorded. *)
Definition _dbus_transport_handle_watch (fuel : nat) (w : World)
    (t : DBusTransport) (watch : DBusWatch) (condition : Z)
  : option (World * DBusTransport * bool) :=
  if disconnected t then Some (w, t, true)
  else if watch_fd watch <? 0 then Some (emit EvWarnCheckFailed w, t, true)
  else
    let condition := _dbus_watch_sanitize_condition watch condition in
    let t1 := _dbus_transport_ref t in
    let '(s, b, acts, retval) := vt_handle_watch vtable (sys w) t1 watch condition in
    match apply_backend_actions fuel acts (set_sys s w) (set_backend b t1) with
    | None => None
    | Some (w2, t2) =>
        let '(w3, t3) := _dbus_transport_unref w2 t2 in
        Some (w3, t3, retval)
    end.

Definition _dbus_transport_set_connection (w : World) (t : DBusTransport)
    (cn : option ConnPtr) : World * DBusTransport * bool :=
  let t1 := set_connection cn t in
  let t2 := _dbus_transport_ref t1 in
  let '(s, b, ok) := vt_connection_set vtable (sys w) t2 in
  let w3 := set_sys s w in
  let t3 := set_backend b t2 in
  let t4 := if negb ok then set_connection None t3 else t3 in
  let '(w5, t5) := _dbus_transport_unref w3 t4 in
  (w5, t5, is_some (connection t5)).

Definition _dbus_transport_get_socket_fd (w : World) (t : DBusTransport)
  : World * DBusTransport * option Z :=
  match vt_get_socket_fd vtable with
  | None => (w, t, None)
  | Some h =>
      if disconnected t then (w, t, None)
      else
        let t1 := _dbus_transport_ref t in
        let '(s, b, fd) := h (sys w) t1 in
        let '(w2, t2) := _dbus_transport_unref (set_sys s w) (set_backend b t1) in
        (w2, t2, fd)
  end.

Definition _dbus_transport_do_iteration (fuel : nat) (w : World)
    (t : DBusTransport) (flags : Z) (timeout_milliseconds : Z)
  : option (World * DBusTransport) :=
  if Z.land flags (Z.lor DBUS_ITERATION_DO_WRITING DBUS_ITERATION_DO_READING) =? 0
  then Some (w, t)
  else if disconnected t then Some (w, t)
  else
    let t1 := _dbus_transport_ref t in
    let '(s, b, acts) :=
      vt_do_iteration vtable (sys w) t1 flags timeout_milliseconds in
    match apply_backend_actions fuel acts (set_sys s w) (set_backend b t1) with
    | None => None
    | Some (w2, t2) => Some (_dbus_transport_unref w2 t2)
    end.

Definition _dbus_transport_set_max_message_size (t : DBusTransport) (size : Z)
  : DBusTransport :=
  set_loader (_dbus_message_loader_set_max_message_size (loader t) size) t.

Definition _dbus_transport_get_max_message_size (t : DBusTransport) : Z :=
  _dbus_message_loader_get_max_message_size (loader t).

Definition _dbus_transport_set_max_received_size (t : DBusTransport) (size : Z)
  : DBusTransport :=
  let t1 := set_max_live_messages_size size t in
  set_live_messages_size
    (_dbus_counter_set_notify (live_messages_size t1)
       (max_live_messages_size t1) true) t1.

Definition _dbus_transport_get_max_received_size (t : DBusTransport) : Z :=
  max_live_messages_size t.

(** The second component is what the call leaves in [*uid]. *)
Definition _dbus_transport_get_unix_user (t : DBusTransport) : bool * Z :=
  if negb (authenticated t) then (false, _DBUS_INT32_MAX)
  else
    let auth_identity := _dbus_auth_get_identity (auth t) in
    if negb (uid auth_identity =? DBUS_UID_UNSET)
    then (true, uid auth_identity)
    else (false, _DBUS_INT32_MAX).

Definition _dbus_transport_get_unix_process_id (t : DBusTransport) : bool * Z :=
  if negb (authenticated t) then (false, DBUS_PID_UNSET)
  else
    let auth_identity := _dbus_auth_get_identity (auth t) in
    if negb (pid auth_identity =? DBUS_PID_UNSET)
    then (true, pid auth_identity)
    else (false, DBUS_PID_UNSET).

(** Returns the transport with the old data and free function. *)
Definition _dbus_transport_set_unix_user_function (t : DBusTransport)
    (function : option DBusAllowUnixUserFunction) (data : Z)
    (free_data_function : option Z) : DBusTransport * Z * option Z :=
  ({| refcount := refcount t;
      loader := loader t;
      auth := auth t;
      live_messages_size := live_messages_size t;
      max_live_messages_size := max_live_messages_size t;
      connection := connection t;
      disconnected := disconnected t;
      authenticated := authenticated t;
      is_server := is_server t;
      send_credentials_pending := send_credentials_pending t;
      receive_credentials_pending := receive_credentials_pending t;
      unused_bytes_recovered := unused_bytes_recovered t;
      address := address t;
      expected_guid := expected_guid t;
      unix_user_function := function;
      unix_user_data := data;
      free_unix_user_data := free_data_function;
      credentials := credentials t;
      backend := backend t |},
   unix_user_data t, free_unix_user_data t).

Definition _dbus_transport_set_auth_mechanisms (w : World) (t : DBusTransport)
    (mechanisms : list string) : World * DBusTransport * bool :=
  let '(s, a, ok) := _dbus_auth_set_mechanisms (sys w) (auth t) mechanisms in
  (set_sys s w, set_auth a t, ok).

(** ** Sequences of operations on one transport *)

Inductive Op :=
| Op_ref
| Op_unref
| Op_disconnect
| Op_get_is_authenticated
| Op_handle_watch (watch : DBusWatch) (condition : Z)
| Op_set_connection (cn : option ConnPtr)
| Op_get_socket_fd
| Op_do_iteration (flags timeout_milliseconds : Z)
| Op_get_dispatch_status
| Op_queue_messages
| Op_set_max_message_size (size : Z)
| Op_set_max_received_size (size : Z)
| Op_set_unix_user_function (function : option DBusAllowUnixUserFunction)
    (data : Z) (free_data_function : option Z)
| Op_set_auth_mechanisms (mechanisms : list string).

(** One operation; its return value is dropped.  [None] when a message
    loop needed more than [fuel] iterations. *)
Definition exec_op (fuel : nat) (op : Op) (w : World) (t : DBusTransport)
  : option (World * DBusTransport) :=
  match op with
  | Op_ref => Some (w, _dbus_transport_ref t)
  | Op_unref => Some (_dbus_transport_unref w t)
  | Op_disconnect => Some (_dbus_transport_disconnect w t)
  | Op_get_is_authenticated =>
      let '(w1, t1, _) := _dbus_transport_get_is_authenticated w t in Some (w1, t1)
  | Op_handle_watch watch condition =>
      match _dbus_transport_handle_watch fuel w t watch condition with
      | None => None
      | Some (w1, t1, _) => Some (w1, t1)
      end
  | Op_set_connection cn =>
      let '(w1, t1, _) := _dbus_transport_set_connection w t cn in Some (w1, t1)
  | Op_get_socket_fd =>
      let '(w1, t1, _) := _dbus_transport_get_socket_fd w t in Some (w1, t1)
  | Op_do_iteration flags timeout_milliseconds =>
      _dbus_transport_do_iteration fuel w t flags timeout_milliseconds
  | Op_get_dispatch_status =>
      let '(w1, t1, _) := _dbus_transport_get_dispatch_status w t in Some (w1, t1)
  | Op_queue_messages =>
      match _dbus_transport_queue_messages fuel w t with
      | None => None
      | Some (w1, t1, _) => Some (w1, t1)
      end
  | Op_set_max_message_size size =>
      Some (w, _dbus_transport_set_max_message_size t size)
  | Op_set_max_received_size size =>
      Some (w, _dbus_transport_set_max_received_size t size)
  | Op_set_unix_user_function function data free_data_function =>
      Some (w, fst (fst (_dbus_transport_set_unix_user_function t function data
                           free_data_function)))
  | Op_set_auth_mechanisms mechanisms =>
      let '(w1, t1, _) := _dbus_transport_set_auth_mechanisms w t mechanisms in
      Some (w1, t1)
  end.

(** The states observed after each operation of [ops], in order. *)
Fixpoint exec_ops (fuel : nat) (ops : list Op) (w : World) (t : DBusTransport)
  : option (list (World * DBusTransport)) :=
  match ops with
  | [] => Some []
  | op :: rest =>
      match exec_op fuel op w t with
      | None => None
      | Some (w1, t1) =>
          match exec_ops fuel rest w1 t1 with
          | None => None
          | Some sts => Some ((w1, t1) :: sts)
          end
      end
  end.

(** The successive values of [authenticated], from [t] on. *)
Definition authenticated_history (t : DBusTransport)
    (sts : list (World * DBusTransport)) : list bool :=
  authenticated t :: map (fun st => authenticated (snd st)) sts.

(** [authenticated] is not set while a credentials exchange is pending. *)
Definition authenticated_after_credentials (t : DBusTransport) : Prop :=
  authenticated t = true ->
  send_credentials_pending t = false /\ receive_credentials_pending t = false.

(** How often a sequence of observations of a flag goes from [false] to
    [true], and from [true] to [false]. *)
Fixpoint rises (obs : list bool) : nat :=
  match obs with
  | a :: ((b :: _) as rest) =>
      ((if negb a && b then 1 else 0) + rises rest)%nat
  | _ => O
  end.

Fixpoint falls (obs : list bool) : nat :=
  match obs with
  | a :: ((b :: _) as rest) =>
      ((if a && negb b then 1 else 0) + falls rest)%nat
  | _ => O
  end.

(** References to connection [cn] taken minus references released. *)
Fixpoint connection_refs (cn : option ConnPtr) (tr : list Event) : Z :=
  match tr with
  | [] => 0
  | EvConnectionRef c :: rest =>
      (if option_nat_eqb c cn then 1 else 0) + connection_refs cn rest
  | EvConnectionUnref c :: rest =>
      connection_refs cn rest - (if option_nat_eqb c cn then 1 else 0)
  | _ :: rest => connection_refs cn rest
  end.

(** How many times a reference to [cn] was released. *)
Fixpoint connection_unrefs (cn : option ConnPtr) (tr : list Event) : nat :=
  match tr with
  | [] => O
  | EvConnectionUnref c :: rest =>
      ((if option_nat_eqb c cn then 1 else 0) + connection_unrefs cn rest)%nat
  | _ :: rest => connection_unrefs cn rest
  end.

(** Objects of kind [r] acquired and not released. *)
Fixpoint outstanding (r : Resource) (tr : list Event) : Z :=
  match tr with
  | [] => 0
  | EvAcquire r' :: rest =>
      (if Resource_eqb r' r then 1 else 0) + outstanding r rest
  | EvRelease r' :: rest =>
      outstanding r rest - (if Resource_eqb r' r then 1 else 0)
  | _ :: rest => outstanding r rest
  end.

(** The messages handed to the connection, oldest first. *)
Fixpoint delivered (tr : list Event) : list DBusMessage :=
  match tr with
  | [] => []
  | EvQueueReceivedMessage _ m :: rest => delivered rest ++ [m]
  | _ :: rest => delivered rest
  end.

(** ** Opening a transport for an address entry *)

(** What an entry of [open_funcs] returns: the result code and what it
    left in [*transport_p] and [*error].  [None] stands for a call that
    does not return. *)
Definition OpenOutcome : Type :=
  World * DBusTransportOpenResult * option DBusTransport * DBusError.

Definition OpenFunc : Type :=
  World -> DBusAddressEntry -> option DBusTransport -> DBusError
  -> option OpenOutcome.

(** The openers defined by the backends. *)
Variable _dbus_transport_open_socket : OpenFunc.
Variable _dbus_transport_open_platform_specific : OpenFunc.
Variable _dbus_transport_open_debug_pipe : OpenFunc.

(** [_dbus_transport_open], as [check_address] sees it. *)
Definition Opener : Type :=
  World -> DBusAddressEntry -> DBusError
  -> option (World * option DBusTransport * DBusError).

Fixpoint check_address_entries (open : Opener) (w : World)
    (entries : list DBusAddressEntry) (error : DBusError)
  : option (World * option DBusTransport * DBusError) :=
  match entries with
  | [] => Some (w, None, error)
  | e :: rest =>
      match open w e error with
      | None => None
      | Some (w1, Some t, error1) => Some (w1, Some t, error1)
      | Some (w1, None, error1) => check_address_entries open w1 rest error1
      end
  end.

Definition check_address (open : Opener) (w : World) (address : string)
    (error : DBusError) : option (World * option DBusTransport * DBusError) :=
  let '(s, entries, error1) := dbus_parse_address (sys w) address error in
  match entries with
  | None => Some (set_sys s w, None, error1)
  | Some entries => check_address_entries open (set_sys s w) entries error1
  end.

Definition _dbus_transport_new_for_autolaunch (open : Opener) (w : World)
    (error : DBusError) : option (World * option DBusTransport * DBusError) :=
  let '(s1, inited) := _dbus_string_init (sys w) in
  if negb inited then
    Some (set_sys s1 w, None, _DBUS_SET_OOM)
  else
    let '(s2, address, found, error2) :=
      _dbus_get_autolaunch_address s1 EmptyString error in
    if negb found then Some (set_sys s2 w, None, error2)
    else check_address open (set_sys s2 w) address error2.

Definition _dbus_transport_open_autolaunch (open : Opener) : OpenFunc :=
  fun w entry transport_p error =>
    let method := dbus_address_entry_get_method entry in
    if String.eqb method "autolaunch" then
      match _dbus_transport_new_for_autolaunch open w error with
      | None => None
      | Some (w1, None, error1) =>
          Some (w1, DBUS_TRANSPORT_OPEN_DID_NOT_CONNECT, None, error1)
      | Some (w1, Some t, error1) =>
          Some (w1, DBUS_TRANSPORT_OPEN_OK, Some t, error1)
      end
    else Some (w, DBUS_TRANSPORT_OPEN_NOT_HANDLED, transport_p, error).

(** The [for] loop over [open_funcs] with its [switch]. *)
Fixpoint try_open_funcs (funcs : list OpenFunc) (w : World)
    (entry : DBusAddressEntry) (transport : option DBusTransport)
    (tmp_error : DBusError) : option (World * option DBusTransport * DBusError) :=
  match funcs with
  | [] => Some (w, transport, tmp_error)
  | func :: rest =>
      match func w entry transport tmp_error with
      | None => None
      | Some (w1, result, transport1, tmp_error1) =>
          match result with
          | DBUS_TRANSPORT_OPEN_OK => Some (w1, transport1, tmp_error1)
          | DBUS_TRANSPORT_OPEN_NOT_HANDLED =>
              (* keep going through the loop of open funcs *)
              try_open_funcs rest w1 entry transport1 tmp_error1
          | DBUS_TRANSPORT_OPEN_BAD_ADDRESS => Some (w1, transport1, tmp_error1)
          | DBUS_TRANSPORT_OPEN_DID_NOT_CONNECT => Some (w1, transport1, tmp_error1)
          end
      end
  end.

Definition double_quote : string := String (Ascii.ascii_of_nat 34) EmptyString.

Definition unknown_address_type_message : string :=
  ("Unknown address type (examples of valid types are "
   ++ double_quote ++ "tcp" ++ double_quote ++ " and on UNIX "
   ++ double_quote ++ "unix" ++ double_quote ++ ")")%string.

(** [_dbus_transport_open] over a given table of openers. *)
Definition _dbus_transport_open_with (funcs : list OpenFunc) : Opener :=
  fun w entry error =>
    let expected_guid_orig := dbus_address_entry_get_value entry "guid" in
    let '(s, expected_guid) := _dbus_strdup (sys w) expected_guid_orig in
    let w0 := acquire_if_set RExpectedGuid expected_guid (set_sys s w) in
    if is_some expected_guid_orig && negb (is_some expected_guid) then
      Some (w0, None, _DBUS_SET_OOM)
    else
      match try_open_funcs funcs w0 entry None None with
      | None => None
      | Some (w1, transport, tmp_error) =>
          match transport with
          | None =>
              let tmp_error1 :=
                if negb (dbus_error_is_set tmp_error)
                then _dbus_set_bad_address unknown_address_type_message
                else tmp_error in
              Some (release_if_set RExpectedGuid expected_guid w1, None,
                    tmp_error1)
          | Some t => Some (w1, Some (set_expected_guid expected_guid t), error)
          end
      end.

(** The table [open_funcs].  The autolaunch opener re-enters
    [_dbus_transport_open] on the address it finds; [depth] bounds how deep
    autolaunch addresses may nest. *)
Fixpoint open_funcs (depth : nat) : list OpenFunc :=
  [ _dbus_transport_open_socket;
    _dbus_transport_open_platform_specific;
    _dbus_transport_open_autolaunch
      (match depth with
       | O => fun _ _ _ => None
       | S d => _dbus_transport_open_with (open_funcs d)
       end) ]
  ++ (if DBUS_BUILD_TESTS then [ _dbus_transport_open_debug_pipe ] else []).

Definition _dbus_transport_open (depth : nat) : Opener :=
  _dbus_transport_open_with (open_funcs depth).

(** The openers of [funcs] all decline the entry, one after the other,
    starting from [w] with nothing in [*transport_p] and a clear error;
    [w'] is the world they leave. *)
Inductive all_not_handled (entry : DBusAddressEntry)
  : list OpenFunc -> World -> World -> Prop :=
| anh_nil (w : World) : all_not_handled entry [] w w
| anh_cons (func : OpenFunc) (rest : list OpenFunc) (w w1 w2 : World) :
    func w entry None None = Some (w1, DBUS_TRANSPORT_OPEN_NOT_HANDLED, None, None) ->
    all_not_handled entry rest w1 w2 ->
    all_not_handled entry (func :: rest) w w2.

(** ** The dispatch-status algorithm, described

    "If the live counter value is at least the maximum, COMPLETE.  If not
    authenticated, step the Auth; if it reports WaitingForMemory,
    NEED_MEMORY; if still not authenticated, COMPLETE.  If unused bytes are
    not recovered, recover them: on failure NEED_MEMORY, on success set the
    flag.  Ask the loader to queue messages; on failure NEED_MEMORY.  If the
    loader can peek a message, DATA_REMAINS, else COMPLETE."  Whether the
    transport is authenticated is what the is_authenticated procedure
    answers, and that procedure steps the Auth too: the steps are written
    out. *)

(** The Auth after [n] steps. *)
Fixpoint auth_after (n : nat) (a : DBusAuth) : DBusAuth :=
  match n with
  | O => a
  | S n' => fst (_dbus_auth_do_work (auth_after n' a))
  end.

(** The steps of the Auth in one run of the is_authenticated procedure:
    one, unless the transport is authenticated or disconnected already, or a
    credentials exchange is pending. *)
Definition check_steps (t : DBusTransport) : nat :=
  if authenticated t || disconnected t
     || send_credentials_pending t || receive_credentials_pending t
  then O else 1%nat.

(** "Unused-bytes recovery moves the Auth's trailing bytes into the
    loader's buffer.  If the Auth reports that incoming data must be decoded:
    decode the encoded trailing bytes into a fresh plaintext buffer, append
    it to the loader's buffer, then delete the unused bytes from Auth.
    Otherwise: copy the trailing bytes directly into the loader's buffer and
    delete them from Auth on success."  An allocation that fails (the
    plaintext buffer, the decoding, the append, the copy) makes the recovery
    fail, with what was done until then left as it is. *)
Inductive described_recovery (w : World) (t : DBusTransport)
  : World * DBusTransport * bool -> Prop :=
| rec_decoded (s1 s2 s4 : Sys) (a2 : DBusAuth) (plaintext buffer appended : string)
    (l : DBusMessageLoader) :
    _dbus_auth_needs_decoding (auth t) = true ->
    _dbus_string_init (sys w) = (s1, true) ->
    _dbus_auth_decode_data s1 (auth t) (_dbus_auth_get_unused_bytes (auth t))
      EmptyString = (s2, a2, Some plaintext) ->
    _dbus_message_loader_get_buffer (loader t) = (l, buffer) ->
    _dbus_string_move s2 plaintext 0 buffer (Z.of_nat (String.length buffer))
    = (s4, Some appended) ->
    described_recovery w t
      (set_sys s4 w,
       set_auth (_dbus_auth_delete_unused_bytes a2)
         (set_loader
            (_dbus_message_loader_return_buffer l appended
               (Z.of_nat (String.length appended)
                - Z.of_nat (String.length buffer))) t),
       true)
| rec_copied (s2 : Sys) (buffer appended : string) (l : DBusMessageLoader) :
    _dbus_auth_needs_decoding (auth t) = false ->
    _dbus_message_loader_get_buffer (loader t) = (l, buffer) ->
    _dbus_string_copy (sys w) (_dbus_auth_get_unused_bytes (auth t)) 0 buffer
      (Z.of_nat (String.length buffer)) = (s2, Some appended) ->
    described_recovery w t
      (set_sys s2 w,
       set_auth (_dbus_auth_delete_unused_bytes (auth t))
         (set_loader
            (_dbus_message_loader_return_buffer l appended
               (Z.of_nat (String.length appended)
                - Z.of_nat (String.length buffer))) t),
       true)
| rec_no_plaintext (s1 : Sys) :
    _dbus_auth_needs_decoding (auth t) = true ->
    _dbus_string_init (sys w) = (s1, false) ->
    described_recovery w t (set_sys s1 w, t, false)
| rec_not_decoded (s1 s2 : Sys) (a2 : DBusAuth) :
    _dbus_auth_needs_decoding (auth t) = true ->
    _dbus_string_init (sys w) = (s1, true) ->
    _dbus_auth_decode_data s1 (auth t) (_dbus_auth_get_unused_bytes (auth t))
      EmptyString = (s2, a2, None) ->
    described_recovery w t (set_sys s2 w, set_auth a2 t, false)
| rec_not_appended (s1 s2 s4 : Sys) (a2 : DBusAuth) (plaintext buffer : string)
    (l : DBusMessageLoader) :
    _dbus_auth_needs_decoding (auth t) = true ->
    _dbus_string_init (sys w) = (s1, true) ->
    _dbus_auth_decode_data s1 (auth t) (_dbus_auth_get_unused_bytes (auth t))
      EmptyString = (s2, a2, Some plaintext) ->
    _dbus_message_loader_get_buffer (loader t) = (l, buffer) ->
    _dbus_string_move s2 plaintext 0 buffer (Z.of_nat (String.length buffer))
    = (s4, None) ->
    described_recovery w t (set_sys s4 w, set_loader l (set_auth a2 t), false)
| rec_not_copied (s2 : Sys) (buffer : string) (l : DBusMessageLoader) :
    _dbus_auth_needs_decoding (auth t) = false ->
    _dbus_message_loader_get_buffer (loader t) = (l, buffer) ->
    _dbus_string_copy (sys w) (_dbus_auth_get_unused_bytes (auth t)) 0 buffer
      (Z.of_nat (String.length buffer)) = (s2, None) ->
    described_recovery w t
      (set_sys s2 w,
       set_loader (_dbus_message_loader_return_buffer l buffer 0) t,
       false).

(** The transport is authenticated: the is_authenticated procedure says so
    at once, or it says so after one more step of the Auth, taken from where
    the first run of the procedure left the Auth. *)
Inductive stepped_authenticated (w : World) (t : DBusTransport)
  : World -> DBusTransport -> Prop :=
| sa_at_once (w1 : World) (t1 : DBusTransport) :
    _dbus_transport_get_is_authenticated w t = (w1, t1, true) ->
    stepped_authenticated w t w1 t1
| sa_after_step (w1 w3 : World) (t1 t3 : DBusTransport) (a : DBusAuth)
    (st : DBusAuthState) :
    _dbus_transport_get_is_authenticated w t = (w1, t1, false) ->
    _dbus_auth_do_work (auth_after (check_steps t) (auth t)) = (a, st) ->
    st <> DBUS_AUTH_STATE_WAITING_FOR_MEMORY ->
    _dbus_transport_get_is_authenticated w1 (set_auth a t1) = (w3, t3, true) ->
    stepped_authenticated w t w3 t3.

(** Unused bytes are recovered already, or are recovered now. *)
Inductive bytes_recovered (w : World) (t : DBusTransport)
  : World -> DBusTransport -> Prop :=
| br_already :
    unused_bytes_recovered t = true -> bytes_recovered w t w t
| br_now (w1 : World) (t1 : DBusTransport) :
    unused_bytes_recovered t = false ->
    described_recovery w t (w1, t1, true) ->
    bytes_recovered w t w1 t1.

(** The loader queues messages and is asked for the first one. *)
Inductive described_loader (w : World) (t : DBusTransport)
  : DispatchResult -> Prop :=
| dl_need_memory (l : DBusMessageLoader) :
    _dbus_message_loader_queue_messages (loader t) = (l, false) ->
    described_loader w t (w, set_loader l t, DBUS_DISPATCH_NEED_MEMORY)
| dl_data_remains (l : DBusMessageLoader) (m : DBusMessage) :
    _dbus_message_loader_queue_messages (loader t) = (l, true) ->
    _dbus_message_loader_peek_message l = Some m ->
    described_loader w t (w, set_loader l t, DBUS_DISPATCH_DATA_REMAINS)
| dl_complete (l : DBusMessageLoader) :
    _dbus_message_loader_queue_messages (loader t) = (l, true) ->
    _dbus_message_loader_peek_message l = None ->
    described_loader w t (w, set_loader l t, DBUS_DISPATCH_COMPLETE).

Inductive dispatch_status_as_amended (w : World) (t : DBusTransport)
  : DispatchResult -> Prop :=
| am_counter_full :
    max_live_messages_size t <= _dbus_counter_get_value (live_messages_size t) ->
    dispatch_status_as_amended w t (w, t, DBUS_DISPATCH_COMPLETE)
| am_auth_needs_memory (w1 : World) (t1 : DBusTransport) (a : DBusAuth) :
    _dbus_counter_get_value (live_messages_size t) < max_live_messages_size t ->
    _dbus_transport_get_is_authenticated w t = (w1, t1, false) ->
    _dbus_auth_do_work (auth_after (check_steps t) (auth t))
    = (a, DBUS_AUTH_STATE_WAITING_FOR_MEMORY) ->
    dispatch_status_as_amended w t (w1, set_auth a t1, DBUS_DISPATCH_NEED_MEMORY)
| am_still_not_authenticated (w1 w3 : World) (t1 t3 : DBusTransport)
    (a : DBusAuth) (st : DBusAuthState) :
    _dbus_counter_get_value (live_messages_size t) < max_live_messages_size t ->
    _dbus_transport_get_is_authenticated w t = (w1, t1, false) ->
    _dbus_auth_do_work (auth_after (check_steps t) (auth t)) = (a, st) ->
    st <> DBUS_AUTH_STATE_WAITING_FOR_MEMORY ->
    _dbus_transport_get_is_authenticated w1 (set_auth a t1) = (w3, t3, false) ->
    dispatch_status_as_amended w t (w3, t3, DBUS_DISPATCH_COMPLETE)
| am_recovery_fails (w1 w2 : World) (t1 t2 : DBusTransport) :
    _dbus_counter_get_value (live_messages_size t) < max_live_messages_size t ->
    stepped_authenticated w t w1 t1 ->
    unused_bytes_recovered t1 = false ->
    described_recovery w1 t1 (w2, t2, false) ->
    dispatch_status_as_amended w t (w2, t2, DBUS_DISPATCH_NEED_MEMORY)
| am_streaming (w1 w2 : World) (t1 t2 : DBusTransport) (r : DispatchResult) :
    _dbus_counter_get_value (live_messages_size t) < max_live_messages_size t ->
    stepped_authenticated w t w1 t1 ->
    bytes_recovered w1 t1 w2 t2 ->
    described_loader w2 (set_unused_bytes_recovered true t2) r ->
    dispatch_status_as_amended w t r.

(** The sentence "if not authenticated, it steps the Auth once and returns
    NEED_MEMORY when the Auth reports WaitingForMemory or COMPLETE when still
    not authenticated", read literally: a call below the limit that leaves
    the transport not authenticated has stepped its Auth once, and answers
    NEED_MEMORY exactly when that step reported WaitingForMemory. *)
Definition auth_stepped_once_as_stated : Prop :=
  forall (w w' : World) (t t' : DBusTransport) (st : DBusDispatchStatus),
    _dbus_counter_get_value (live_messages_size t) < max_live_messages_size t ->
    authenticated t = false ->
    _dbus_transport_get_dispatch_status w t = (w', t', st) ->
    authenticated t' = false ->
    auth t' = fst (_dbus_auth_do_work (auth t))
    /\ (st = DBUS_DISPATCH_NEED_MEMORY
        <-> snd (_dbus_auth_do_work (auth t)) = DBUS_AUTH_STATE_WAITING_FOR_MEMORY).

(** ** Predicates used by the statements *)

(** One of the four sub-constructions of [_dbus_transport_init_base] runs
    out of memory: the loader, the Auth (server or client), the counter, or
    (client side) the copy of the address. *)
Definition auth_new (s : Sys) (server_guid : option string)
  : Sys * option DBusAuth :=
  match server_guid with
  | Some g => _dbus_auth_server_new s g
  | None => _dbus_auth_client_new s
  end.

Inductive construction_fails (w : World) (server_guid address : option string)
  : Prop :=
| loader_fails (s1 : Sys) :
    _dbus_message_loader_new (sys w) = (s1, None) ->
    construction_fails w server_guid address
| auth_fails (s1 s2 : Sys) (l : DBusMessageLoader) :
    _dbus_message_loader_new (sys w) = (s1, Some l) ->
    auth_new s1 server_guid = (s2, None) ->
    construction_fails w server_guid address
| counter_fails (s1 s2 s3 : Sys) (l : DBusMessageLoader) (a : DBusAuth) :
    _dbus_message_loader_new (sys w) = (s1, Some l) ->
    auth_new s1 server_guid = (s2, Some a) ->
    _dbus_counter_new s2 = (s3, None) ->
    construction_fails w server_guid address
| address_copy_fails (s1 s2 s3 s4 : Sys) (l : DBusMessageLoader) (a : DBusAuth)
    (c : DBusCounter) :
    _dbus_message_loader_new (sys w) = (s1, Some l) ->
    auth_new s1 server_guid = (s2, Some a) ->
    _dbus_counter_new s2 = (s3, Some c) ->
    server_guid = None ->
    _dbus_string_copy_data s3 address = (s4, None) ->
    construction_fails w server_guid address.

(** How [authenticated] and the credentials-pending flags may move between
    two states of a transport: [authenticated] is kept once set, a pending
    flag is never raised, and [authenticated] is set only with both pending
    flags down. *)
Definition auth_step (t t' : DBusTransport) : Prop :=
  (authenticated t = true -> authenticated t' = true)
  /\ (send_credentials_pending t' = true -> send_credentials_pending t = true)
  /\ (receive_credentials_pending t' = true -> receive_credentials_pending t = true)
  /\ (authenticated t' = true ->
      authenticated t = true
      \/ (send_credentials_pending t' = false
          /\ receive_credentials_pending t' = false)).

(** [w'] is [w] with more events. *)
Definition trace_extends (w w' : World) : Prop :=
  exists evs, trace w' = evs ++ trace w.

(** The part of a transport that neither housekeeping (reference counts,
    disconnection, finalisation, counter notification) nor the handshake
    check touches; [disconnected] is never reset. *)
Definition frame (t t' : DBusTransport) : Prop :=
  loader t' = loader t
  /\ unused_bytes_recovered t' = unused_bytes_recovered t
  /\ connection t' = connection t
  /\ is_server t' = is_server t
  /\ send_credentials_pending t' = send_credentials_pending t
  /\ receive_credentials_pending t' = receive_credentials_pending t
  /\ (disconnected t = true -> disconnected t' = true).

(** Nothing was delivered to a connection and no connection reference
    moved between [w] and [w']. *)
Definition quiet (w w' : World) : Prop :=
  delivered (trace w') = delivered (trace w)
  /\ (forall cn, connection_refs cn (trace w') = connection_refs cn (trace w))
  /\ (forall cn, connection_unrefs cn (trace w') = connection_unrefs cn (trace w))
  /\ trace_extends w w'.

(** What computing the dispatch status keeps as well as it changes: the
    loader and the Auth move, [unused_bytes_recovered] is only ever set. *)
Definition loose_frame (t t' : DBusTransport) : Prop :=
  connection t' = connection t
  /\ is_server t' = is_server t
  /\ send_credentials_pending t' = send_credentials_pending t
  /\ receive_credentials_pending t' = receive_credentials_pending t
  /\ (disconnected t = true -> disconnected t' = true)
  /\ (unused_bytes_recovered t = true -> unused_bytes_recovered t' = true).

(** Between [w] and [w'] one reference to connection [cn] was released,
    and none was taken. *)
Definition released (cn : option ConnPtr) (w w' : World) : Prop :=
  connection_unrefs cn (trace w') = S (connection_unrefs cn (trace w))
  /\ connection_refs cn (trace w') = connection_refs cn (trace w) - 1.

(** A transport disconnected before it was authenticated. *)
Definition severed (t : DBusTransport) : Prop :=
  disconnected t = true /\ authenticated t = false.

(** What any operation on a transport respects: the movement of the
    handshake flags, the permanence of disconnection, and, on a transport
    severed before authentication, that it stays so and delivers nothing. *)
Definition op_step (w w' : World) (t t' : DBusTransport) : Prop :=
  auth_step t t'
  /\ (disconnected t = true -> disconnected t' = true)
  /\ (severed t ->
      severed t' /\ delivered (trace w') = delivered (trace w)).

(** The three ways the peer is turned down once the Auth [a] has reported
    Authenticated: the server GUID is not the expected one; the
    [unix_user_function] rejects the peer's uid; or, with no such function
    in play, the peer's identity is not that of this process. *)
Definition auth_rejected (w : World) (t : DBusTransport) (a : DBusAuth) : Prop :=
  (is_server t = false
   /\ exists g, expected_guid t = Some g
                /\ g <> _dbus_auth_get_guid_from_server a)
  \/ (is_server t = true /\ DBUS_WIN = false
      /\ exists f, unix_user_function t = Some f
                   /\ f (connection t) (uid (_dbus_auth_get_identity a))
                        (unix_user_data t) = false)
  \/ (is_server t = true
      /\ (unix_user_function t = None \/ DBUS_WIN = true)
      /\ _dbus_credentials_match
           (_dbus_credentials_from_current_process (sys w))
           (_dbus_auth_get_identity a) = false).

(** The sentence "for every address entry the opener tries the openers in
    order and returns the transport of the first that answers OK", read
    literally: whatever became of the copy of the entry's [guid]. *)
Definition opener_as_stated : Prop :=
  forall (depth : nat) (w : World) (entry : DBusAddressEntry) (error : DBusError)
         (s : Sys) (copy : option string),
    _dbus_strdup (sys w) (dbus_address_entry_get_value entry "guid") = (s, copy) ->
    let w0 := acquire_if_set RExpectedGuid copy (set_sys s w) in
    forall pre func post w1 w2 t,
      open_funcs depth = pre ++ func :: post ->
      all_not_handled entry pre w0 w1 ->
      func w1 entry None None = Some (w2, DBUS_TRANSPORT_OPEN_OK, Some t, None) ->
      _dbus_transport_open depth w entry error
      = Some (w2, Some (set_expected_guid copy t), error).

(** A loader that has found its stream corrupted stays corrupted, whatever
    the transport does with it. *)
Definition corruption_is_permanent : Prop :=
  (forall l l' b,
      _dbus_message_loader_get_buffer l = (l', b) ->
      _dbus_message_loader_get_is_corrupted l = true ->
      _dbus_message_loader_get_is_corrupted l' = true)
  /\ (forall l b n,
         _dbus_message_loader_get_is_corrupted l = true ->
         _dbus_message_loader_get_is_corrupted
           (_dbus_message_loader_return_buffer l b n) = true)
  /\ (forall l l' ok,
         _dbus_message_loader_queue_messages l = (l', ok) ->
         _dbus_message_loader_get_is_corrupted l = true ->
         _dbus_message_loader_get_is_corrupted l' = true)
  /\ (forall l l' m,
         _dbus_message_loader_pop_message_link l = Some (m, l') ->
         _dbus_message_loader_get_is_corrupted l = true ->
         _dbus_message_loader_get_is_corrupted l' = true)
  /\ (forall l m,
         _dbus_message_loader_get_is_corrupted l = true ->
         _dbus_message_loader_get_is_corrupted
           (_dbus_message_loader_putback_message_link l m) = true).

(** What the queueing loop needs from the loader to come to an end: a
    bound on the messages it can still yield, which queueing does not raise
    and which popping the message it shows lowers. *)
Definition loader_yields_finitely (remaining : DBusMessageLoader -> nat) : Prop :=
  (forall l l' ok,
      _dbus_message_loader_queue_messages l = (l', ok) ->
      (remaining l' <= remaining l)%nat)
  /\ (forall l m,
         _dbus_message_loader_peek_message l = Some m ->
         exists m' l',
           _dbus_message_loader_pop_message_link l = Some (m', l')
           /\ (remaining l' < remaining l)%nat).

(** The loop of [_dbus_transport_queue_messages] is back at its head in
    state [(w', t')], having handed the messages [ms] to the connection, one
    per turn, since it was entered in state [(w, t)]: each turn found
    DATA_REMAINS, popped a message, attached the counter to it (running the
    notify function if the counter asked for it) and queued it. *)
Inductive loop_delivers (w : World) (t : DBusTransport)
  : list DBusMessage -> World -> DBusTransport -> Prop :=
| ld_start : loop_delivers w t [] w t
| ld_turn (ms : list DBusMessage) (w0 w1 w4 : World) (t0 t1 t4 : DBusTransport)
    (m : DBusMessage) (l : DBusMessageLoader) (s : Sys) (c : DBusCounter)
    (notified : bool) :
    loop_delivers w t ms w0 t0 ->
    _dbus_transport_get_dispatch_status w0 t0 = (w1, t1, DBUS_DISPATCH_DATA_REMAINS) ->
    _dbus_message_loader_pop_message_link (loader t1) = Some (m, l) ->
    _dbus_message_add_size_counter (sys w1) m (live_messages_size t1)
    = (s, c, true, notified) ->
    (if notified
     then live_messages_size_notify (set_sys s w1)
            (set_live_messages_size c (set_loader l t1))
     else (set_sys s w1, set_live_messages_size c (set_loader l t1)))
    = (w4, t4) ->
    loop_delivers w t (ms ++ [m])
      (emit (EvQueueReceivedMessage (connection t4) m) w4) t4.

(** The flags that only ever go one way, and the side, which is fixed at
    construction. *)
Definition one_way (t t' : DBusTransport) : Prop :=
  (disconnected t = true -> disconnected t' = true)
  /\ (unused_bytes_recovered t = true -> unused_bytes_recovered t' = true)
  /\ is_server t' = is_server t.

(** The lock and unlock events of a trace, newest first. *)
Definition is_lock_event (e : Event) : bool :=
  match e with
  | EvConnectionUnlock _ | EvConnectionLock _ => true
  | _ => false
  end.

Definition lock_events (tr : list Event) : list Event := filter is_lock_event tr.

(** The calls of a [free_unix_user_data] function, oldest first: the
    function and the data it was given. *)
Fixpoint user_data_frees (tr : list Event) : list (Z * Z) :=
  match tr with
  | [] => []
  | EvFreeUserData f d :: rest => user_data_frees rest ++ [(f, d)]
  | _ :: rest => user_data_frees rest
  end.

(** What [_dbus_transport_finalize_base] gives back of kind [r]. *)
Definition owned (r : Resource) (t : DBusTransport) : Z :=
  match r with
  | RLoader | RAuth | RCounter => 1
  | RAddress => if is_some (address t) then 1 else 0
  | RExpectedGuid => if is_some (expected_guid t) then 1 else 0
  end.

(** The three ways the peer is taken once the Auth [a] has reported
    Authenticated: the client expected this server GUID, or expected none
    and could copy the one it got; the [unix_user_function] allows the
    peer's uid; or, with no such function in play, the peer's identity is
    that of this process. *)
Definition auth_accepted (w : World) (t : DBusTransport) (a : DBusAuth) : Prop :=
  (is_server t = false
   /\ (expected_guid t = Some (_dbus_auth_get_guid_from_server a)
       \/ (expected_guid t = None
           /\ exists s g,
               _dbus_strdup (sys w) (Some (_dbus_auth_get_guid_from_server a))
               = (s, Some g))))
  \/ (is_server t = true /\ DBUS_WIN = false
      /\ exists f, unix_user_function t = Some f
                   /\ f (connection t) (uid (_dbus_auth_get_identity a))
                        (unix_user_data t) = true)
  \/ (is_server t = true
      /\ (unix_user_function t = None \/ DBUS_WIN = true)
      /\ _dbus_credentials_match
           (_dbus_credentials_from_current_process (sys w))
           (_dbus_auth_get_identity a) = true).

(** The opener fails on each of the entries, one after the other; the
    error left by one attempt is what the next one is handed. *)
Inductive entries_fail (open : Opener)
  : list DBusAddressEntry -> World -> DBusError -> World -> DBusError -> Prop :=
| ef_nil (w : World) (error : DBusError) : entries_fail open [] w error w error
| ef_cons (e : DBusAddressEntry) (rest : list DBusAddressEntry)
    (w w1 w2 : World) (error error1 error2 : DBusError) :
    open w e error = Some (w1, None, error1) ->
    entries_fail open rest w1 error1 w2 error2 ->
    entries_fail open (e :: rest) w error w2 error2.

End TransportBase.

(** ** Small collaborators to run the transport on

    An authenticator that answers [_dbus_auth_do_work] from a script, a
    loader whose buffer is already cut into messages (a message is its size
    in bytes), a counter that is its value and threshold, and a system
    whose allocations succeed or fail as a list of booleans says ([true]:
    the allocation succeeds; an exhausted list: every allocation succeeds). *)
Record ToyAuth := {
  toy_script : list DBusAuthState;
  toy_settled : DBusAuthState;
  toy_server_guid : string;
  toy_identity : DBusCredentials;
  toy_decoding : bool;
  toy_unused : string
}.

Record ToyLoader := {
  toy_buffer : string;
  toy_parsable : list nat;
  toy_queued : list nat;
  toy_corrupted : bool;
  toy_max_message_size : Z
}.

Record ToyEntry := {
  toy_method : string;
  toy_params : list (string * string)
}.

Definition toy_take (s : list bool) : list bool * bool :=
  match s with
  | [] => ([], true)
  | ok :: rest => (rest, ok)
  end.

Definition toy_new {A : Type} (fresh : A) (s : list bool) : list bool * option A :=
  let '(s1, ok) := toy_take s in (s1, if ok then Some fresh else None).

Definition toy_fresh_auth : ToyAuth :=
  {| toy_script := [];
     toy_settled := DBUS_AUTH_STATE_CONTINUING;
     toy_server_guid := "";
     toy_identity := {| pid := -1; uid := -1; gid := -1 |};
     toy_decoding := false;
     toy_unused := "" |}.

Definition toy_fresh_loader : ToyLoader :=
  {| toy_buffer := "";
     toy_parsable := [];
     toy_queued := [];
     toy_corrupted := false;
     toy_max_message_size := 1024 |}.

Definition toy_do_work (a : ToyAuth) : ToyAuth * DBusAuthState :=
  match toy_script a with
  | [] => (a, toy_settled a)
  | st :: rest =>
      ({| toy_script := rest;
          toy_settled := toy_settled a;
          toy_server_guid := toy_server_guid a;
          toy_identity := toy_identity a;
          toy_decoding := toy_decoding a;
          toy_unused := toy_unused a |}, st)
  end.

Definition toy_delete_unused (a : ToyAuth) : ToyAuth :=
  {| toy_script := toy_script a;
     toy_settled := toy_settled a;
     toy_server_guid := toy_server_guid a;
     toy_identity := toy_identity a;
     toy_decoding := toy_decoding a;
     toy_unused := "" |}.

Definition toy_with_buffer (l : ToyLoader) (b : string) : ToyLoader :=
  {| toy_buffer := b;
     toy_parsable := toy_parsable l;
     toy_queued := toy_queued l;
     toy_corrupted := toy_corrupted l;
     toy_max_message_size := toy_max_message_size l |}.

Definition toy_with_queue (l : ToyLoader) (parsable queued : list nat) : ToyLoader :=
  {| toy_buffer := toy_buffer l;
     toy_parsable := parsable;
     toy_queued := queued;
     toy_corrupted := toy_corrupted l;
     toy_max_message_size := toy_max_message_size l |}.

Definition toy_remaining (l : ToyLoader) : nat :=
  (List.length (toy_parsable l) + List.length (toy_queued l))%nat.

Fixpoint toy_lookup (key : string) (params : list (string * string))
  : option string :=
  match params with
  | [] => None
  | (k, v) :: rest => if String.eqb k key then Some v else toy_lookup key rest
  end.

Definition toy_append (s : list bool) (src dest : string)
  : list bool * option string :=
  let '(s1, ok) := toy_take s in
  (s1, if ok then Some (dest ++ src)%string else None).

#[local] Instance toy_collaborators : Collaborators := {|
  DBusAuth := ToyAuth;
  DBusMessageLoader := ToyLoader;
  DBusMessage := nat;
  DBusCounter := Z * Z;
  DBusAddressEntry := ToyEntry;
  Backend := nat;
  Sys := list bool;
  _dbus_auth_server_new := fun s _ => toy_new toy_fresh_auth s;
  _dbus_auth_client_new := toy_new toy_fresh_auth;
  _dbus_auth_do_work := toy_do_work;
  _dbus_auth_get_guid_from_server := toy_server_guid;
  _dbus_auth_get_identity := toy_identity;
  _dbus_auth_needs_decoding := toy_decoding;
  _dbus_auth_get_unused_bytes := toy_unused;
  _dbus_auth_decode_data := fun s a encoded plaintext =>
    let '(s1, r) := toy_append s encoded plaintext in (s1, a, r);
  _dbus_auth_delete_unused_bytes := toy_delete_unused;
  _dbus_auth_set_mechanisms := fun s a _ =>
    let '(s1, ok) := toy_take s in (s1, a, ok);
  _dbus_message_loader_new := toy_new toy_fresh_loader;
  _dbus_message_loader_get_buffer := fun l => (l, toy_buffer l);
  _dbus_message_loader_return_buffer := fun l b _ => toy_with_buffer l b;
  _dbus_message_loader_queue_messages := fun l =>
    (toy_with_queue l [] (toy_queued l ++ toy_parsable l), true);
  _dbus_message_loader_peek_message := fun l => hd_error (toy_queued l);
  _dbus_message_loader_pop_message_link := fun l =>
    match toy_queued l with
    | [] => None
    | m :: rest => Some (m, toy_with_queue l (toy_parsable l) rest)
    end;
  _dbus_message_loader_putback_message_link := fun l m =>
    toy_with_queue l (toy_parsable l) (m :: toy_queued l);
  _dbus_message_loader_get_is_corrupted := toy_corrupted;
  _dbus_message_loader_set_max_message_size := fun l size =>
    {| toy_buffer := toy_buffer l;
       toy_parsable := toy_parsable l;
       toy_queued := toy_queued l;
       toy_corrupted := toy_corrupted l;
       toy_max_message_size := size |};
  _dbus_message_loader_get_max_message_size := toy_max_message_size;
  _dbus_message_add_size_counter := fun s m c =>
    let '(s1, ok) := toy_take s in
    if ok
    then (s1, (fst c + Z.of_nat m, snd c), true,
          (fst c <? snd c) && (snd c <=? fst c + Z.of_nat m))
    else (s1, c, false, false);
  _dbus_counter_new := toy_new (0, 0);
  _dbus_counter_get_value := fst;
  _dbus_counter_set_notify := fun c guard _ => (fst c, guard);
  _dbus_strdup := fun s p =>
    match p with
    | None => (s, None)
    | Some str => toy_new str s
    end;
  _dbus_string_copy_data := fun s p =>
    match p with
    | None => (s, None)
    | Some str => toy_new str s
    end;
  _dbus_string_init := toy_take;
  _dbus_string_move := fun s src _ dest _ => toy_append s src dest;
  _dbus_string_copy := fun s src _ dest _ => toy_append s src dest;
  _dbus_credentials_from_current_process := fun _ =>
    {| pid := 100; uid := 1000; gid := 1000 |};
  _dbus_credentials_match := fun expected provided =>
    uid expected =? uid provided;
  _dbus_watch_sanitize_condition := fun _ condition => condition;
  dbus_address_entry_get_method := toy_method;
  dbus_address_entry_get_value := fun e key => toy_lookup key (toy_params e);
  dbus_parse_address := fun s _ error => (s, Some [], error);
  _dbus_get_autolaunch_address := fun s address error =>
    (s, address, false,
     Some {| error_name := "org.freedesktop.DBus.Error.Failed";
             error_message := "no session bus to launch" |})
|}.

(** A backend that counts the hooks run on it; its I/O hooks perform [io]. *)
Definition toy_vtable (io : list BackendAction) (attach_ok : bool)
  : DBusTransportVTable :=
  {| vt_finalize := fun s t => (s, S (backend t));
     vt_handle_watch := fun s t _ _ => (s, S (backend t), io, true);
     vt_disconnect := fun s t => (s, S (backend t));
     vt_connection_set := fun s t => (s, S (backend t), attach_ok);
     vt_do_iteration := fun s t _ _ => (s, S (backend t), io);
     vt_live_messages_changed := Some (fun s t => (s, S (backend t)));
     vt_get_socket_fd := None |}.

(** Memory before [_dbus_transport_init_base] has run on it. *)
Definition toy_blank : DBusTransport :=
  {| refcount := 0;
     loader := toy_fresh_loader;
     auth := toy_fresh_auth;
     live_messages_size := (0, 0);
     max_live_messages_size := 0;
     connection := None;
     disconnected := false;
     authenticated := false;
     is_server := false;
     send_credentials_pending := false;
     receive_credentials_pending := false;
     unused_bytes_recovered := false;
     address := None;
     expected_guid := None;
     unix_user_function := None;
     unix_user_data := 0;
     free_unix_user_data := None;
     credentials := {| pid := 0; uid := 0; gid := 0 |};
     backend := O |}.

Definition toy_world (ooms : list bool) : World :=
  {| sys := ooms; trace := [] |}.

(** An Auth that reports Authenticated, as server [guid], for the peer
    [peer_uid], with [unused] bytes read past the handshake. *)
Definition toy_auth_done (guid : string) (peer_uid : Z) (unused : string)
  : ToyAuth :=
  {| toy_script := [];
     toy_settled := DBUS_AUTH_STATE_AUTHENTICATED;
     toy_server_guid := guid;
     toy_identity := {| pid := 42; uid := peer_uid; gid := peer_uid |};
     toy_decoding := false;
     toy_unused := unused |}.

(** An Auth in mid-handshake whose steps report what [script] says, and
    Continuing from then on. *)
Definition toy_auth_midway (script : list DBusAuthState) : ToyAuth :=
  {| toy_script := script;
     toy_settled := DBUS_AUTH_STATE_CONTINUING;
     toy_server_guid := "";
     toy_identity := {| pid := -1; uid := -1; gid := -1 |};
     toy_decoding := false;
     toy_unused := "" |}.

(** A transport attached to connection 7 whose handshake has completed:
    both credentials flags are down and the Auth is [a]. *)
Definition toy_handshaken (server : bool) (a : ToyAuth) (guid : option string)
    (f : option DBusAllowUnixUserFunction) (msgs : list nat) : DBusTransport :=
  {| refcount := 1;
     loader := toy_with_queue toy_fresh_loader msgs [];
     auth := a;
     live_messages_size := (0, 66060288);
     max_live_messages_size := 66060288;
     connection := Some 7%nat;
     disconnected := false;
     authenticated := false;
     is_server := server;
     send_credentials_pending := false;
     receive_credentials_pending := false;
     unused_bytes_recovered := false;
     address := if server then None else Some "debug-pipe:name=foo"%string;
     expected_guid := guid;
     unix_user_function := f;
     unix_user_data := 0;
     free_unix_user_data := None;
     credentials := {| pid := -1; uid := -1; gid := -1 |};
     backend := O |}.

(** Openers for the toy entries: the socket opener takes "tcp" and "unix"
    and fails to connect to "tcp"; the debug pipe takes "debug-pipe". *)
Definition toy_open_socket : OpenFunc :=
  fun w entry transport_p error =>
    if String.eqb (toy_method entry) "unix" then
      Some (w, DBUS_TRANSPORT_OPEN_OK,
            Some (toy_handshaken false toy_fresh_auth None None []), error)
    else if String.eqb (toy_method entry) "tcp" then
      Some (w, DBUS_TRANSPORT_OPEN_DID_NOT_CONNECT, None,
            Some {| error_name := "org.freedesktop.DBus.Error.NoServer";
                    error_message := "Connection refused" |})
    else Some (w, DBUS_TRANSPORT_OPEN_NOT_HANDLED, transport_p, error).

Definition toy_open_platform_specific : OpenFunc :=
  fun w entry transport_p error =>
    Some (w, DBUS_TRANSPORT_OPEN_NOT_HANDLED, transport_p, error).

Definition toy_open_debug_pipe : OpenFunc :=
  fun w entry transport_p error =>
    if String.eqb (toy_method entry) "debug-pipe" then
      Some (w, DBUS_TRANSPORT_OPEN_OK,
            Some (toy_handshaken false toy_fresh_auth None None []), error)
    else Some (w, DBUS_TRANSPORT_OPEN_NOT_HANDLED, transport_p, error).

(** A client session: the backend's I/O sends the credentials, completes
    the handshake with server "g1" and reads one 256-byte message. *)
Definition toy_client_vtable : DBusTransportVTable :=
  toy_vtable
    [ BA_credentials_sent;
      BA_auth_progress (toy_auth_done "g1" 1000 "");
      BA_loader_progress (toy_with_queue toy_fresh_loader [256%nat] []) ]
    true.

Definition toy_session_ops : list Op :=
  [ Op_set_connection (Some 7%nat);
    Op_get_is_authenticated;
    Op_do_iteration 3 0;
    Op_get_is_authenticated;
    Op_queue_messages;
    Op_disconnect;
    Op_get_is_authenticated ].

Definition toy_plain_vtable : DBusTransportVTable := toy_vtable [] true.

Definition toy_entry (method : string) (guid : option string) : ToyEntry :=
  {| toy_method := method;
     toy_params :=
       match guid with
       | Some g => [("guid"%string, g)]
       | None => []
       end |}.

(** A predicate that turns every peer down. *)
Definition toy_reject_all : DBusAllowUnixUserFunction := fun _ _ _ => false.

(** A predicate that lets every peer in. *)
Definition toy_allow_all : DBusAllowUnixUserFunction := fun _ _ _ => true.

(** A transport whose counter stands at 100 bytes against a limit of 50. *)
Definition toy_full : DBusTransport :=
  _dbus_transport_set_max_received_size
    (set_live_messages_size (100, 66060288)
       (toy_handshaken false (toy_auth_done "g1" 1000 "") (Some "g1"%string)
          None [256%nat]))
    50.

(** The same collaborators with an address parser and an autolaunch
    lookup that succeed: an address parses into an entry for "tcp" followed
    by an entry whose method is the address itself (the empty address does
    not parse), and the autolaunch lookup finds the address "unix". *)
Definition toy_parse_address (s : list bool) (address : string) (error : DBusError)
  : list bool * option (list ToyEntry) * DBusError :=
  if String.eqb address EmptyString
  then (s, None, _dbus_set_bad_address "Empty address")
  else (s, Some [toy_entry "tcp" None; toy_entry address None], error).

Definition toy_addressing : Collaborators := {|
  DBusAuth := ToyAuth;
  DBusMessageLoader := ToyLoader;
  DBusMessage := nat;
  DBusCounter := Z * Z;
  DBusAddressEntry := ToyEntry;
  Backend := nat;
  Sys := list bool;
  _dbus_auth_server_new := @_dbus_auth_server_new toy_collaborators;
  _dbus_auth_client_new := @_dbus_auth_client_new toy_collaborators;
  _dbus_auth_do_work := @_dbus_auth_do_work toy_collaborators;
  _dbus_auth_get_guid_from_server :=
    @_dbus_auth_get_guid_from_server toy_collaborators;
  _dbus_auth_get_identity := @_dbus_auth_get_identity toy_collaborators;
  _dbus_auth_needs_decoding := @_dbus_auth_needs_decoding toy_collaborators;
  _dbus_auth_get_unused_bytes := @_dbus_auth_get_unused_bytes toy_collaborators;
  _dbus_auth_decode_data := @_dbus_auth_decode_data toy_collaborators;
  _dbus_auth_delete_unused_bytes :=
    @_dbus_auth_delete_unused_bytes toy_collaborators;
  _dbus_auth_set_mechanisms := @_dbus_auth_set_mechanisms toy_collaborators;
  _dbus_message_loader_new := @_dbus_message_loader_new toy_collaborators;
  _dbus_message_loader_get_buffer :=
    @_dbus_message_loader_get_buffer toy_collaborators;
  _dbus_message_loader_return_buffer :=
    @_dbus_message_loader_return_buffer toy_collaborators;
  _dbus_message_loader_queue_messages :=
    @_dbus_message_loader_queue_messages toy_collaborators;
  _dbus_message_loader_peek_message :=
    @_dbus_message_loader_peek_message toy_collaborators;
  _dbus_message_loader_pop_message_link :=
    @_dbus_message_loader_pop_message_link toy_collaborators;
  _dbus_message_loader_putback_message_link :=
    @_dbus_message_loader_putback_message_link toy_collaborators;
  _dbus_message_loader_get_is_corrupted :=
    @_dbus_message_loader_get_is_corrupted toy_collaborators;
  _dbus_message_loader_set_max_message_size :=
    @_dbus_message_loader_set_max_message_size toy_collaborators;
  _dbus_message_loader_get_max_message_size :=
    @_dbus_message_loader_get_max_message_size toy_collaborators;
  _dbus_message_add_size_counter :=
    @_dbus_message_add_size_counter toy_collaborators;
  _dbus_counter_new := @_dbus_counter_new toy_collaborators;
  _dbus_counter_get_value := @_dbus_counter_get_value toy_collaborators;
  _dbus_counter_set_notify := @_dbus_counter_set_notify toy_collaborators;
  _dbus_strdup := @_dbus_strdup toy_collaborators;
  _dbus_string_copy_data := @_dbus_string_copy_data toy_collaborators;
  _dbus_string_init := @_dbus_string_init toy_collaborators;
  _dbus_string_move := @_dbus_string_move toy_collaborators;
  _dbus_string_copy := @_dbus_string_copy toy_collaborators;
  _dbus_credentials_from_current_process :=
    @_dbus_credentials_from_current_process toy_collaborators;
  _dbus_credentials_match := @_dbus_credentials_match toy_collaborators;
  _dbus_watch_sanitize_condition :=
    @_dbus_watch_sanitize_condition toy_collaborators;
  dbus_address_entry_get_method :=
    @dbus_address_entry_get_method toy_collaborators;
  dbus_address_entry_get_value :=
    @dbus_address_entry_get_value toy_collaborators;
  dbus_parse_address := toy_parse_address;
  _dbus_get_autolaunch_address := fun s address error =>
    (s, "unix"%string, true, error)
|}.

(** A client transport over [toy_addressing], as an opener leaves it. *)
Definition toy_opened : @DBusTransport toy_addressing :=
  @Build_DBusTransport toy_addressing
    1 toy_fresh_loader toy_fresh_auth (0, 66060288) 66060288 None
    false false false true false false
    (Some "unix"%string) None None 0 None
    {| pid := -1; uid := -1; gid := -1 |} O.

(** An opener that connects to "unix" entries only. *)
Definition toy_unix_opener : @Opener toy_addressing :=
  fun w entry error =>
    if String.eqb (toy_method entry) "unix"
    then Some (w, Some toy_opened, None)
    else Some (w, None,
               Some {| error_name := "org.freedesktop.DBus.Error.NoServer";
                       error_message := "Connection refused" |}).

End Transport.

(* ===================================================================== *)
(** * bus/test.c *)
(* ===================================================================== *)

Module BusTest.

(** A connection is known by its address. *)
Definition DBusConnection := nat.

Section Clients.

(** What the callback handed to [bus_test_clients_foreach] works on: the
    object behind its [data] pointer.  The callback leaves the list of
    clients itself alone. *)
Variable Data : Type.

(** [BusConnectionForeachFunction]: returns [FALSE] to stop the walk. *)
Definition BusConnectionForeachFunction : Type :=
  DBusConnection -> Data -> Data * bool.

(** The walks take the list [clients], first link first. *)
Fixpoint bus_test_clients_foreach (clients : list DBusConnection)
    (function : BusConnectionForeachFunction) (data : Data) : Data :=
  match clients with
  | [] => data
  | connection :: next =>
      let '(data1, more) := function connection data in
      if negb more then data1
      else bus_test_clients_foreach next function data1
  end.

Fixpoint bus_test_client_listed (clients : list DBusConnection)
    (connection : DBusConnection) : bool :=
  match clients with
  | [] => false
  | c :: next =>
      if Nat.eqb c connection then true
      else bus_test_client_listed next connection
  end.

(** The callback, called on each of [clients] in turn, asks each time for
    the walk to go on. *)
Fixpoint calls_continue (clients : list DBusConnection)
    (function : BusConnectionForeachFunction) (data : Data) : bool :=
  match clients with
  | [] => true
  | connection :: next =>
      let '(data1, more) := function connection data in
      more && calls_continue next function data1
  end.

End Clients.

(** A callback that notes the connections it is shown and stops at
    connection [stop]. *)
Definition note_until (stop : DBusConnection)
  : BusConnectionForeachFunction (list DBusConnection) :=
  fun connection seen => (seen ++ [connection], negb (Nat.eqb connection stop)).

End BusTest.

(* ===================================================================== *)
(** * Properties of the debug allocator *)
(* ===================================================================== *)

Module MemoryFacts.
Import Memory.

Section AllocatorFacts.

Context {Heap : Type}.
Variable libc : Libc Heap.
Variable DBUS_BUILD_TESTS : bool.

Local Abbreviation init := (_dbus_initialize_malloc_debug libc).
Local Abbreviation decrement := (_dbus_decrement_fail_alloc_counter libc).
Local Abbreviation dbus_malloc := (Memory.dbus_malloc libc DBUS_BUILD_TESTS).
Local Abbreviation dbus_malloc0 := (Memory.dbus_malloc0 libc DBUS_BUILD_TESTS).
Local Abbreviation dbus_realloc := (Memory.dbus_realloc libc DBUS_BUILD_TESTS).
Local Abbreviation dbus_free := (Memory.dbus_free libc DBUS_BUILD_TESTS).
Local Abbreviation do_call := (Memory.do_call libc DBUS_BUILD_TESTS).
Local Abbreviation ordinary_call := (Memory.ordinary_call libc DBUS_BUILD_TESTS).
Local Abbreviation injection_fires := (Memory.injection_fires libc DBUS_BUILD_TESTS).

Lemma init_idempotent (d : MallocDebug) : init (init d) = init d.
Proof.
  unfold _dbus_initialize_malloc_debug.
  destruct (debug_initialized d) eqn:E; [now rewrite E | reflexivity].
Qed.

Lemma init_initialized (d : MallocDebug) : debug_initialized (init d) = true.
Proof.
  unfold _dbus_initialize_malloc_debug.
  destruct (debug_initialized d) eqn:E; [exact E | reflexivity].
Qed.

Lemma decrement_init (d : MallocDebug) : decrement (init d) = decrement d.
Proof.
  unfold _dbus_decrement_fail_alloc_counter. now rewrite init_idempotent.
Qed.

Lemma init_set_counter (d : MallocDebug) (v : Z) :
  debug_initialized d = true ->
  init (set_fail_alloc_counter d v) = set_fail_alloc_counter d v.
Proof.
  intros Hi. unfold _dbus_initialize_malloc_debug. simpl. now rewrite Hi.
Qed.

Lemma countdown_fires_iff (st : MemState Heap) :
  DBUS_BUILD_TESTS = true ->
  snd (decrement (dbg st)) = injection_fires st.
Proof.
  intros Ht. unfold Memory.injection_fires, _dbus_decrement_fail_alloc_counter.
  rewrite Ht. simpl.
  now destruct (fail_alloc_counter (init (dbg st)) <=? 0).
Qed.

Lemma heap_after_countdown (st : MemState Heap) :
  heap (Memory.after_countdown libc DBUS_BUILD_TESTS st) = heap st.
Proof. unfold Memory.after_countdown. now destruct DBUS_BUILD_TESTS. Qed.

(** Every entry point is the countdown test, then the ordinary logic. *)
Lemma call_is_countdown_then_ordinary (st : MemState Heap) (c : AllocCall) :
  do_call st c =
  if injection_fires st
  then (Memory.after_countdown libc DBUS_BUILD_TESTS st, NULL)
  else ordinary_call (Memory.after_countdown libc DBUS_BUILD_TESTS st) c.
Proof.
  unfold Memory.injection_fires, Memory.after_countdown.
  destruct DBUS_BUILD_TESTS eqn:Ht; simpl.
  - destruct c as [b | b | m b]; simpl;
      unfold Memory.dbus_malloc, Memory.dbus_malloc0, Memory.dbus_realloc;
      rewrite decrement_init;
      unfold _dbus_decrement_fail_alloc_counter;
      destruct (fail_alloc_counter (init (dbg st)) <=? 0); simpl;
      try reflexivity;
      destruct (b =? 0); try reflexivity;
      destruct (negb (fail_size (init (dbg st)) =? 0)
                && (b >? fail_size (init (dbg st)))); simpl; try reflexivity;
      destruct (guards (init (dbg st))); reflexivity.
  - destruct c as [b | b | m b]; simpl;
      unfold Memory.dbus_malloc, Memory.dbus_malloc0, Memory.dbus_realloc;
      destruct (b =? 0); reflexivity.
Qed.

Lemma run_calls_app (st : MemState Heap) (xs ys : list AllocCall) :
  Memory.run_calls libc DBUS_BUILD_TESTS st (xs ++ ys) =
  let '(st1, ps) := Memory.run_calls libc DBUS_BUILD_TESTS st xs in
  let '(st2, qs) := Memory.run_calls libc DBUS_BUILD_TESTS st1 ys in
  (st2, ps ++ qs).
Proof.
  revert st. induction xs as [| x xs IH]; intros st; simpl.
  - now destruct (Memory.run_calls libc DBUS_BUILD_TESTS st ys).
  - destruct (do_call st x) as [st1 p].
    rewrite IH.
    destruct (Memory.run_calls libc DBUS_BUILD_TESTS st1 xs) as [st2 ps].
    now destruct (Memory.run_calls libc DBUS_BUILD_TESTS st2 ys).
Qed.

Lemma dbg_after_call (st : MemState Heap) (c : AllocCall) :
  DBUS_BUILD_TESTS = true ->
  dbg (fst (do_call st c)) = fst (decrement (dbg st)).
Proof.
  intros Ht. rewrite call_is_countdown_then_ordinary.
  unfold Memory.after_countdown, Memory.injection_fires. rewrite Ht. simpl.
  destruct (fail_alloc_counter (init (dbg st)) <=? 0); [reflexivity |].
  set (st1 := with_dbg st (fst (decrement (dbg st)))).
  change (fst (decrement (dbg st))) with (dbg st1).
  generalize st1. clear st1. intros st1.
  destruct c as [b | b | m b]; simpl.
  - destruct (b =? 0); [reflexivity |].
    destruct (negb (fail_size (dbg st1) =? 0) && (b >? fail_size (dbg st1)));
      [reflexivity |].
    destruct (guards (dbg st1)).
    + destruct (malloc libc (heap st1) _) as [h blk].
      now destruct (set_guards libc h blk b SOURCE_MALLOC).
    + now destruct (malloc libc (heap st1) b).
  - destruct (b =? 0); [reflexivity |].
    destruct (negb (fail_size (dbg st1) =? 0) && (b >? fail_size (dbg st1)));
      [reflexivity |].
    destruct (guards (dbg st1)).
    + destruct (calloc libc (heap st1) _ 1) as [h blk].
      now destruct (set_guards libc h blk b SOURCE_MALLOC_ZERO).
    + now destruct (calloc libc (heap st1) b 1).
  - destruct (b =? 0).
    { simpl. unfold Memory.dbus_free.
      destruct (true && guards (dbg st1)); destruct (m =? NULL); reflexivity. }
    destruct (negb (fail_size (dbg st1) =? 0) && (b >? fail_size (dbg st1)));
      [reflexivity |].
    destruct (guards (dbg st1)).
    + destruct (negb (m =? NULL)).
      * destruct (realloc libc (heap st1) _ _) as [h blk].
        now destruct (set_guards libc h blk b SOURCE_REALLOC).
      * destruct (malloc libc (heap st1) _) as [h blk].
        now destruct (set_guards libc h blk b SOURCE_REALLOC_NULL).
    + now destruct (realloc libc (heap st1) m b).
Qed.

(** ** The countdown armed from the environment *)

Section FailNth.

Variable s : string.
Variable N : Z.
Hypothesis tests_on : DBUS_BUILD_TESTS = true.
Hypothesis env_nth : _dbus_getenv libc "DBUS_MALLOC_FAIL_NTH" = Some s.
Hypothesis atoi_nth : atoi libc s = N.
Hypothesis N_nonneg : 0 <= N.

Local Abbreviation countdown_at := (Memory.countdown_at libc N).

Lemma countdown_start : countdown_at 0 MallocDebug_static_init.
Proof.
  unfold Memory.countdown_at, _dbus_initialize_malloc_debug. simpl.
  rewrite env_nth, atoi_nth. rewrite Z.mod_0_l by lia. split; lia.
Qed.

Lemma mod_succ_cases (j : Z) :
  0 <= j ->
  (j mod (N + 1) = N /\ (j + 1) mod (N + 1) = 0)
  \/ (j mod (N + 1) < N /\ (j + 1) mod (N + 1) = j mod (N + 1) + 1).
Proof.
  intros Hj.
  assert (Hr : 0 <= j mod (N + 1) < N + 1) by (apply Z.mod_pos_bound; lia).
  assert (Hd : j = (N + 1) * (j / (N + 1)) + j mod (N + 1))
    by (apply Z.div_mod; lia).
  destruct (Z.eq_dec (j mod (N + 1)) N) as [E | E].
  - left. split; [exact E |].
    symmetry. apply (Z.mod_unique _ _ (j / (N + 1) + 1)); lia.
  - right. split; [lia |].
    symmetry. apply (Z.mod_unique _ _ (j / (N + 1))); lia.
Qed.

Lemma countdown_step (j : Z) (d : MallocDebug) :
  0 <= j -> countdown_at j d -> countdown_at (j + 1) (fst (decrement d)).
Proof.
  intros Hj [Hc Ha]. unfold Memory.countdown_at.
  unfold _dbus_decrement_fail_alloc_counter.
  pose proof (init_initialized d) as Hi.
  destruct (mod_succ_cases j Hj) as [[Hm Hs] | [Hm Hs]]; rewrite Hs.
  - replace (fail_alloc_counter (init d) <=? 0) with true
      by (symmetry; apply Z.leb_le; lia).
    simpl. rewrite init_set_counter by exact Hi. simpl. rewrite Hc.
    replace (N >=? 0) with true by (symmetry; apply Z.geb_le; lia).
    split; lia.
  - replace (fail_alloc_counter (init d) <=? 0) with false
      by (symmetry; apply Z.leb_gt; lia).
    simpl. rewrite init_set_counter by exact Hi. simpl. split; lia.
Qed.

Lemma countdown_after_calls (h : Heap) (pre : list AllocCall) :
  countdown_at (Z.of_nat (List.length pre))
    (dbg (fst (Memory.run_calls libc DBUS_BUILD_TESTS (process_start h) pre))).
Proof.
  induction pre as [| c pre IH] using rev_ind.
  - simpl. apply countdown_start.
  - rewrite run_calls_app.
    destruct (Memory.run_calls libc DBUS_BUILD_TESTS (process_start h) pre)
      as [st ps] eqn:E.
    simpl in IH. simpl.
    destruct (do_call st c) as [st1 p] eqn:Ec. simpl.
    rewrite length_app. simpl.
    replace (Z.of_nat (List.length pre + 1)) with (Z.of_nat (List.length pre) + 1)
      by lia.
    replace st1 with (fst (do_call st c)) by now rewrite Ec.
    rewrite dbg_after_call by exact tests_on.
    apply countdown_step; [lia | exact IH].
Qed.

(** With [DBUS_MALLOC_FAIL_NTH=N] the countdown fires on calls [N+1], [2(N+1)],
    ...: [N] calls go through between two failures. *)
Lemma fail_nth_period (h : Heap) (pre : list AllocCall) :
  injection_fires (fst (Memory.run_calls libc DBUS_BUILD_TESTS (process_start h) pre))
  = ((Z.of_nat (List.length pre) + 1) mod (N + 1) =? 0).
Proof.
  destruct (countdown_after_calls h pre) as [_ Ha].
  rewrite <- countdown_fires_iff by exact tests_on.
  unfold _dbus_decrement_fail_alloc_counter. rewrite Ha.
  match goal with |- snd (if ?c then _ else _) = _ =>
    transitivity c; [now destruct c |] end.
  destruct (mod_succ_cases (Z.of_nat (List.length pre))) as [[Hm Hs] | [Hm Hs]];
    [lia | |]; rewrite Hs.
  - rewrite Z.eqb_refl. apply Z.leb_le. lia.
  - transitivity false; [apply Z.leb_gt; lia |].
    symmetry. apply Z.eqb_neq.
    assert (0 <= Z.of_nat (List.length pre) mod (N + 1))
      by (apply Z.mod_pos_bound; lia).
    lia.
Qed.

End FailNth.

(** The shape of every entry point.  A call to [dbus_malloc], [dbus_malloc0] or
    [dbus_realloc] on which the fail countdown fires returns [NULL] and
    leaves the heap as it was; every other call takes one off the countdown
    (test builds) and is then served by the ordinary allocation logic:
    [NULL] for a zero-size request (after freeing the block, for
    [dbus_realloc]) or one above the size limit, and otherwise the C
    library's block, behind the guard header when guards are on.  The
    countdown fires when it has come down to zero; outside test builds it
    never does. *)
Theorem fail_countdown_or_ordinary_logic (st : MemState Heap) (c : AllocCall)
    (m : ptr) :
  do_call st c =
    (if injection_fires st
     then (Memory.after_countdown libc DBUS_BUILD_TESTS st, NULL)
     else ordinary_call (Memory.after_countdown libc DBUS_BUILD_TESTS st) c)
  /\ heap (Memory.after_countdown libc DBUS_BUILD_TESTS st) = heap st
  /\ (if DBUS_BUILD_TESTS
      then injection_fires st = (fail_alloc_counter (init (dbg st)) <=? 0)
           /\ (injection_fires st = false ->
               fail_alloc_counter (dbg (Memory.after_countdown libc true st))
               = fail_alloc_counter (init (dbg st)) - 1)
      else injection_fires st = false
           /\ Memory.after_countdown libc false st = st)
  /\ ordinary_call st (Call_malloc 0) = (st, NULL)
  /\ ordinary_call st (Call_malloc0 0) = (st, NULL)
  /\ ordinary_call st (Call_realloc m 0) = (dbus_free st m, NULL).
Proof.
  split; [apply call_is_countdown_then_ordinary |].
  split; [apply heap_after_countdown |].
  split; [| repeat split; reflexivity].
  unfold Memory.injection_fires, Memory.after_countdown,
    _dbus_decrement_fail_alloc_counter.
  destruct DBUS_BUILD_TESTS; cbn [andb]; [| split; reflexivity].
  split; [reflexivity |]. intros Hno. rewrite Hno. reflexivity.
Qed.

(** C10 (as amended).  A zero-size request never yields a block:
    [dbus_malloc (0)] and [dbus_malloc0 (0)] return [NULL] and leave the heap
    alone, and [dbus_realloc (m, 0)] returns [NULL]; it frees [m] on every
    call except one on which a test build's fail countdown fires, where [m]
    stays allocated. *)
Theorem zero_size_yields_no_block (st : MemState Heap) (m : ptr) :
  snd (dbus_malloc st 0) = NULL
  /\ heap (fst (dbus_malloc st 0)) = heap st
  /\ snd (dbus_malloc0 st 0) = NULL
  /\ heap (fst (dbus_malloc0 st 0)) = heap st
  /\ snd (dbus_realloc st m 0) = NULL
  /\ heap (fst (dbus_realloc st m 0))
     = (if injection_fires st
        then heap st
        else heap (dbus_free (Memory.after_countdown libc DBUS_BUILD_TESTS st) m)).
Proof.
  pose proof (call_is_countdown_then_ordinary st (Call_malloc 0)) as H1.
  pose proof (call_is_countdown_then_ordinary st (Call_malloc0 0)) as H2.
  pose proof (call_is_countdown_then_ordinary st (Call_realloc m 0)) as H3.
  pose proof (heap_after_countdown st) as Hh.
  simpl in H1, H2, H3. rewrite H1, H2, H3.
  destruct (injection_fires st); simpl; rewrite ?Hh; repeat split; reflexivity.
Qed.

End AllocatorFacts.

(** ** Concrete runs *)

(** With [DBUS_MALLOC_FAIL_NTH=2]: calls one and two return blocks, call
    three is the first to fail. *)
Lemma fail_nth_2_third_call_fails :
  snd (run_calls (toy_libc (Some "2"%string)) true (process_start toy_heap)
         [Call_malloc 8; Call_malloc 8; Call_malloc 8; Call_malloc 8])
  = [4096; 4104; NULL; 4112].
Proof. vm_compute. reflexivity. Qed.

(** The sentence fails on which calls fail: with [DBUS_MALLOC_FAIL_NTH=2]
    the second call, a [dbus_malloc] of 8 bytes, is call [1 * N] and yet
    returns the underlying allocator's block. *)
Lemma fail_every_nth_as_stated_fails :
  ~ fail_every_nth_as_stated (toy_libc (Some "2"%string)) true.
Proof.
  intros H.
  specialize (H "2"%string 2 toy_heap [Call_malloc 8] (Call_malloc 8)
                eq_refl eq_refl ltac:(lia) ltac:(simpl; lia)).
  vm_compute in H. discriminate H.
Qed.

(** C10, as stated, fails: with [DBUS_MALLOC_FAIL_NTH=1] the second call
    is failed by the countdown, so [dbus_realloc (p, 0)] on the block [p]
    of the first call returns [NULL] with [p] still live. *)
Lemma zero_size_as_stated_fails :
  ~ zero_size_as_stated (toy_libc (Some "1"%string)) true.
Proof.
  intros H.
  pose (st1 := fst (Memory.dbus_malloc (toy_libc (Some "1"%string)) true
                      (process_start toy_heap) 8)).
  destruct (H st1 4096) as (_ & _ & _ & Hfree).
  vm_compute in Hfree. discriminate Hfree.
Qed.

Lemma realloc_zero_under_injection_keeps_block :
  let libc := toy_libc (Some "1"%string) in
  let '(st1, p) := Memory.dbus_malloc libc true (process_start toy_heap) 8 in
  let '(st2, q) := Memory.dbus_realloc libc true st1 p 0 in
  p = 4096 /\ q = NULL /\ live (heap st2) = [4096].
Proof. vm_compute. repeat split. Qed.

End MemoryFacts.

(* ===================================================================== *)
(** * Properties of the transport *)
(* ===================================================================== *)

Module TransportFacts.
Import Transport.

Ltac break_match :=
  match goal with
  | |- context [match ?x with _ => _ end] => destruct x eqn:?
  | H : context [match ?x with _ => _ end] |- _ => destruct x eqn:?
  end.

Ltac inv_pair :=
  repeat match goal with
  | H : (_, _) = (_, _) |- _ => inversion H; subst; clear H
  | H : Some _ = Some _ |- _ => inversion H; subst; clear H
  | H : Some _ = None |- _ => discriminate H
  | H : None = Some _ |- _ => discriminate H
  end.

(** Two results of the same call agree. *)
Ltac clash :=
  repeat match goal with
  | H1 : ?x = (_, _), H2 : ?x = (_, _) |- _ =>
      rewrite H1 in H2; inversion H2; subst; clear H2
  end;
  try congruence.

Section BaseFacts.

Context {collab : Collaborators}.
Variable vtable : DBusTransportVTable.
Variable DBUS_WIN : bool.

Local Abbreviation disconnect := (_dbus_transport_disconnect vtable).
Local Abbreviation finalize_base := (_dbus_transport_finalize_base vtable).
Local Abbreviation unref := (_dbus_transport_unref vtable).
Local Abbreviation notify := (live_messages_size_notify vtable).
Local Abbreviation is_authenticated :=
  (_dbus_transport_get_is_authenticated vtable DBUS_WIN).
Local Abbreviation get_dispatch_status :=
  (_dbus_transport_get_dispatch_status vtable DBUS_WIN).
Local Abbreviation queue_loop := (queue_messages_loop vtable DBUS_WIN).
Local Abbreviation queue_messages :=
  (_dbus_transport_queue_messages vtable DBUS_WIN).
Local Abbreviation set_connection := (_dbus_transport_set_connection vtable).

(** *** Frames and traces *)

Lemma frame_refl (t : DBusTransport) : frame t t.
Proof. unfold frame. intuition. Qed.

Lemma frame_trans (t1 t2 t3 : DBusTransport) :
  frame t1 t2 -> frame t2 t3 -> frame t1 t3.
Proof. unfold frame. intuition congruence. Qed.

Lemma trace_extends_refl (w : World) : trace_extends w w.
Proof. now exists []. Qed.

Lemma trace_extends_trans (w1 w2 w3 : World) :
  trace_extends w1 w2 -> trace_extends w2 w3 -> trace_extends w1 w3.
Proof.
  intros [e1 H1] [e2 H2]. exists (e2 ++ e1). rewrite H2, H1.
  now rewrite app_assoc.
Qed.

Lemma trace_extends_emit (e : Event) (w w' : World) :
  trace_extends w w' -> trace_extends w (emit e w').
Proof. intros [evs H]. exists (e :: evs). simpl. now rewrite H. Qed.

Lemma trace_extends_set_sys (s : Sys) (w w' : World) :
  trace_extends w w' -> trace_extends w (set_sys s w').
Proof. intros [evs H]. now exists evs. Qed.

Lemma quiet_refl (w : World) : quiet w w.
Proof.
  unfold quiet. split; [reflexivity |]. split; [reflexivity |].
  split; [reflexivity | apply trace_extends_refl].
Qed.

Lemma quiet_trans (w1 w2 w3 : World) : quiet w1 w2 -> quiet w2 w3 -> quiet w1 w3.
Proof.
  unfold quiet. intros (D1 & R1 & U1 & E1) (D2 & R2 & U2 & E2).
  split; [congruence |].
  split; [intros cn; now rewrite R2 |].
  split; [intros cn; now rewrite U2 |].
  eauto using trace_extends_trans.
Qed.

Lemma quiet_same_trace (w w' : World) : trace w' = trace w -> quiet w w'.
Proof.
  intros H. unfold quiet. rewrite H.
  split; [reflexivity |]. split; [reflexivity |]. split; [reflexivity |].
  exists []. now rewrite H.
Qed.

Lemma quiet_emit (e : Event) (w : World) :
  match e with
  | EvAcquire _ | EvRelease _ | EvFreeUserData _ _ | EvWarnCheckFailed
  | EvConnectionLock _ | EvConnectionUnlock _ => True
  | _ => False
  end ->
  quiet w (emit e w).
Proof.
  intros H. unfold quiet.
  destruct e; try contradiction; simpl;
    (split; [reflexivity |]; split; [reflexivity |]; split; [reflexivity |];
     apply trace_extends_emit, trace_extends_refl).
Qed.

Lemma quiet_set_sys (s : Sys) (w : World) : quiet w (set_sys s w).
Proof. now apply quiet_same_trace. Qed.

Lemma quiet_release (r : Resource) (w : World) : quiet w (emit (EvRelease r) w).
Proof. now apply quiet_emit. Qed.

Lemma quiet_acquire (r : Resource) (w : World) : quiet w (emit (EvAcquire r) w).
Proof. now apply quiet_emit. Qed.

Lemma quiet_release_if_set {A : Type} (r : Resource) (p : option A) (w : World) :
  quiet w (release_if_set r p w).
Proof. destruct p; simpl; [apply quiet_release | apply quiet_refl]. Qed.

Lemma quiet_acquire_if_set {A : Type} (r : Resource) (p : option A) (w : World) :
  quiet w (acquire_if_set r p w).
Proof. destruct p; simpl; [apply quiet_acquire | apply quiet_refl]. Qed.

Lemma delivered_app (evs tr : list Event) :
  delivered (evs ++ tr) = delivered tr ++ delivered evs.
Proof.
  induction evs as [| e evs IH]; simpl.
  - now rewrite app_nil_r.
  - destruct e; try exact IH. rewrite IH. now rewrite app_assoc.
Qed.

Lemma delivered_grows (w w' : World) :
  trace_extends w w' ->
  exists more, delivered (trace w') = delivered (trace w) ++ more.
Proof.
  intros [evs H]. exists (delivered evs). rewrite H. apply delivered_app.
Qed.

(** *** Housekeeping: disconnect, finalise, unref, notify *)

Lemma run_hook_inv (h : Sys -> DBusTransport -> Sys * Backend) (w w' : World)
    (t t' : DBusTransport) :
  run_hook h w t = (w', t') ->
  trace w' = trace w /\ exists b, t' = set_backend b t.
Proof.
  unfold run_hook. destruct (h (sys w) t) as [s b]. intros H. inv_pair.
  split; [reflexivity | now exists b].
Qed.

Lemma disconnect_inv (w w' : World) (t t' : DBusTransport) :
  disconnect w t = (w', t') ->
  quiet w w' /\ frame t t' /\ authenticated t' = authenticated t
  /\ disconnected t' = true.
Proof.
  unfold _dbus_transport_disconnect.
  destruct (disconnected t) eqn:Hd.
  - intros H. inv_pair. auto using quiet_refl, frame_refl.
  - destruct (run_hook (vt_disconnect vtable) w t) as [w1 t1] eqn:Hh.
    apply run_hook_inv in Hh. destruct Hh as [Htr [b ->]].
    intros H. inv_pair.
    split; [now apply quiet_same_trace |].
    split; [unfold frame; simpl; intuition |].
    split; reflexivity.
Qed.

Lemma finalize_base_inv (w w' : World) (t t' : DBusTransport) :
  finalize_base w t = (w', t') ->
  quiet w w' /\ frame t t' /\ authenticated t' = authenticated t.
Proof.
  unfold _dbus_transport_finalize_base.
  destruct (if negb (disconnected t) then disconnect w t else (w, t))
    as [w1 t1] eqn:H1.
  assert (Hq : quiet w w1 /\ frame t t1 /\ authenticated t1 = authenticated t).
  { destruct (negb (disconnected t)).
    - apply disconnect_inv in H1. tauto.
    - inv_pair. auto using quiet_refl, frame_refl. }
  destruct Hq as (Hq & Hf & Ha).
  intros H. inv_pair. split; [| split].
  - eapply quiet_trans; [exact Hq |].
    eapply quiet_trans; [| apply quiet_release_if_set].
    eapply quiet_trans; [| apply quiet_release_if_set].
    eapply quiet_trans; [| apply quiet_release].
    eapply quiet_trans; [| apply quiet_release].
    eapply quiet_trans; [| apply quiet_release].
    destruct (free_unix_user_data t1); [| apply quiet_refl].
    now apply quiet_emit.
  - eapply frame_trans; [exact Hf |]. unfold frame. simpl. intuition.
  - simpl. exact Ha.
Qed.

Lemma unref_inv (w w' : World) (t t' : DBusTransport) :
  unref w t = (w', t') ->
  quiet w w' /\ frame t t' /\ authenticated t' = authenticated t.
Proof.
  unfold _dbus_transport_unref.
  destruct (refcount (set_refcount (refcount t - 1) t) =? 0).
  - destruct (run_hook (vt_finalize vtable) w (set_refcount (refcount t - 1) t))
      as [w2 t2] eqn:Hh.
    apply run_hook_inv in Hh. destruct Hh as [Htr [b ->]].
    intros H. apply finalize_base_inv in H. destruct H as (Hq & Hf & Ha).
    split; [| split].
    + eapply quiet_trans; [| exact Hq]. now apply quiet_same_trace.
    + eapply frame_trans; [| exact Hf]. unfold frame. simpl. intuition.
    + rewrite Ha. reflexivity.
  - intros H. inv_pair. split; [apply quiet_refl |].
    split; [unfold frame; simpl; intuition | reflexivity].
Qed.

Lemma notify_inv (w w' : World) (t t' : DBusTransport) :
  notify w t = (w', t') ->
  quiet w w' /\ frame t t' /\ authenticated t' = authenticated t.
Proof.
  unfold live_messages_size_notify.
  destruct (match vt_live_messages_changed vtable with
            | Some h => run_hook h w (_dbus_transport_ref t)
            | None => (w, _dbus_transport_ref t)
            end) as [w2 t2] eqn:Hh.
  assert (H2 : trace w2 = trace w /\ frame t t2
               /\ authenticated t2 = authenticated t).
  { destruct (vt_live_messages_changed vtable).
    - apply run_hook_inv in Hh. destruct Hh as [Htr [b ->]].
      split; [exact Htr |]. split; [unfold frame; simpl; intuition | reflexivity].
    - inv_pair.
      split; [reflexivity |]. split; [unfold frame; simpl; intuition | reflexivity]. }
  destruct H2 as (Htr & Hf & Ha).
  intros H. apply unref_inv in H. destruct H as (Hq & Hf' & Ha').
  split; [| split].
  - eapply quiet_trans; [| exact Hq]. now apply quiet_same_trace.
  - eapply frame_trans; eassumption.
  - congruence.
Qed.

(** *** The handshake check *)

Lemma trace_extends_of_quiet (w w' : World) : quiet w w' -> trace_extends w w'.
Proof. unfold quiet. tauto. Qed.

Lemma delivered_of_quiet (w w' : World) :
  quiet w w' -> delivered (trace w') = delivered (trace w).
Proof. unfold quiet. tauto. Qed.

Lemma check_server_guid_inv (w : World) (t : DBusTransport) :
  match check_server_guid vtable w t with
  | Go (w', t') =>
      quiet w w' /\ frame t t' /\ authenticated t' = authenticated t
      /\ auth t' = auth t
  | Ret (w', t', r) =>
      r = false /\ frame t t' /\ authenticated t' = authenticated t
      /\ trace_extends w w' /\ delivered (trace w') = delivered (trace w)
  end.
Proof.
  unfold check_server_guid.
  destruct (match expected_guid t with
            | Some g => negb (String.eqb g (_dbus_auth_get_guid_from_server (auth t)))
            | None => false
            end).
  - destruct (disconnect w t) as [w1 t1] eqn:Hd.
    apply disconnect_inv in Hd. destruct Hd as (Hq & Hf & Ha & _).
    split; [reflexivity |]. split; [exact Hf |]. split; [exact Ha |]. split.
    + apply trace_extends_emit, trace_extends_of_quiet, Hq.
    + simpl. apply delivered_of_quiet, Hq.
  - destruct (expected_guid t) eqn:Hg.
    + auto using quiet_refl, frame_refl.
    + destruct (_dbus_strdup (sys w) (Some (_dbus_auth_get_guid_from_server (auth t))))
        as [s dup].
      assert (Hq : quiet w (acquire_if_set RExpectedGuid dup (set_sys s w))).
      { eapply quiet_trans; [apply (quiet_set_sys s) | apply quiet_acquire_if_set]. }
      destruct dup.
      * split; [exact Hq |]. split; [unfold frame; simpl; intuition |].
        split; reflexivity.
      * split; [reflexivity |]. split; [unfold frame; simpl; intuition |].
        split; [reflexivity |].
        split; [apply trace_extends_of_quiet, Hq | apply delivered_of_quiet, Hq].
Qed.

Lemma disconnect_and_unref (w w1 : World) (t t1 : DBusTransport)
    (cn : option ConnPtr) :
  disconnect w t = (w1, t1) ->
  frame t t1 /\ authenticated t1 = authenticated t
  /\ trace_extends w (emit (EvConnectionUnref cn) w1)
  /\ delivered (trace (emit (EvConnectionUnref cn) w1)) = delivered (trace w).
Proof.
  intros Hd. apply disconnect_inv in Hd. destruct Hd as (Hq & Hf & Ha & _).
  split; [exact Hf |]. split; [exact Ha |]. split.
  - apply trace_extends_emit, trace_extends_of_quiet, Hq.
  - simpl. apply delivered_of_quiet, Hq.
Qed.

Lemma check_auth_identity_inv (w : World) (t : DBusTransport) :
  match check_auth_identity vtable DBUS_WIN w t with
  | Go (w', t') => quiet w w' /\ t' = t
  | Ret (w', t', r) =>
      r = false /\ frame t t' /\ authenticated t' = authenticated t
      /\ trace_extends w w' /\ delivered (trace w') = delivered (trace w)
  end.
Proof.
  unfold check_auth_identity.
  assert (Hid :
    match
      (if negb (_dbus_credentials_match
                  (_dbus_credentials_from_current_process (sys w))
                  (_dbus_auth_get_identity (auth t)))
       then
         let '(w1, t1) := disconnect w t in
         Ret (emit (EvConnectionUnref (connection t1)) w1, t1, false)
       else Go (w, t) : Flow (World * DBusTransport) IsAuthResult)
    with
    | Go (w', t') => quiet w w' /\ t' = t
    | Ret (w', t', r) =>
        r = false /\ frame t t' /\ authenticated t' = authenticated t
        /\ trace_extends w w' /\ delivered (trace w') = delivered (trace w)
    end).
  { destruct (negb _).
    - destruct (disconnect w t) as [w1 t1] eqn:Hd.
      split; [reflexivity |]. eapply disconnect_and_unref; eassumption.
    - auto using quiet_refl. }
  destruct (unix_user_function t) as [f |]; [| exact Hid].
  destruct (negb DBUS_WIN); [| exact Hid].
  set (w2 := emit (EvConnectionLock (connection t))
               (emit (EvConnectionUnlock (connection t)) w)).
  assert (Hq : quiet w w2).
  { eapply quiet_trans; [| now apply quiet_emit]. now apply quiet_emit. }
  destruct (f (connection t) (uid (_dbus_auth_get_identity (auth t)))
              (unix_user_data t)).
  - auto.
  - destruct (disconnect w2 t) as [w3 t3] eqn:Hd.
    destruct (disconnect_and_unref _ _ _ _ (connection t) Hd)
      as (Hf & Ha & He & Hdel).
    split; [reflexivity |]. split; [exact Hf |]. split; [exact Ha |]. split.
    + eapply trace_extends_trans; [apply trace_extends_of_quiet, Hq | exact He].
    + rewrite Hdel. apply delivered_of_quiet, Hq.
Qed.

(** What [_dbus_transport_get_is_authenticated] may change. *)
Lemma is_authenticated_inv (w w' : World) (t t' : DBusTransport) (r : bool) :
  is_authenticated w t = (w', t', r) ->
  frame t t' /\ auth_step t t' /\ r = authenticated t'
  /\ trace_extends w w' /\ delivered (trace w') = delivered (trace w).
Proof.
  unfold _dbus_transport_get_is_authenticated.
  destruct (authenticated t) eqn:Ha.
  { intros H. inv_pair. split; [apply frame_refl |].
    split; [unfold auth_step; intuition |].
    split; [now rewrite Ha |]. split; [apply trace_extends_refl | reflexivity]. }
  destruct (disconnected t) eqn:Hdis.
  { intros H. inv_pair. split; [apply frame_refl |].
    split; [unfold auth_step; intuition |].
    split; [now rewrite Ha |]. split; [apply trace_extends_refl | reflexivity]. }
  set (w0 := emit (EvConnectionRef (connection t)) w).
  assert (Hw0 : trace_extends w w0 /\ delivered (trace w0) = delivered (trace w)).
  { split; [apply trace_extends_emit, trace_extends_refl | reflexivity]. }
  destruct Hw0 as [He0 Hd0].
  destruct (if negb (send_credentials_pending t || receive_credentials_pending t)
            then
              let '(a, st) := _dbus_auth_do_work (auth t) in
              (set_auth a t,
               match st with
               | DBUS_AUTH_STATE_AUTHENTICATED => true
               | _ => false
               end)
            else (t, false)) as [t0 maybe] eqn:Hm.
  assert (H0 : frame t t0 /\ authenticated t0 = false
               /\ (maybe = true ->
                   send_credentials_pending t = false
                   /\ receive_credentials_pending t = false)).
  { destruct (send_credentials_pending t); destruct (receive_credentials_pending t);
      simpl in Hm; try (inv_pair; split; [apply frame_refl |];
                        split; [exact Ha | discriminate]).
    destruct (_dbus_auth_do_work (auth t)) as [a st]. inv_pair.
    split; [unfold frame; simpl; intuition |]. split; [exact Ha | auto]. }
  destruct H0 as (Hf0 & Ha0 & Hflags).
  assert (Hfail : forall w1 t1,
             frame t t1 -> authenticated t1 = false ->
             trace_extends w w1 -> delivered (trace w1) = delivered (trace w) ->
             frame t t1 /\ auth_step t t1 /\ false = authenticated t1
             /\ trace_extends w w1 /\ delivered (trace w1) = delivered (trace w)).
  { intros w1 t1 Hf1 Ha1 He1 Hd1.
    split; [exact Hf1 |]. split.
    - destruct Hf1 as (_ & _ & _ & _ & Hs & Hr & _).
      unfold auth_step. rewrite Ha, Ha1, Hs, Hr. intuition discriminate.
    - auto. }
  pose proof (check_server_guid_inv w0 t0) as Hc.
  destruct (if maybe && negb (is_server t0)
            then check_server_guid vtable w0 t0 else Go (w0, t0))
    as [[w1 t1] | [[w1 t1] r1]] eqn:Hblock1.
  - assert (H1 : quiet w0 w1 /\ frame t0 t1 /\ authenticated t1 = false).
    { destruct (maybe && negb (is_server t0)).
      - rewrite Hblock1 in Hc. destruct Hc as (Hq & Hf & Hau & _).
        split; [exact Hq |]. split; [exact Hf | congruence].
      - inversion Hblock1; subst.
        split; [apply quiet_refl |]. split; [apply frame_refl | exact Ha0]. }
    destruct H1 as (Hq1 & Hf1 & Ha1).
    pose proof (check_auth_identity_inv w1 t1) as Hc2.
    destruct (if maybe && is_server t1
              then check_auth_identity vtable DBUS_WIN w1 t1 else Go (w1, t1))
      as [[w2 t2] | [[w2 t2] r2]] eqn:Hblock2.
    + assert (H2 : quiet w1 w2 /\ t2 = t1).
      { destruct (maybe && is_server t1).
        - rewrite Hblock2 in Hc2. exact Hc2.
        - inversion Hblock2; subst. split; [apply quiet_refl | reflexivity]. }
      destruct H2 as (Hq2 & ->).
      intros H. inv_pair.
      assert (Hft : frame t t1) by (eapply frame_trans; eassumption).
      split; [| split; [| split; [| split]]].
      * destruct Hft as (? & ? & ? & ? & ? & ? & ?).
        unfold frame. simpl. intuition.
      * destruct Hft as (_ & _ & _ & _ & Hs & Hr & _).
        unfold auth_step. simpl. rewrite Ha, Hs, Hr.
        split; [discriminate |]. split; [auto |]. split; [auto |].
        intros Hmaybe. right. auto.
      * reflexivity.
      * apply trace_extends_emit.
        eapply trace_extends_trans; [exact He0 |].
        eapply trace_extends_trans; apply trace_extends_of_quiet; eassumption.
      * simpl. rewrite (delivered_of_quiet _ _ Hq2), (delivered_of_quiet _ _ Hq1).
        exact Hd0.
    + assert (H2 : r2 = false /\ frame t1 t2 /\ authenticated t2 = authenticated t1
                   /\ trace_extends w1 w2
                   /\ delivered (trace w2) = delivered (trace w1)).
      { destruct (maybe && is_server t1).
        - rewrite Hblock2 in Hc2. exact Hc2.
        - discriminate Hblock2. }
      destruct H2 as (-> & Hf2 & Ha2 & He2 & Hd2).
      intros H. inv_pair. apply Hfail.
      * eapply frame_trans; [| exact Hf2]. eapply frame_trans; eassumption.
      * congruence.
      * eapply trace_extends_trans; [exact He0 |].
        eapply trace_extends_trans; [apply trace_extends_of_quiet, Hq1 | exact He2].
      * rewrite Hd2, (delivered_of_quiet _ _ Hq1). exact Hd0.
  - assert (H1 : r1 = false /\ frame t0 t1 /\ authenticated t1 = authenticated t0
                 /\ trace_extends w0 w1
                 /\ delivered (trace w1) = delivered (trace w0)).
    { destruct (maybe && negb (is_server t0)).
      - rewrite Hblock1 in Hc. exact Hc.
      - discriminate Hblock1. }
    destruct H1 as (-> & Hf1 & Ha1 & He1 & Hd1).
    intros H. inv_pair. apply Hfail.
    + eapply frame_trans; eassumption.
    + congruence.
    + eapply trace_extends_trans; eassumption.
    + congruence.
Qed.

(** *** Steps of the handshake flags *)

Lemma auth_step_refl (t : DBusTransport) : auth_step t t.
Proof. unfold auth_step. intuition. Qed.

Lemma auth_step_trans (t1 t2 t3 : DBusTransport) :
  auth_step t1 t2 -> auth_step t2 t3 -> auth_step t1 t3.
Proof.
  unfold auth_step. intros (A1 & S1 & R1 & C1) (A2 & S2 & R2 & C2).
  split; [auto |]. split; [auto |]. split; [auto |].
  intros H3. destruct (C2 H3) as [H2 | H2]; [| now right].
  destruct (C1 H2) as [H1 | [Hs Hr]]; [now left | right].
  split.
  - destruct (send_credentials_pending t3) eqn:E; [| reflexivity].
    specialize (S2 eq_refl). congruence.
  - destruct (receive_credentials_pending t3) eqn:E; [| reflexivity].
    specialize (R2 eq_refl). congruence.
Qed.

Lemma auth_step_same (t t' : DBusTransport) :
  authenticated t' = authenticated t ->
  send_credentials_pending t' = send_credentials_pending t ->
  receive_credentials_pending t' = receive_credentials_pending t ->
  auth_step t t'.
Proof. unfold auth_step. intros -> -> ->. intuition. Qed.

Lemma auth_step_of_frame (t t' : DBusTransport) :
  frame t t' -> authenticated t' = authenticated t -> auth_step t t'.
Proof.
  intros (_ & _ & _ & _ & Hs & Hr & _) Ha. now apply auth_step_same.
Qed.

Lemma loose_frame_refl (t : DBusTransport) : loose_frame t t.
Proof. unfold loose_frame. intuition. Qed.

Lemma loose_frame_trans (t1 t2 t3 : DBusTransport) :
  loose_frame t1 t2 -> loose_frame t2 t3 -> loose_frame t1 t3.
Proof. unfold loose_frame. intuition congruence. Qed.

Lemma loose_of_frame (t t' : DBusTransport) : frame t t' -> loose_frame t t'.
Proof. unfold frame, loose_frame. intuition congruence. Qed.

Lemma severed_of_frame (t t' : DBusTransport) :
  frame t t' -> authenticated t' = authenticated t -> severed t -> severed t'.
Proof.
  unfold severed. intros (_ & _ & _ & _ & _ & _ & Hd) Ha [H1 H2].
  split; [auto | congruence].
Qed.

Lemma is_authenticated_severed (w : World) (t : DBusTransport) :
  severed t -> is_authenticated w t = (w, t, false).
Proof.
  intros [Hd Ha]. unfold _dbus_transport_get_is_authenticated.
  now rewrite Ha, Hd.
Qed.

(** *** The dispatch status *)

Lemma recover_inv (w w' : World) (t t' : DBusTransport) (ok : bool) :
  recover_unused_bytes w t = (w', t', ok) ->
  trace w' = trace w /\ loose_frame t t' /\ authenticated t' = authenticated t
  /\ disconnected t' = disconnected t.
Proof.
  unfold recover_unused_bytes. intros H.
  repeat break_match; inv_pair; simpl;
    (split; [reflexivity |]; split; [unfold loose_frame; simpl; intuition |];
     split; reflexivity).
Qed.

Lemma dispatch_authenticate_inv (w : World) (t : DBusTransport) :
  match dispatch_authenticate vtable DBUS_WIN w t with
  | Go (w', t') =>
      frame t t' /\ auth_step t t' /\ trace_extends w w'
      /\ delivered (trace w') = delivered (trace w)
      /\ ~ severed t
  | Ret (w', t', st) =>
      frame t t' /\ auth_step t t' /\ trace_extends w w'
      /\ delivered (trace w') = delivered (trace w)
      /\ st <> DBUS_DISPATCH_DATA_REMAINS
      /\ (severed t -> w' = w /\ severed t')
  end.
Proof.
  unfold dispatch_authenticate.
  destruct (is_authenticated w t) as [[w1 t1] authed] eqn:H1.
  assert (Hsev1 : severed t -> w1 = w /\ t1 = t).
  { intros Hs. rewrite is_authenticated_severed in H1 by exact Hs.
    now inv_pair. }
  apply is_authenticated_inv in H1.
  destruct H1 as (Hf1 & Hs1 & -> & He1 & Hd1).
  destruct (authenticated t1) eqn:Ha1; simpl.
  { repeat (split; [assumption |]).
    intros Hs. destruct (Hsev1 Hs) as [_ ->]. destruct Hs. congruence. }
  destruct (_dbus_auth_do_work (auth t1)) as [a st] eqn:Hw.
  set (t2 := set_auth a t1).
  assert (Hf2 : frame t t2).
  { eapply frame_trans; [exact Hf1 |]. unfold frame. simpl. intuition. }
  assert (Hs2 : auth_step t t2).
  { eapply auth_step_trans; [exact Hs1 |]. now apply auth_step_same. }
  assert (Hsev2 : severed t -> w1 = w /\ severed t2).
  { intros Hs. destruct (Hsev1 Hs) as [-> ->]. split; [reflexivity | exact Hs]. }
  assert (Hcont :
    match
      (let '(w3, t3, authed3) := is_authenticated w1 t2 in
       if negb authed3 then Ret (w3, t3, DBUS_DISPATCH_COMPLETE)
       else Go (w3, t3) : Flow (World * DBusTransport) DispatchResult)
    with
    | Go (w', t') =>
        frame t t' /\ auth_step t t' /\ trace_extends w w'
        /\ delivered (trace w') = delivered (trace w)
        /\ ~ severed t
    | Ret (w', t', st) =>
        frame t t' /\ auth_step t t' /\ trace_extends w w'
        /\ delivered (trace w') = delivered (trace w)
        /\ st <> DBUS_DISPATCH_DATA_REMAINS
        /\ (severed t -> w' = w /\ severed t')
    end).
  { destruct (is_authenticated w1 t2) as [[w3 t3] authed3] eqn:H3.
    assert (Hsev3 : severed t -> w3 = w /\ severed t3).
    { intros Hs. destruct (Hsev2 Hs) as [-> Hs2'].
      rewrite is_authenticated_severed in H3 by exact Hs2'.
      inv_pair. split; [reflexivity | exact Hs2']. }
    apply is_authenticated_inv in H3.
    destruct H3 as (Hf3 & Hs3 & -> & He3 & Hd3).
    assert (Hf : frame t t3) by (eapply frame_trans; eassumption).
    assert (Hs : auth_step t t3) by (eapply auth_step_trans; eassumption).
    assert (He : trace_extends w w3) by (eapply trace_extends_trans; eassumption).
    assert (Hd : delivered (trace w3) = delivered (trace w)) by congruence.
    destruct (authenticated t3) eqn:Ha3; simpl.
    - repeat (split; [assumption |]).
      intros Hsv. destruct (Hsev3 Hsv) as [_ [_ Hna]]. congruence.
    - repeat (split; [assumption |]). split; [discriminate | exact Hsev3]. }
  destruct st; try exact Hcont.
  repeat (split; [assumption |]). split; [discriminate | exact Hsev2].
Qed.

Lemma dispatch_status_inv (w w' : World) (t t' : DBusTransport)
    (st : DBusDispatchStatus) :
  get_dispatch_status w t = (w', t', st) ->
  loose_frame t t' /\ auth_step t t' /\ trace_extends w w'
  /\ delivered (trace w') = delivered (trace w)
  /\ (severed t -> severed t' /\ st <> DBUS_DISPATCH_DATA_REMAINS)
  /\ (st = DBUS_DISPATCH_DATA_REMAINS ->
      unused_bytes_recovered t' = true
      /\ exists m, _dbus_message_loader_peek_message (loader t') = Some m)
  /\ (unused_bytes_recovered t = true ->
      loader t' = loader t
      \/ exists ok, _dbus_message_loader_queue_messages (loader t) = (loader t', ok)).
Proof.
  unfold _dbus_transport_get_dispatch_status.
  destruct (_dbus_counter_get_value (live_messages_size t)
            >=? max_live_messages_size t).
  { intros H. inv_pair.
    split; [apply loose_frame_refl |]. split; [apply auth_step_refl |].
    split; [apply trace_extends_refl |]. split; [reflexivity |].
    split; [intros Hs; split; [exact Hs | discriminate] |].
    split; [discriminate | auto]. }
  pose proof (dispatch_authenticate_inv w t) as Hda.
  destruct (dispatch_authenticate vtable DBUS_WIN w t)
    as [[w1 t1] | [[w1 t1] st1]].
  2:{ destruct Hda as (Hf & Hs & He & Hd & Hst & Hsev).
      intros H. inv_pair.
      split; [now apply loose_of_frame |]. split; [exact Hs |].
      split; [exact He |]. split; [exact Hd |].
      split; [intros Hsv; split; [apply Hsev, Hsv | exact Hst] |].
      split; [intros E; contradiction |].
      intros _. left. apply Hf. }
  destruct Hda as (Hf & Hs & He & Hd & Hnosev).
  destruct (if negb (unused_bytes_recovered t1)
            then recover_unused_bytes w1 t1 else (w1, t1, true))
    as [[w2 t2] recovered] eqn:Hrec.
  assert (H2 : trace w2 = trace w1 /\ loose_frame t1 t2
               /\ authenticated t2 = authenticated t1
               /\ (unused_bytes_recovered t1 = true -> t2 = t1)).
  { destruct (unused_bytes_recovered t1) eqn:Hu; simpl in Hrec.
    - inv_pair. split; [reflexivity |]. split; [apply loose_frame_refl | auto].
    - apply recover_inv in Hrec. destruct Hrec as (Htr & Hl & Ha & _).
      split; [exact Htr |]. split; [exact Hl |]. split; [exact Ha | discriminate]. }
  destruct H2 as (Htr2 & Hl2 & Ha2 & Hsame).
  assert (Hl : loose_frame t t2).
  { eapply loose_frame_trans; [apply loose_of_frame, Hf | exact Hl2]. }
  assert (Hs' : auth_step t t2).
  { eapply auth_step_trans; [exact Hs |].
    destruct Hl2 as (_ & _ & Hsd & Hrc & _). now apply auth_step_same. }
  assert (He' : trace_extends w w2).
  { destruct He as [evs He]. exists evs. congruence. }
  assert (Hd' : delivered (trace w2) = delivered (trace w)) by congruence.
  assert (Hload : unused_bytes_recovered t = true -> loader t2 = loader t).
  { intros Hu. destruct Hf as (Hlo & Hur & _).
    rewrite Hsame by congruence. exact Hlo. }
  assert (Hgen : forall l st0,
    loose_frame t (set_loader l (set_unused_bytes_recovered true t2))
    /\ auth_step t (set_loader l (set_unused_bytes_recovered true t2))
    /\ trace_extends w w2
    /\ delivered (trace w2) = delivered (trace w)
    /\ (severed t ->
        severed (set_loader l (set_unused_bytes_recovered true t2))
        /\ st0 <> DBUS_DISPATCH_DATA_REMAINS)).
  { intros l st0.
    split; [destruct Hl as (? & ? & ? & ? & ? & ?);
            unfold loose_frame; simpl; intuition |].
    split; [eapply auth_step_trans; [exact Hs' |]; now apply auth_step_same |].
    split; [exact He' |]. split; [exact Hd' |].
    intros Hsv. contradiction. }
  destruct recovered; simpl.
  2:{ intros H. inv_pair.
      split; [exact Hl |]. split; [exact Hs' |]. split; [exact He' |].
      split; [exact Hd' |].
      split; [intros Hsv; contradiction |].
      split; [discriminate |].
      intros Hu. left. now apply Hload. }
  destruct (_dbus_message_loader_queue_messages (loader t2)) as [l queued] eqn:Hq.
  assert (Hqueue : unused_bytes_recovered t = true ->
                   l = loader t
                   \/ exists ok, _dbus_message_loader_queue_messages (loader t)
                                 = (l, ok)).
  { intros Hu. right. exists queued. rewrite <- (Hload Hu). exact Hq. }
  destruct queued; simpl.
  2:{ intros H. inv_pair.
      destruct (Hgen l DBUS_DISPATCH_NEED_MEMORY) as (G1 & G2 & G3 & G4 & G5).
      repeat (split; [assumption |]). split; [discriminate | exact Hqueue]. }
  destruct (_dbus_message_loader_peek_message l) as [m |] eqn:Hpeek;
    intros H; inv_pair.
  - destruct (Hgen l DBUS_DISPATCH_DATA_REMAINS) as (G1 & G2 & G3 & G4 & G5).
    repeat (split; [assumption |]).
    split; [| exact Hqueue].
    intros _. split; [reflexivity | now exists m].
  - destruct (Hgen l DBUS_DISPATCH_COMPLETE) as (G1 & G2 & G3 & G4 & G5).
    repeat (split; [assumption |]). split; [discriminate | exact Hqueue].
Qed.

(** *** The queueing loop *)

Lemma queue_loop_inv (fuel : nat) :
  forall (w w' : World) (t t' : DBusTransport) (st : DBusDispatchStatus),
    queue_loop fuel w t = Some (w', t', st) ->
    loose_frame t t' /\ auth_step t t' /\ trace_extends w w'
    /\ (severed t -> severed t' /\ delivered (trace w') = delivered (trace w)).
Proof.
  induction fuel as [| fuel IH]; intros w w' t t' st; simpl; [discriminate |].
  destruct (get_dispatch_status w t) as [[w1 t1] st1] eqn:Hds.
  apply dispatch_status_inv in Hds.
  destruct Hds as (Hl1 & Hs1 & He1 & Hd1 & Hsev1 & _ & _).
  assert (Hstop : Some (w1, t1, st1) = Some (w', t', st) ->
                  loose_frame t t' /\ auth_step t t' /\ trace_extends w w'
                  /\ (severed t ->
                      severed t' /\ delivered (trace w') = delivered (trace w))).
  { intros H. inv_pair. repeat (split; [assumption |]).
    intros Hsv. split; [apply Hsev1, Hsv | exact Hd1]. }
  destruct st1; try exact Hstop. clear Hstop.
  destruct (_dbus_message_loader_pop_message_link (loader t1))
    as [[message l2] |]; [| discriminate].
  match goal with
  | |- context [_dbus_message_add_size_counter ?a ?b ?c] =>
      destruct (_dbus_message_add_size_counter a b c)
        as [[[s3 c3] added] notified]
  end.
  set (t3 := set_live_messages_size c3 (set_loader l2 t1)).
  set (w3 := set_sys s3 w1).
  destruct (if notified then notify w3 t3 else (w3, t3)) as [w4 t4] eqn:Hn.
  assert (H4 : quiet w3 w4 /\ frame t3 t4 /\ authenticated t4 = authenticated t3).
  { destruct notified.
    - now apply notify_inv in Hn.
    - inv_pair. split; [apply quiet_refl |]. split; [apply frame_refl | reflexivity]. }
  destruct H4 as (Hq4 & Hf4 & Ha4).
  assert (Hl4 : loose_frame t t4).
  { eapply loose_frame_trans; [exact Hl1 |].
    eapply loose_frame_trans; [| apply loose_of_frame, Hf4].
    unfold loose_frame. simpl. intuition. }
  assert (Hs4 : auth_step t t4).
  { eapply auth_step_trans; [exact Hs1 |].
    eapply auth_step_trans; [| apply auth_step_of_frame; eassumption].
    now apply auth_step_same. }
  assert (He4 : trace_extends w w4).
  { eapply trace_extends_trans; [exact He1 |].
    eapply trace_extends_trans; [| apply trace_extends_of_quiet, Hq4].
    apply trace_extends_set_sys, trace_extends_refl. }
  assert (Hno : severed t -> False).
  { intros Hsv. destruct (Hsev1 Hsv) as [_ Hne]. now apply Hne. }
  destruct added; simpl.
  - intros H. apply IH in H. destruct H as (Hl5 & Hs5 & He5 & _).
    split; [eapply loose_frame_trans; eassumption |].
    split; [eapply auth_step_trans; eassumption |].
    split; [| intros Hsv; contradiction].
    eapply trace_extends_trans; [| exact He5].
    apply trace_extends_emit, He4.
  - intros H. inv_pair.
    split; [destruct Hl4 as (? & ? & ? & ? & ? & ?);
            unfold loose_frame; simpl; intuition |].
    split; [eapply auth_step_trans; [exact Hs4 |]; now apply auth_step_same |].
    split; [exact He4 | intros Hsv; contradiction].
Qed.

Lemma queue_messages_inv (fuel : nat) (w w' : World) (t t' : DBusTransport)
    (ret : bool) :
  queue_messages fuel w t = Some (w', t', ret) ->
  loose_frame t t' /\ auth_step t t' /\ trace_extends w w'
  /\ (severed t -> severed t' /\ delivered (trace w') = delivered (trace w)).
Proof.
  unfold _dbus_transport_queue_messages.
  destruct (queue_loop fuel w t) as [[[w1 t1] st] |] eqn:Hloop; [| discriminate].
  apply queue_loop_inv in Hloop. destruct Hloop as (Hl & Hs & He & Hsev).
  destruct (if _dbus_message_loader_get_is_corrupted (loader t1)
            then disconnect w1 t1 else (w1, t1)) as [w2 t2] eqn:Hd.
  assert (H2 : quiet w1 w2 /\ frame t1 t2 /\ authenticated t2 = authenticated t1).
  { destruct (_dbus_message_loader_get_is_corrupted (loader t1)).
    - apply disconnect_inv in Hd. tauto.
    - inv_pair. split; [apply quiet_refl |]. split; [apply frame_refl | reflexivity]. }
  destruct H2 as (Hq2 & Hf2 & Ha2).
  intros H. inv_pair.
  split; [eapply loose_frame_trans; [exact Hl | apply loose_of_frame, Hf2] |].
  split; [eapply auth_step_trans; [exact Hs | now apply auth_step_of_frame] |].
  split; [eapply trace_extends_trans; [exact He | apply trace_extends_of_quiet, Hq2] |].
  intros Hsv. destruct (Hsev Hsv) as [Hsv1 Hd1].
  split; [eapply severed_of_frame; eassumption |].
  rewrite (delivered_of_quiet _ _ Hq2). exact Hd1.
Qed.

Section Termination.

Variable remaining : DBusMessageLoader -> nat.
Hypothesis finite : loader_yields_finitely remaining.

(** One turn of the loop on a transport that shows a message: either the
    counter cannot be attached and the loop ends, or the loop goes on from a
    state whose loader has one message less. *)
Lemma queue_loop_turn (fuel : nat) (w w1 : World) (t t1 : DBusTransport) :
  get_dispatch_status w t = (w1, t1, DBUS_DISPATCH_DATA_REMAINS) ->
  (exists r, queue_loop (S fuel) w t = Some r)
  \/ (exists w4 t4,
         queue_loop (S fuel) w t = queue_loop fuel w4 t4
         /\ unused_bytes_recovered t4 = true
         /\ (remaining (loader t4) < remaining (loader t1))%nat).
Proof.
  intros Hds. simpl. rewrite Hds.
  apply dispatch_status_inv in Hds.
  destruct Hds as (_ & _ & _ & _ & _ & Hdata & _).
  destruct (Hdata eq_refl) as [Hu [m Hpeek]].
  destruct finite as [_ Hpop].
  destruct (Hpop _ _ Hpeek) as (m' & l' & Hp & Hlt). rewrite Hp.
  match goal with
  | |- context [_dbus_message_add_size_counter ?a ?b ?c] =>
      destruct (_dbus_message_add_size_counter a b c)
        as [[[s3 c3] added] notified]
  end.
  set (t3 := set_live_messages_size c3 (set_loader l' t1)).
  set (w3 := set_sys s3 w1).
  destruct (if notified then notify w3 t3 else (w3, t3)) as [w4 t4] eqn:Hn.
  assert (Hf4 : frame t3 t4).
  { destruct notified.
    - now apply notify_inv in Hn.
    - inv_pair. apply frame_refl. }
  destruct added; simpl.
  - right. eexists. exists t4. split; [reflexivity |].
    destruct Hf4 as (Hlo & Hur & _). rewrite Hlo, Hur. simpl. auto.
  - left. eexists. reflexivity.
Qed.

(** With the unused bytes recovered, the loop ends within as many turns
    as the loader has messages left, plus one. *)
Lemma queue_loop_ends_recovered (fuel : nat) :
  forall (w : World) (t : DBusTransport),
    unused_bytes_recovered t = true ->
    (remaining (loader t) < fuel)%nat ->
    exists r, queue_loop fuel w t = Some r.
Proof.
  induction fuel as [| fuel IH]; intros w t Hu Hlt; [lia |].
  destruct (get_dispatch_status w t) as [[w1 t1] st] eqn:Hds.
  assert (Hle : (remaining (loader t1) <= remaining (loader t))%nat).
  { pose proof Hds as Hi. apply dispatch_status_inv in Hi.
    destruct Hi as (_ & _ & _ & _ & _ & _ & Hload).
    destruct (Hload Hu) as [-> | [ok Hq]]; [lia |].
    destruct finite as [Hqueue _]. eapply Hqueue. exact Hq. }
  destruct st.
  - destruct (queue_loop_turn fuel _ _ _ _ Hds)
      as [Hdone | (w4 & t4 & Heq & Hu4 & Hlt4)]; [exact Hdone |].
    rewrite Heq. apply IH; [exact Hu4 | lia].
  - simpl. rewrite Hds. eexists. reflexivity.
  - simpl. rewrite Hds. eexists. reflexivity.
Qed.

Lemma queue_loop_ends (w : World) (t : DBusTransport) :
  exists fuel r, queue_loop (S fuel) w t = Some r.
Proof.
  destruct (get_dispatch_status w t) as [[w1 t1] st] eqn:Hds.
  destruct st.
  - exists (S (remaining (loader t1))).
    destruct (queue_loop_turn (S (remaining (loader t1))) _ _ _ _ Hds)
      as [Hdone | (w4 & t4 & Heq & Hu4 & Hlt4)]; [exact Hdone |].
    rewrite Heq. apply queue_loop_ends_recovered; [exact Hu4 | lia].
  - exists O. simpl. rewrite Hds. eexists. reflexivity.
  - exists O. simpl. rewrite Hds. eexists. reflexivity.
Qed.

End Termination.

(** *** Every operation is a step *)

Lemma op_step_refl (w : World) (t : DBusTransport) : op_step w w t t.
Proof.
  unfold op_step. split; [apply auth_step_refl |]. split; [auto |]. auto.
Qed.

Lemma op_step_trans (w1 w2 w3 : World) (t1 t2 t3 : DBusTransport) :
  op_step w1 w2 t1 t2 -> op_step w2 w3 t2 t3 -> op_step w1 w3 t1 t3.
Proof.
  unfold op_step. intros (A1 & D1 & S1) (A2 & D2 & S2).
  split; [eapply auth_step_trans; eassumption |]. split; [auto |].
  intros Hs. destruct (S1 Hs) as [Hs2 E1]. destruct (S2 Hs2) as [Hs3 E2].
  split; [exact Hs3 | congruence].
Qed.

(** A change that leaves the handshake flags and [disconnected] alone. *)
Lemma op_step_same (w w' : World) (t t' : DBusTransport) :
  authenticated t' = authenticated t ->
  send_credentials_pending t' = send_credentials_pending t ->
  receive_credentials_pending t' = receive_credentials_pending t ->
  disconnected t' = disconnected t ->
  delivered (trace w') = delivered (trace w) ->
  op_step w w' t t'.
Proof.
  intros Ha Hs Hr Hd Hdel. unfold op_step.
  split; [now apply auth_step_same |]. split; [congruence |].
  unfold severed. intros [H1 H2]. split; [split; congruence | exact Hdel].
Qed.

Lemma op_step_housekeeping (w w' : World) (t t' : DBusTransport) :
  quiet w w' /\ frame t t' /\ authenticated t' = authenticated t ->
  op_step w w' t t'.
Proof.
  intros (Hq & Hf & Ha). unfold op_step.
  split; [now apply auth_step_of_frame |].
  split; [apply Hf |].
  intros Hs. split; [eapply severed_of_frame; eassumption |].
  apply delivered_of_quiet, Hq.
Qed.

Lemma op_step_disconnect (w w' : World) (t t' : DBusTransport) :
  disconnect w t = (w', t') -> op_step w w' t t'.
Proof.
  intros H. apply disconnect_inv in H. apply op_step_housekeeping. tauto.
Qed.

Lemma op_step_unref (w w' : World) (t t' : DBusTransport) :
  unref w t = (w', t') -> op_step w w' t t'.
Proof. intros H. apply unref_inv in H. now apply op_step_housekeeping. Qed.

Lemma op_step_is_authenticated (w w' : World) (t t' : DBusTransport) (r : bool) :
  is_authenticated w t = (w', t', r) -> op_step w w' t t'.
Proof.
  intros H. pose proof (is_authenticated_severed w t) as Hsev.
  pose proof H as Hi. apply is_authenticated_inv in Hi.
  destruct Hi as (Hf & Hs & _ & _ & Hd).
  unfold op_step. split; [exact Hs |]. split; [apply Hf |].
  intros Hsv. rewrite (Hsev Hsv) in H. inv_pair. auto.
Qed.

Lemma op_step_dispatch_status (w w' : World) (t t' : DBusTransport)
    (st : DBusDispatchStatus) :
  get_dispatch_status w t = (w', t', st) -> op_step w w' t t'.
Proof.
  intros H. apply dispatch_status_inv in H.
  destruct H as (Hl & Hs & _ & Hd & Hsev & _).
  unfold op_step. split; [exact Hs |]. split; [apply Hl |].
  intros Hsv. split; [apply Hsev, Hsv | exact Hd].
Qed.

Lemma op_step_queue_messages (fuel : nat) (w w' : World) (t t' : DBusTransport)
    (ret : bool) :
  queue_messages fuel w t = Some (w', t', ret) -> op_step w w' t t'.
Proof.
  intros H. apply queue_messages_inv in H. destruct H as (Hl & Hs & _ & Hsev).
  unfold op_step. split; [exact Hs |]. split; [apply Hl | exact Hsev].
Qed.

Lemma op_step_backend_action (fuel : nat) (a : BackendAction) (w w' : World)
    (t t' : DBusTransport) :
  apply_backend_action vtable DBUS_WIN fuel a w t = Some (w', t') ->
  op_step w w' t t'.
Proof.
  destruct a; simpl; intros H.
  - inv_pair. now apply op_step_same.
  - inv_pair. now apply op_step_same.
  - inv_pair. unfold op_step, auth_step, severed. simpl.
    intuition (try congruence; try discriminate).
  - inv_pair. unfold op_step, auth_step, severed. simpl.
    intuition (try congruence; try discriminate).
  - destruct (disconnect w t) as [w1 t1] eqn:Hd. inv_pair.
    eapply op_step_disconnect. exact Hd.
  - destruct (queue_messages fuel w t) as [[[w1 t1] ret] |] eqn:Hq;
      [| discriminate].
    inv_pair. eapply op_step_queue_messages. exact Hq.
Qed.

Lemma op_step_backend_actions (fuel : nat) (acts : list BackendAction) :
  forall (w w' : World) (t t' : DBusTransport),
    apply_backend_actions vtable DBUS_WIN fuel acts w t = Some (w', t') ->
    op_step w w' t t'.
Proof.
  induction acts as [| a acts IH]; intros w w' t t'; simpl.
  - intros H. inv_pair. apply op_step_refl.
  - destruct (apply_backend_action vtable DBUS_WIN fuel a w t)
      as [[w1 t1] |] eqn:Ha; [| discriminate].
    intros H. eapply op_step_trans.
    + eapply op_step_backend_action. exact Ha.
    + apply IH. exact H.
Qed.

(** The backend I/O of [handle_watch] and [do_iteration]: a reference is
    held across the hook and what it does. *)
Lemma op_step_io (fuel : nat) (s : Sys) (b : Backend) (acts : list BackendAction)
    (w w2 w3 : World) (t t2 t3 : DBusTransport) :
  apply_backend_actions vtable DBUS_WIN fuel acts (set_sys s w)
    (set_backend b (_dbus_transport_ref t)) = Some (w2, t2) ->
  unref w2 t2 = (w3, t3) ->
  op_step w w3 t t3.
Proof.
  intros Ha Hu.
  eapply op_step_trans; [| eapply op_step_unref; exact Hu].
  eapply op_step_trans; [| eapply op_step_backend_actions; exact Ha].
  now apply op_step_same.
Qed.

Lemma op_step_exec_op (fuel : nat) (op : Op) (w w' : World)
    (t t' : DBusTransport) :
  exec_op vtable DBUS_WIN fuel op w t = Some (w', t') -> op_step w w' t t'.
Proof.
  destruct op; simpl; intros H.
  - inv_pair. now apply op_step_same.
  - destruct (unref w t) eqn:Hu. inv_pair. eapply op_step_unref. exact Hu.
  - destruct (disconnect w t) eqn:Hd. inv_pair. eapply op_step_disconnect. exact Hd.
  - destruct (is_authenticated w t) as [[w1 t1] r] eqn:Hi. inv_pair.
    eapply op_step_is_authenticated. exact Hi.
  - unfold _dbus_transport_handle_watch in H.
    destruct (disconnected t); [inv_pair; apply op_step_refl |].
    destruct (watch_fd watch <? 0); [inv_pair; now apply op_step_same |].
    destruct (vt_handle_watch vtable (sys w) (_dbus_transport_ref t) watch
                (_dbus_watch_sanitize_condition watch condition))
      as [[[s b] acts] retval].
    destruct (apply_backend_actions vtable DBUS_WIN fuel acts (set_sys s w)
                (set_backend b (_dbus_transport_ref t)))
      as [[w2 t2] |] eqn:Ha; [| discriminate].
    destruct (unref w2 t2) as [w3 t3] eqn:Hu. inv_pair.
    eapply op_step_io; eassumption.
  - unfold _dbus_transport_set_connection in H.
    destruct (vt_connection_set vtable (sys w)
                (_dbus_transport_ref (Transport.set_connection cn t)))
      as [[s b] ok].
    match type of H with
    | context [unref ?a ?b] => destruct (unref a b) as [w5 t5] eqn:Hu
    end.
    inv_pair.
    eapply op_step_trans; [| eapply op_step_unref; exact Hu].
    destruct ok; now apply op_step_same.
  - unfold _dbus_transport_get_socket_fd in H.
    destruct (vt_get_socket_fd vtable) as [h |];
      [| inv_pair; apply op_step_refl].
    destruct (disconnected t); [inv_pair; apply op_step_refl |].
    destruct (h (sys w) (_dbus_transport_ref t)) as [[s b] fd].
    match type of H with
    | context [unref ?a ?b] => destruct (unref a b) as [w5 t5] eqn:Hu
    end.
    inv_pair.
    eapply op_step_trans; [| eapply op_step_unref; exact Hu].
    now apply op_step_same.
  - unfold _dbus_transport_do_iteration in H.
    destruct (_ =? 0); [inv_pair; apply op_step_refl |].
    destruct (disconnected t); [inv_pair; apply op_step_refl |].
    destruct (vt_do_iteration vtable (sys w) (_dbus_transport_ref t) flags
                timeout_milliseconds) as [[s b] acts].
    destruct (apply_backend_actions vtable DBUS_WIN fuel acts (set_sys s w)
                (set_backend b (_dbus_transport_ref t)))
      as [[w2 t2] |] eqn:Ha; [| discriminate].
    destruct (unref w2 t2) as [w3 t3] eqn:Hu. inv_pair.
    eapply op_step_io; eassumption.
  - destruct (get_dispatch_status w t) as [[w1 t1] st] eqn:Hd. inv_pair.
    eapply op_step_dispatch_status. exact Hd.
  - destruct (queue_messages fuel w t) as [[[w1 t1] ret] |] eqn:Hq;
      [| discriminate].
    inv_pair. eapply op_step_queue_messages. exact Hq.
  - inv_pair. now apply op_step_same.
  - inv_pair. now apply op_step_same.
  - inv_pair. now apply op_step_same.
  - unfold _dbus_transport_set_auth_mechanisms in H.
    destruct (_dbus_auth_set_mechanisms (sys w) (auth t) mechanisms)
      as [[s a] ok].
    inv_pair. now apply op_step_same.
Qed.

Lemma invariant_step (w w' : World) (t t' : DBusTransport) :
  op_step w w' t t' ->
  authenticated_after_credentials t -> authenticated_after_credentials t'.
Proof.
  unfold op_step, auth_step, authenticated_after_credentials.
  intros ((_ & Hs & Hr & Hrise) & _) Hinv Ha'.
  destruct (Hrise Ha') as [Ha | Hclear]; [| exact Hclear].
  destruct (Hinv Ha) as [Hs0 Hr0]. split.
  - destruct (send_credentials_pending t') eqn:E; [| reflexivity].
    specialize (Hs eq_refl). congruence.
  - destruct (receive_credentials_pending t') eqn:E; [| reflexivity].
    specialize (Hr eq_refl). congruence.
Qed.

Lemma falls_history (a : bool) (t : DBusTransport)
    (sts : list (World * DBusTransport)) :
  falls (a :: authenticated_history t sts)
  = ((if a && negb (authenticated t) then 1 else 0)
     + falls (authenticated_history t sts))%nat.
Proof. reflexivity. Qed.

Lemma rises_history (a : bool) (t : DBusTransport)
    (sts : list (World * DBusTransport)) :
  rises (a :: authenticated_history t sts)
  = ((if negb a && authenticated t then 1 else 0)
     + rises (authenticated_history t sts))%nat.
Proof. reflexivity. Qed.

(** Along any run: the invariant holds throughout, [authenticated] never
    falls, and it rises at most once (never, if it was set at the start). *)
Lemma exec_ops_history (fuel : nat) (ops : list Op) :
  forall (w : World) (t : DBusTransport) (sts : list (World * DBusTransport)),
    exec_ops vtable DBUS_WIN fuel ops w t = Some sts ->
    authenticated_after_credentials t ->
    Forall (fun st => authenticated_after_credentials (snd st)) sts
    /\ falls (authenticated_history t sts) = O
    /\ (rises (authenticated_history t sts) <= 1)%nat
    /\ (authenticated t = true -> rises (authenticated_history t sts) = O).
Proof.
  induction ops as [| op ops IH]; intros w t sts H Hinv; simpl in H.
  - inv_pair. simpl. auto.
  - destruct (exec_op vtable DBUS_WIN fuel op w t) as [[w1 t1] |] eqn:Hop;
      [| discriminate].
    destruct (exec_ops vtable DBUS_WIN fuel ops w1 t1) as [sts1 |] eqn:Hrest;
      [| discriminate].
    inv_pair.
    apply op_step_exec_op in Hop.
    pose proof (invariant_step _ _ _ _ Hop Hinv) as Hinv1.
    destruct (IH _ _ _ Hrest Hinv1) as (Hall & Hfalls & Hrises & Hzero).
    destruct Hop as ((Hmono & _) & _).
    split; [constructor; assumption |].
    change (authenticated_history t ((w1, t1) :: sts1))
      with (authenticated t :: authenticated_history t1 sts1).
    rewrite falls_history, rises_history, Hfalls.
    destruct (authenticated t) eqn:Ha; cbn [negb andb].
    + rewrite (Hmono eq_refl) in *. cbn [negb andb Nat.add].
      rewrite (Hzero eq_refl). auto.
    + destruct (authenticated t1) eqn:Ha1; cbn [negb andb Nat.add].
      * rewrite (Hzero eq_refl). repeat split; auto; discriminate.
      * repeat split; auto; discriminate.
Qed.

(** Once severed, a transport delivers nothing more, whatever is run. *)
Lemma exec_ops_severed (fuel : nat) (ops : list Op) :
  forall (w : World) (t : DBusTransport) (sts : list (World * DBusTransport)),
    exec_ops vtable DBUS_WIN fuel ops w t = Some sts ->
    severed t ->
    Forall (fun st => severed (snd st)
                      /\ delivered (trace (fst st)) = delivered (trace w)) sts.
Proof.
  induction ops as [| op ops IH]; intros w t sts; simpl.
  - intros H _. inv_pair. constructor.
  - destruct (exec_op vtable DBUS_WIN fuel op w t) as [[w1 t1] |] eqn:Hop;
      [| discriminate].
    destruct (exec_ops vtable DBUS_WIN fuel ops w1 t1) as [sts1 |] eqn:Hrest;
      [| discriminate].
    intros H Hsv. inv_pair.
    apply op_step_exec_op in Hop. destruct Hop as (_ & _ & Hkeep).
    destruct (Hkeep Hsv) as [Hsv1 Hd1].
    constructor; [simpl; auto |].
    specialize (IH _ _ _ Hrest Hsv1).
    eapply Forall_impl; [| exact IH].
    intros [w2 t2] [H1 H2]. simpl in *. split; [exact H1 | congruence].
Qed.

(** *** Construction *)

(** C6.  [_dbus_transport_init_base] returns [FALSE] exactly when one of
    its sub-constructions (loader, Auth, counter, address copy) fails; it has
    then released everything it had acquired and written no field of the
    transport.  When it returns [TRUE] the reference count is 1, the two
    credentials-pending flags are set from [is_server] (send when client,
    receive when server), and [max_live_messages_size] is 63 MiB. *)
Theorem init_base_all_or_nothing (w : World) (transport : DBusTransport)
    (server_guid address : option string) :
  let '(w', t', ok) := _dbus_transport_init_base w transport server_guid address in
  (ok = false <-> construction_fails w server_guid address)
  /\ (ok = false ->
      t' = transport
      /\ forall r, outstanding r (trace w') = outstanding r (trace w))
  /\ (ok = true ->
      refcount t' = 1
      /\ is_server t' = is_some server_guid
      /\ send_credentials_pending t' = negb (is_server t')
      /\ receive_credentials_pending t' = is_server t'
      /\ max_live_messages_size t' = 63 * 1024 * 1024
      /\ authenticated t' = false
      /\ disconnected t' = false).
Proof.
  unfold _dbus_transport_init_base.
  destruct (_dbus_message_loader_new (sys w)) as [s1 [l |]] eqn:Hl.
  2:{ split; [split; [intros _; eapply loader_fails; eassumption | reflexivity] |].
      split; [intros _; split; [reflexivity | reflexivity] | discriminate]. }
  cbn [sys set_sys emit].
  assert (Ha_eq : match server_guid with
                  | Some g => _dbus_auth_server_new s1 g
                  | None => _dbus_auth_client_new s1
                  end = auth_new s1 server_guid) by reflexivity.
  rewrite Ha_eq. clear Ha_eq.
  destruct (auth_new s1 server_guid) as [s2 [a |]] eqn:Ha.
  2:{ split; [split; [intros _; eapply auth_fails; eassumption | reflexivity] |].
      split; [| discriminate].
      intros _. split; [reflexivity |]. intros r. simpl.
      destruct (Resource_eqb RLoader r); lia. }
  cbn [sys set_sys emit].
  destruct (_dbus_counter_new s2) as [s3 [c |]] eqn:Hc.
  2:{ split; [split; [intros _; eapply counter_fails; eassumption | reflexivity] |].
      split; [| discriminate].
      intros _. split; [reflexivity |]. intros r. simpl.
      destruct (Resource_eqb RLoader r); destruct (Resource_eqb RAuth r); lia. }
  cbn [sys set_sys emit].
  destruct server_guid as [g |].
  - cbn [negb is_some].
    split; [split; [discriminate |] |].
    { intros Hf. exfalso. destruct Hf; clash. }
    split; [discriminate |].
    intros _. cbn. repeat split; reflexivity.
  - destruct (_dbus_string_copy_data s3 address) as [s4 [copy |]] eqn:Hcp;
      cbn [negb is_some acquire_if_set].
    + split; [split; [discriminate |] |].
      { intros Hf. exfalso. destruct Hf; clash. }
      split; [discriminate |].
      intros _. cbn. repeat split; reflexivity.
    + split; [split; [intros _; eapply address_copy_fails; eauto | reflexivity] |].
      split; [| discriminate].
      intros _. split; [reflexivity |]. intros r. simpl.
      destruct (Resource_eqb RLoader r); destruct (Resource_eqb RAuth r);
        destruct (Resource_eqb RCounter r); lia.
Qed.

(** C9.  When the backend's [connection_set] hook fails,
    [_dbus_transport_set_connection] leaves the transport without a
    connection and returns [FALSE]; in general a [FALSE] return leaves
    [connection] at [NULL], which is what a later call requires, and a
    [TRUE] return leaves it at the connection given. *)
Theorem set_connection_failure_detaches (w : World) (t : DBusTransport)
    (cn : option ConnPtr) :
  let hook :=
    vt_connection_set vtable (sys w)
      (_dbus_transport_ref (Transport.set_connection cn t)) in
  let '(w', t', ret) := set_connection w t cn in
  (if snd hook then connection t' = cn else connection t' = None)
  /\ ret = is_some (connection t')
  /\ (if ret then connection t' = cn else connection t' = None).
Proof.
  unfold _dbus_transport_set_connection. cbv zeta.
  destruct (vt_connection_set vtable (sys w)
              (_dbus_transport_ref (Transport.set_connection cn t)))
    as [[s b] ok].
  match goal with
  | |- context [unref ?a ?b] => destruct (unref a b) as [w5 t5] eqn:Hu
  end.
  apply unref_inv in Hu. destruct Hu as (_ & (_ & _ & Hcn & _) & _).
  cbn [snd]. rewrite Hcn.
  destruct ok; cbn.
  - split; [reflexivity |]. split; [reflexivity |].
    destruct cn; reflexivity.
  - auto.
Qed.

Lemma init_base_not_authenticated (w w0 : World) (blank t0 : DBusTransport)
    (server_guid address : option string) :
  _dbus_transport_init_base w blank server_guid address = (w0, t0, true) ->
  authenticated t0 = false.
Proof.
  unfold _dbus_transport_init_base. intros H.
  repeat break_match; inv_pair; try discriminate; reflexivity.
Qed.

(** C1.  From [_dbus_transport_init_base] on, whatever operations are run
    on the transport: in every state observed, [authenticated] is not set
    while [send_credentials_pending] or [receive_credentials_pending] is; it
    goes from false to true at most once; and it never goes back from true
    to false. *)
Theorem authenticated_set_once_and_kept (fuel : nat) (w w0 : World)
    (blank t0 : DBusTransport) (server_guid address : option string)
    (ops : list Op) (sts : list (World * DBusTransport)) :
  _dbus_transport_init_base w blank server_guid address = (w0, t0, true) ->
  exec_ops vtable DBUS_WIN fuel ops w0 t0 = Some sts ->
  Forall (fun st => authenticated_after_credentials (snd st)) ((w0, t0) :: sts)
  /\ (rises (authenticated_history t0 sts) <= 1)%nat
  /\ falls (authenticated_history t0 sts) = O.
Proof.
  intros Hinit Hrun.
  apply init_base_not_authenticated in Hinit.
  assert (Hinv : authenticated_after_credentials t0).
  { unfold authenticated_after_credentials. rewrite Hinit. discriminate. }
  destruct (exec_ops_history _ _ _ _ _ Hrun Hinv) as (Hall & Hfalls & Hrises & _).
  split; [constructor; assumption |]. split; assumption.
Qed.

(** *** The dispatch status, against its description *)

Lemma geb_false_iff (x y : Z) : (x >=? y) = false <-> x < y.
Proof. rewrite Z.geb_leb. apply Z.leb_gt. Qed.

Lemma geb_true_iff (x y : Z) : (x >=? y) = true <-> y <= x.
Proof. rewrite Z.geb_leb. apply Z.leb_le. Qed.

Lemma described_loader_iff (w : World) (t : DBusTransport) (r : DispatchResult) :
  described_loader w t r
  <-> (let '(l, queued) := _dbus_message_loader_queue_messages (loader t) in
       if negb queued then (w, set_loader l t, DBUS_DISPATCH_NEED_MEMORY)
       else
         match _dbus_message_loader_peek_message l with
         | Some _ => (w, set_loader l t, DBUS_DISPATCH_DATA_REMAINS)
         | None => (w, set_loader l t, DBUS_DISPATCH_COMPLETE)
         end) = r.
Proof.
  split.
  - intros [l H | l m H Hp | l H Hp]; rewrite H; cbn [negb];
      try rewrite Hp; reflexivity.
  - destruct (_dbus_message_loader_queue_messages (loader t)) as [l queued] eqn:H.
    destruct queued; cbn [negb].
    + destruct (_dbus_message_loader_peek_message l) as [m |] eqn:Hp;
        intros <-.
      * eapply dl_data_remains; eassumption.
      * eapply dl_complete; eassumption.
    + intros <-. now apply dl_need_memory.
Qed.

(** *** The steps of the Auth in one call *)

Lemma disconnect_auth (w w' : World) (t t' : DBusTransport) :
  disconnect w t = (w', t') -> auth t' = auth t.
Proof.
  unfold _dbus_transport_disconnect, run_hook. intros H.
  repeat break_match; inv_pair; reflexivity.
Qed.

Lemma check_server_guid_auth (w : World) (t : DBusTransport) :
  match check_server_guid vtable w t with
  | Go (_, t') => auth t' = auth t
  | Ret (_, t', _) => auth t' = auth t
  end.
Proof.
  unfold check_server_guid.
  destruct (match expected_guid t with
            | Some g => negb (String.eqb g (_dbus_auth_get_guid_from_server (auth t)))
            | None => false
            end).
  - destruct (disconnect w t) as [w1 t1] eqn:Hd.
    now apply disconnect_auth in Hd.
  - destruct (expected_guid t); [reflexivity |].
    destruct (_dbus_strdup (sys w) (Some (_dbus_auth_get_guid_from_server (auth t))))
      as [s dup].
    destruct dup; reflexivity.
Qed.

Lemma check_auth_identity_auth (w : World) (t : DBusTransport) :
  match check_auth_identity vtable DBUS_WIN w t with
  | Go (_, t') => auth t' = auth t
  | Ret (_, t', _) => auth t' = auth t
  end.
Proof.
  unfold check_auth_identity. cbv zeta.
  assert (Hcut : forall w0,
             match (let '(w1, t1) := disconnect w0 t in
                    Ret (emit (EvConnectionUnref (connection t1)) w1, t1, false)
                    : Flow (World * DBusTransport) IsAuthResult) with
             | Go (_, t') => auth t' = auth t
             | Ret (_, t', _) => auth t' = auth t
             end).
  { intros w0. destruct (disconnect w0 t) as [w1 t1] eqn:Hd.
    now apply disconnect_auth in Hd. }
  destruct (unix_user_function t) as [f |].
  - destruct (negb DBUS_WIN).
    + destruct (f _ _ _); [reflexivity |].
      destruct (disconnect _ t) as [w3 t3] eqn:Hd.
      now apply disconnect_auth in Hd.
    + destruct (negb (_dbus_credentials_match _ _)); [apply Hcut | reflexivity].
  - destruct (negb (_dbus_credentials_match _ _)); [apply Hcut | reflexivity].
Qed.

(** One run of the is_authenticated procedure leaves the Auth where
    [check_steps] steps take it. *)
Lemma is_authenticated_steps (w w1 : World) (t t1 : DBusTransport) (b : bool) :
  is_authenticated w t = (w1, t1, b) ->
  auth t1 = auth_after (check_steps t) (auth t).
Proof.
  unfold _dbus_transport_get_is_authenticated, check_steps.
  destruct (authenticated t); [intros H; inv_pair; reflexivity |].
  destruct (disconnected t); [intros H; inv_pair; reflexivity |].
  cbn [orb].
  destruct (send_credentials_pending t || receive_credentials_pending t) eqn:Hp;
    cbn [negb andb].
  - intros H. inv_pair. reflexivity.
  - cbn [auth_after].
    destruct (_dbus_auth_do_work (auth t)) as [a st] eqn:Hw. cbn [fst].
    set (w0 := emit (EvConnectionRef (connection t)) w).
    set (maybe := match st with DBUS_AUTH_STATE_AUTHENTICATED => true | _ => false end).
    assert (Ha0 : auth (set_auth a t) = a) by reflexivity.
    revert Ha0. generalize (set_auth a t). intros t0 Ha0.
    assert (H1 : match (if maybe && negb (is_server t0)
                        then check_server_guid vtable w0 t0 else Go (w0, t0)) with
                 | Go (_, t') => auth t' = a
                 | Ret (_, t', _) => auth t' = a
                 end).
    { destruct (maybe && negb (is_server t0)); [| exact Ha0].
      pose proof (check_server_guid_auth w0 t0) as Hc.
      destruct (check_server_guid vtable w0 t0) as [[? ?] | [[? ?] ?]]; congruence. }
    destruct (if maybe && negb (is_server t0)
              then check_server_guid vtable w0 t0 else Go (w0, t0))
      as [[w2 t2] | [[w2 t2] r2]].
    2: { intros H. inv_pair. exact H1. }
    assert (H2 : match (if maybe && is_server t2
                        then check_auth_identity vtable DBUS_WIN w2 t2
                        else Go (w2, t2)) with
                 | Go (_, t') => auth t' = a
                 | Ret (_, t', _) => auth t' = a
                 end).
    { destruct (maybe && is_server t2); [| exact H1].
      pose proof (check_auth_identity_auth w2 t2) as Hc.
      destruct (check_auth_identity vtable DBUS_WIN w2 t2) as [[? ?] | [[? ?] ?]];
        congruence. }
    destruct (if maybe && is_server t2
              then check_auth_identity vtable DBUS_WIN w2 t2 else Go (w2, t2))
      as [[w3 t3] | [[w3 t3] r3]].
    + intros H. inv_pair. exact H2.
    + intros H. inv_pair. exact H2.
Qed.

Lemma auth_after_plus (n m : nat) (a : DBusAuth) :
  auth_after (n + m) a = auth_after n (auth_after m a).
Proof.
  induction n as [| n IH]; [reflexivity |].
  cbn [Nat.add auth_after]. now rewrite IH.
Qed.

Lemma check_steps_bound (t : DBusTransport) : (check_steps t <= 1)%nat.
Proof. unfold check_steps. destruct (_ || _); lia. Qed.

(** A run of the procedure that answers false keeps the transport where a
    further run takes no step, when the first one took none. *)
Lemma check_steps_kept (w w1 : World) (t t1 : DBusTransport) (a : DBusAuth) :
  is_authenticated w t = (w1, t1, false) ->
  send_credentials_pending t || receive_credentials_pending t = true
  \/ disconnected t = true ->
  check_steps t = O /\ check_steps (set_auth a t1) = O.
Proof.
  intros H Hq.
  destruct (is_authenticated_inv _ _ _ _ _ H) as (Hf & _ & _).
  destruct Hf as (_ & _ & _ & _ & Hs & Hr & Hd).
  unfold check_steps. simpl. rewrite Hs, Hr.
  destruct Hq as [Hq | Hq].
  - apply orb_true_iff in Hq.
    destruct Hq as [-> | ->]; rewrite ?orb_true_r; cbn [orb];
      split; reflexivity.
  - rewrite (Hd Hq), Hq. rewrite ?orb_true_r. cbn [orb]. split; reflexivity.
Qed.

(** *** Recovery of the unused bytes, against its description *)

Lemma described_recovery_iff (w : World) (t : DBusTransport)
    (r : World * DBusTransport * bool) :
  described_recovery w t r <-> recover_unused_bytes w t = r.
Proof.
  unfold recover_unused_bytes. split.
  - intros [s1 s2 s4 a2 plaintext buffer appended l Hn Hi Hdec Hb Hm
           | s2 buffer appended l Hn Hb Hc
           | s1 Hn Hi
           | s1 s2 a2 Hn Hi Hdec
           | s1 s2 s4 a2 plaintext buffer l Hn Hi Hdec Hb Hm
           | s2 buffer l Hn Hb Hc]; rewrite Hn.
    + rewrite Hi. cbn [negb]. rewrite Hdec. simpl. rewrite Hb, Hm.
      destruct t; reflexivity.
    + rewrite Hb. simpl. rewrite Hc. destruct t; reflexivity.
    + rewrite Hi. reflexivity.
    + rewrite Hi. cbn [negb]. rewrite Hdec. reflexivity.
    + rewrite Hi. cbn [negb]. rewrite Hdec. simpl. rewrite Hb, Hm.
      destruct t; reflexivity.
    + rewrite Hb. simpl. rewrite Hc. simpl. rewrite Z.sub_diag.
      destruct t; reflexivity.
  - destruct (_dbus_auth_needs_decoding (auth t)) eqn:Hn.
    + destruct (_dbus_string_init (sys w)) as [s1 inited] eqn:Hi.
      destruct inited; cbn [negb].
      2: { intros <-. now apply rec_no_plaintext. }
      destruct (_dbus_auth_decode_data s1 (auth t)
                  (_dbus_auth_get_unused_bytes (auth t)) EmptyString)
        as [[s2 a2] decoded] eqn:Hdec.
      destruct decoded as [plaintext |].
      2: { intros <-. eapply rec_not_decoded; eassumption. }
      simpl.
      destruct (_dbus_message_loader_get_buffer (loader t)) as [l buffer] eqn:Hb.
      destruct (_dbus_string_move s2 plaintext 0 buffer
                  (Z.of_nat (String.length buffer))) as [s4 moved] eqn:Hm.
      destruct moved as [appended |]; intros <-.
      * replace (set_auth _ _) with
          (set_auth (_dbus_auth_delete_unused_bytes a2)
             (set_loader
                (_dbus_message_loader_return_buffer l appended
                   (Z.of_nat (String.length appended)
                    - Z.of_nat (String.length buffer))) t))
          by (destruct t; reflexivity).
        eapply rec_decoded; eassumption.
      * replace (set_loader l (set_auth a2 t))
          with (set_loader l (set_auth a2 t)) by reflexivity.
        eapply rec_not_appended; eassumption.
    + destruct (_dbus_message_loader_get_buffer (loader t)) as [l buffer] eqn:Hb.
      simpl.
      destruct (_dbus_string_copy (sys w) (_dbus_auth_get_unused_bytes (auth t)) 0
                  buffer (Z.of_nat (String.length buffer))) as [s2 copied] eqn:Hc.
      destruct copied as [appended |]; simpl; intros <-.
      * replace (set_auth _ _) with
          (set_auth (_dbus_auth_delete_unused_bytes (auth t))
             (set_loader
                (_dbus_message_loader_return_buffer l appended
                   (Z.of_nat (String.length appended)
                    - Z.of_nat (String.length buffer))) t))
          by (destruct t; reflexivity).
        eapply rec_copied; eassumption.
      * rewrite Z.sub_diag.
        replace (set_loader _ (set_loader l t)) with
          (set_loader (_dbus_message_loader_return_buffer l buffer 0) t)
          by (destruct t; reflexivity).
        eapply rec_not_copied; eassumption.
Qed.

Lemma stepped_authenticated_iff (w w1 : World) (t t1 : DBusTransport) :
  stepped_authenticated vtable DBUS_WIN w t w1 t1
  <-> dispatch_authenticate vtable DBUS_WIN w t = Go (w1, t1).
Proof.
  unfold dispatch_authenticate. split.
  - intros [w' t' H1 | w' w3 t' t3 a st H1 H2 Hne H3].
    + now rewrite H1.
    + rewrite <- (is_authenticated_steps _ _ _ _ _ H1) in H2.
      rewrite H1. cbn [negb]. rewrite H2, H3. cbn [negb].
      destruct st; try reflexivity. contradiction.
  - destruct (is_authenticated w t) as [[w' t'] authed] eqn:H1.
    pose proof (is_authenticated_steps _ _ _ _ _ H1) as Hs.
    destruct authed; cbn [negb].
    + intros H. inversion H; subst. now apply sa_at_once.
    + destruct (_dbus_auth_do_work (auth t')) as [a st] eqn:H2.
      rewrite Hs in H2.
      destruct (is_authenticated w' (set_auth a t')) as [[w3 t3] authed3] eqn:H3.
      destruct st; try discriminate;
        (destruct authed3; cbn [negb]; [| discriminate];
         intros H; inversion H; subst;
         eapply sa_after_step; [exact H1 | exact H2 | discriminate | exact H3]).
Qed.

Lemma dispatch_status_as_amended_iff (w : World) (t : DBusTransport)
    (r : DispatchResult) :
  dispatch_status_as_amended vtable DBUS_WIN w t r <-> get_dispatch_status w t = r.
Proof.
  unfold _dbus_transport_get_dispatch_status. split.
  - intros [Hfull | w1 t1 a Hlt H1 H2 | w1 w3 t1 t3 a st Hlt H1 H2 Hne H3
            | w1 w2 t1 t2 Hlt Hauth Hu Hrec
            | w1 w2 t1 t2 r' Hlt Hauth Hrec Hload].
    + apply geb_true_iff in Hfull. now rewrite Hfull.
    + apply geb_false_iff in Hlt. rewrite Hlt.
      rewrite <- (is_authenticated_steps _ _ _ _ _ H1) in H2.
      unfold dispatch_authenticate. rewrite H1. cbn [negb]. now rewrite H2.
    + apply geb_false_iff in Hlt. rewrite Hlt.
      rewrite <- (is_authenticated_steps _ _ _ _ _ H1) in H2.
      unfold dispatch_authenticate. rewrite H1. cbn [negb]. rewrite H2, H3.
      cbn [negb]. destruct st; try reflexivity. contradiction.
    + apply geb_false_iff in Hlt. rewrite Hlt.
      apply stepped_authenticated_iff in Hauth. rewrite Hauth.
      apply described_recovery_iff in Hrec.
      rewrite Hu. cbn [negb]. now rewrite Hrec.
    + apply geb_false_iff in Hlt. rewrite Hlt.
      apply stepped_authenticated_iff in Hauth. rewrite Hauth.
      apply described_loader_iff in Hload.
      destruct Hrec as [Hu | w2 t2 Hu Hrec].
      * rewrite Hu. cbn [negb]. exact Hload.
      * apply described_recovery_iff in Hrec.
        rewrite Hu. cbn [negb]. rewrite Hrec. cbn [negb]. exact Hload.
  - destruct (_dbus_counter_get_value (live_messages_size t)
              >=? max_live_messages_size t) eqn:Hc.
    { intros <-. apply am_counter_full. now apply geb_true_iff. }
    apply geb_false_iff in Hc.
    destruct (dispatch_authenticate vtable DBUS_WIN w t)
      as [[w1 t1] | r1] eqn:Hda.
    + apply stepped_authenticated_iff in Hda.
      destruct (unused_bytes_recovered t1) eqn:Hu; cbn [negb].
      * intros H. eapply am_streaming;
          [exact Hc | exact Hda | now apply br_already |].
        now apply described_loader_iff.
      * destruct (recover_unused_bytes w1 t1) as [[w2 t2] recovered] eqn:Hrec.
        apply described_recovery_iff in Hrec.
        destruct recovered; cbn [negb].
        -- intros H. eapply am_streaming;
             [exact Hc | exact Hda | eapply br_now; eassumption |].
           now apply described_loader_iff.
        -- intros <-. eapply am_recovery_fails; eassumption.
    + intros <-. unfold dispatch_authenticate in Hda.
      destruct (is_authenticated w t) as [[w1 t1] authed] eqn:H1.
      pose proof (is_authenticated_steps _ _ _ _ _ H1) as Hs.
      destruct authed; cbn [negb] in Hda; [discriminate |].
      destruct (_dbus_auth_do_work (auth t1)) as [a st] eqn:H2.
      rewrite Hs in H2.
      destruct (is_authenticated w1 (set_auth a t1)) as [[w3 t3] authed3] eqn:H3.
      destruct st;
        try (destruct authed3; cbn [negb] in Hda; [discriminate |];
             inversion Hda; subst;
             eapply am_still_not_authenticated;
             [exact Hc | exact H1 | exact H2 | discriminate | exact H3]).
      inversion Hda; subst. eapply am_auth_needs_memory; eassumption.
Qed.

(** A call below the limit that leaves the transport not authenticated
    went through the block that steps the Auth. *)
Lemma dispatch_status_not_authenticated (w w' : World) (t t' : DBusTransport)
    (st : DBusDispatchStatus) :
  get_dispatch_status w t = (w', t', st) ->
  _dbus_counter_get_value (live_messages_size t) < max_live_messages_size t ->
  authenticated t' = false ->
  dispatch_authenticate vtable DBUS_WIN w t = Ret (w', t', st).
Proof.
  unfold _dbus_transport_get_dispatch_status. intros H Hlt Ha.
  apply geb_false_iff in Hlt. rewrite Hlt in H.
  destruct (dispatch_authenticate vtable DBUS_WIN w t) as [[w1 t1] | r1] eqn:Hda;
    [| now subst r1].
  exfalso.
  assert (Ha1 : authenticated t1 = true).
  { unfold dispatch_authenticate in Hda.
    destruct (is_authenticated w t) as [[w0 t0] b] eqn:H1.
    destruct b; cbn [negb] in Hda.
    - inversion Hda; subst.
      destruct (is_authenticated_inv _ _ _ _ _ H1) as (_ & _ & E & _). now symmetry.
    - destruct (_dbus_auth_do_work (auth t0)) as [a s0].
      destruct (is_authenticated w0 (set_auth a t0)) as [[w3 t3] b3] eqn:H3.
      destruct (is_authenticated_inv _ _ _ _ _ H3) as (_ & _ & E & _).
      destruct s0; try discriminate;
        (destruct b3; cbn [negb] in Hda; [| discriminate];
         inversion Hda; subst; now symmetry). }
  assert (Hkeep : authenticated t' = authenticated t1).
  { destruct (unused_bytes_recovered t1); cbn [negb] in H.
    - cbv beta iota zeta in H. cbn [negb] in H.
      repeat break_match; inv_pair; reflexivity.
    - destruct (recover_unused_bytes w1 t1) as [[w2 t2] ok] eqn:Hrec.
      destruct (recover_inv _ _ _ _ _ Hrec) as (_ & _ & E & _).
      destruct ok; cbn [negb] in H.
      + repeat break_match; inv_pair; simpl; exact E.
      + inv_pair. exact E. }
  congruence.
Qed.

(** C2 (as amended).  [_dbus_transport_get_dispatch_status] answers COMPLETE
    when the live counter has reached [max_live_messages_size].  Below the
    limit it runs the is_authenticated procedure; if that answers false it
    steps the Auth once more, answers NEED_MEMORY if that step reports
    WaitingForMemory, and otherwise runs the procedure again and answers
    COMPLETE if it still answers false.  A run of the procedure steps the
    Auth itself ([check_steps]: once, unless the transport is authenticated
    or disconnected or a credentials exchange is pending), so a call that
    leaves the transport not authenticated has stepped its Auth between one
    and three times, and once only when a credentials exchange was pending
    or the transport was disconnected.  Once authenticated, unless the
    unused bytes are recovered already, it moves the Auth's unused bytes
    into the loader's buffer (decoded first if the Auth says so) and deletes
    them from the Auth, answering NEED_MEMORY if an allocation fails and
    setting [unused_bytes_recovered] if not; then the loader queues messages
    (NEED_MEMORY if it fails) and the answer is DATA_REMAINS if it can show
    a message, COMPLETE if not. *)
Theorem dispatch_status_steps_and_recovery (w : World) (t : DBusTransport) :
  (forall r : DispatchResult,
     dispatch_status_as_amended vtable DBUS_WIN w t r <-> get_dispatch_status w t = r)
  /\ (forall (w1 : World) (t1 : DBusTransport) (b : bool),
        is_authenticated w t = (w1, t1, b) ->
        auth t1 = auth_after (check_steps t) (auth t))
  /\ (forall r : World * DBusTransport * bool,
        described_recovery w t r <-> recover_unused_bytes w t = r)
  /\ (forall (w' : World) (t' : DBusTransport) (st : DBusDispatchStatus),
        get_dispatch_status w t = (w', t', st) ->
        _dbus_counter_get_value (live_messages_size t) < max_live_messages_size t ->
        authenticated t' = false ->
        exists n : nat,
          (check_steps t + 1 <= n <= check_steps t + 2)%nat
          /\ auth t' = auth_after n (auth t)
          /\ (st = DBUS_DISPATCH_NEED_MEMORY
              <-> snd (_dbus_auth_do_work (auth_after (check_steps t) (auth t)))
                  = DBUS_AUTH_STATE_WAITING_FOR_MEMORY)
          /\ (st = DBUS_DISPATCH_NEED_MEMORY \/ st = DBUS_DISPATCH_COMPLETE)
          /\ (st = DBUS_DISPATCH_NEED_MEMORY -> n = (check_steps t + 1)%nat)
          /\ (send_credentials_pending t || receive_credentials_pending t = true
              \/ disconnected t = true -> n = 1%nat)).
Proof.
  split.
  { intros r. apply dispatch_status_as_amended_iff. }
  split; [intros w1 t1 b; apply is_authenticated_steps |].
  split; [apply described_recovery_iff |].
  intros w' t' st H Hlt Ha.
  pose proof (dispatch_status_not_authenticated _ _ _ _ _ H Hlt Ha) as Hda.
  unfold dispatch_authenticate in Hda.
  destruct (is_authenticated w t) as [[w1 t1] b] eqn:H1.
  destruct b; cbn [negb] in Hda; [discriminate |].
  pose proof (is_authenticated_steps _ _ _ _ _ H1) as Hs1.
  rewrite Hs1 in Hda.
  destruct (_dbus_auth_do_work (auth_after (check_steps t) (auth t)))
    as [a s0] eqn:Hw.
  assert (Ea : a = auth_after (check_steps t + 1) (auth t)).
  { rewrite Nat.add_comm. cbn [Nat.add auth_after]. now rewrite Hw. }
  cbn [snd].
  destruct (is_authenticated w1 (set_auth a t1)) as [[w3 t3] b3] eqn:H3.
  pose proof (is_authenticated_steps _ _ _ _ _ H3) as Hs3.
  change (auth (set_auth a t1)) with a in Hs3.
  assert (Hn : exists n : nat,
             (check_steps t + 1 <= n <= check_steps t + 2)%nat
             /\ auth t3 = auth_after n (auth t)
             /\ (send_credentials_pending t || receive_credentials_pending t = true
                 \/ disconnected t = true -> n = 1%nat)).
  { exists (check_steps (set_auth a t1) + (check_steps t + 1))%nat.
    pose proof (check_steps_bound (set_auth a t1)).
    split; [lia |]. split.
    - rewrite auth_after_plus, <- Ea. exact Hs3.
    - intros Hq. destruct (check_steps_kept _ _ _ _ a H1 Hq) as [-> ->].
      reflexivity. }
  destruct s0;
    try (destruct b3; cbn [negb] in Hda; [discriminate |];
         inversion Hda; subst w3 t3 st;
         destruct Hn as (n & Hb & Hau & Hq);
         exists n; split; [exact Hb |]; split; [exact Hau |];
         split; [split; discriminate |];
         split; [now right |];
         split; [discriminate | exact Hq]).
  inversion Hda; subst w' t' st.
  exists (check_steps t + 1)%nat.
  split; [lia |]. split; [exact Ea |].
  split; [split; reflexivity |].
  split; [now left |].
  split; [reflexivity |].
  intros Hq. destruct (check_steps_kept _ _ _ _ a H1 Hq) as [-> _]. reflexivity.
Qed.

(** *** Authentication failures *)

Lemma option_nat_eqb_refl (c : option nat) : option_nat_eqb c c = true.
Proof. destruct c; simpl; [apply Nat.eqb_refl | reflexivity]. Qed.

(** With the handshake complete (not yet authenticated, connected, both
    credentials flags down, the Auth reporting Authenticated), the check
    goes on to the identity blocks. *)
Lemma is_authenticated_after_handshake (w : World) (t : DBusTransport)
    (a : DBusAuth) :
  authenticated t = false ->
  disconnected t = false ->
  send_credentials_pending t = false ->
  receive_credentials_pending t = false ->
  _dbus_auth_do_work (auth t) = (a, DBUS_AUTH_STATE_AUTHENTICATED) ->
  is_authenticated w t =
  let w0 := emit (EvConnectionRef (connection t)) w in
  let t0 := set_auth a t in
  match
    (if negb (is_server t) then check_server_guid vtable w0 t0 else Go (w0, t0))
  with
  | Ret r => r
  | Go (w1, t1) =>
      match
        (if is_server t1
         then check_auth_identity vtable DBUS_WIN w1 t1 else Go (w1, t1))
      with
      | Ret r => r
      | Go (w2, t2) =>
          (emit (EvConnectionUnref (connection t2)) w2,
           set_authenticated true t2, true)
      end
  end.
Proof.
  intros Ha Hd Hs Hr Hw. unfold _dbus_transport_get_is_authenticated.
  rewrite Ha, Hd, Hs, Hr. cbn [orb negb]. rewrite Hw. reflexivity.
Qed.

(** C3.  Once the handshake is complete, a client whose [expected_guid]
    differs from the server GUID the Auth obtained, a server whose
    [unix_user_function] rejects the peer, and a server that finds the
    peer's identity different from its own, all get [FALSE] from
    [_dbus_transport_get_is_authenticated] with the transport disconnected
    and not authenticated; whatever is run on it afterwards, no message is
    delivered to the connection any more. *)
Theorem auth_failure_disconnects (w : World) (t : DBusTransport) (a : DBusAuth) :
  authenticated t = false ->
  disconnected t = false ->
  send_credentials_pending t = false ->
  receive_credentials_pending t = false ->
  _dbus_auth_do_work (auth t) = (a, DBUS_AUTH_STATE_AUTHENTICATED) ->
  auth_rejected DBUS_WIN w t a ->
  exists w' t',
    is_authenticated w t = (w', t', false)
    /\ disconnected t' = true
    /\ authenticated t' = false
    /\ delivered (trace w') = delivered (trace w)
    /\ forall fuel ops sts,
        exec_ops vtable DBUS_WIN fuel ops w' t' = Some sts ->
        Forall (fun st => severed (snd st)
                          /\ delivered (trace (fst st)) = delivered (trace w))
          sts.
Proof.
  intros Ha Hd Hs Hr Hw Hrej.
  destruct (is_authenticated w t) as [[w' t'] r] eqn:Hi.
  destruct (is_authenticated_inv _ _ _ _ _ Hi) as (_ & _ & Hr' & _ & Hdel).
  assert (Hres : r = false /\ disconnected t' = true).
  { rewrite is_authenticated_after_handshake with (a := a) in Hi by assumption.
    cbv zeta in Hi.
    set (w0 := emit (EvConnectionRef (connection t)) w) in *.
    destruct Hrej as [(Hsrv & g & Hg & Hne)
                     | [(Hsrv & Hwin & f & Hf & Hno) | (Hsrv & Hnof & Hmis)]].
    - rewrite Hsrv in Hi. cbn [negb] in Hi.
      unfold check_server_guid in Hi.
      cbn [expected_guid auth set_auth] in Hi. rewrite Hg in Hi.
      replace (String.eqb g (_dbus_auth_get_guid_from_server a)) with false in Hi
        by (symmetry; now apply String.eqb_neq).
      cbn [negb] in Hi.
      destruct (disconnect w0 (set_auth a t)) as [w1 t1] eqn:Hdis.
      apply disconnect_inv in Hdis. destruct Hdis as (_ & _ & _ & Hd1).
      inv_pair. auto.
    - rewrite Hsrv in Hi. cbn [negb is_server set_auth] in Hi.
      rewrite Hsrv in Hi.
      unfold check_auth_identity in Hi.
      cbn [unix_user_function unix_user_data connection auth set_auth] in Hi.
      rewrite Hf, Hwin in Hi. cbn [negb] in Hi. rewrite Hno in Hi.
      match type of Hi with
      | context [disconnect ?x ?y] =>
          destruct (disconnect x y) as [w1 t1] eqn:Hdis
      end.
      apply disconnect_inv in Hdis. destruct Hdis as (_ & _ & _ & Hd1).
      inv_pair. auto.
    - rewrite Hsrv in Hi. cbn [negb is_server set_auth] in Hi.
      rewrite Hsrv in Hi.
      unfold check_auth_identity in Hi.
      cbn [unix_user_function unix_user_data connection auth set_auth sys emit]
        in Hi.
      subst w0. cbn [sys emit] in Hi.
      assert (Hid :
        (match unix_user_function t with
         | Some _ => if negb DBUS_WIN then true else false
         | None => false
         end) = false).
      { destruct Hnof as [-> | ->]; [reflexivity |].
        now destruct (unix_user_function t). }
      destruct (unix_user_function t) as [f |];
        [destruct (negb DBUS_WIN); [discriminate Hid |] |];
        rewrite Hmis in Hi; cbn [negb] in Hi;
        match type of Hi with
        | context [disconnect ?x ?y] =>
            destruct (disconnect x y) as [w1 t1] eqn:Hdis
        end;
        apply disconnect_inv in Hdis; destruct Hdis as (_ & _ & _ & Hd1);
        inv_pair; auto. }
  destruct Hres as [-> Hdis'].
  exists w', t'. split; [reflexivity |]. split; [exact Hdis' |].
  split; [now symmetry |]. split; [exact Hdel |].
  intros fuel ops sts Hrun.
  assert (Hsv : severed t') by (split; [exact Hdis' | now symmetry]).
  pose proof (exec_ops_severed _ _ _ _ _ Hrun Hsv) as Hall.
  eapply Forall_impl; [| exact Hall].
  intros [w2 t2] [H1 H2]. split; [exact H1 | congruence].
Qed.

(** C4, at the failing path.  A client with no expected GUID whose copy of
    the server GUID fails for lack of memory gets [FALSE] from
    [_dbus_transport_get_is_authenticated] with the reference on the
    connection taken at entry still held: the call adds one reference and
    releases none. *)
Theorem paranoid_ref_kept_when_guid_copy_fails (w : World) (t : DBusTransport)
    (a : DBusAuth) (s : Sys) :
  authenticated t = false ->
  disconnected t = false ->
  send_credentials_pending t = false ->
  receive_credentials_pending t = false ->
  _dbus_auth_do_work (auth t) = (a, DBUS_AUTH_STATE_AUTHENTICATED) ->
  is_server t = false ->
  expected_guid t = None ->
  _dbus_strdup (sys w) (Some (_dbus_auth_get_guid_from_server a)) = (s, None) ->
  exists w' t',
    is_authenticated w t = (w', t', false)
    /\ trace w' = EvConnectionRef (connection t) :: trace w
    /\ connection_unrefs (connection t) (trace w')
       = connection_unrefs (connection t) (trace w)
    /\ connection_refs (connection t) (trace w')
       = connection_refs (connection t) (trace w) + 1
    /\ authenticated t' = false
    /\ disconnected t' = false.
Proof.
  intros Ha Hd Hs Hr Hw Hsrv Hg Hdup.
  rewrite is_authenticated_after_handshake with (a := a) by assumption.
  cbv zeta. rewrite Hsrv. cbn [negb].
  unfold check_server_guid. cbn [expected_guid auth set_auth sys emit].
  rewrite Hg, Hdup. cbn [acquire_if_set].
  eexists. eexists. split; [reflexivity |].
  cbn. rewrite option_nat_eqb_refl. repeat split; auto. lia.
Qed.

(** *** Queueing messages *)

Lemma need_memory_iff (status : DBusDispatchStatus) :
  negb (DBusDispatchStatus_eqb status DBUS_DISPATCH_NEED_MEMORY) = false
  <-> status = DBUS_DISPATCH_NEED_MEMORY.
Proof. destruct status; simpl; split; congruence. Qed.

(** The first turn of the loop when the counter cannot be attached. *)
Lemma queue_loop_counter_fails (fuel : nat) (w w1 : World) (t t1 : DBusTransport)
    (m : DBusMessage) (l : DBusMessageLoader) (s : Sys) (c : DBusCounter)
    (notified : bool) :
  get_dispatch_status w t = (w1, t1, DBUS_DISPATCH_DATA_REMAINS) ->
  _dbus_message_loader_pop_message_link (loader t1) = Some (m, l) ->
  _dbus_message_add_size_counter (sys w1) m (live_messages_size t1)
  = (s, c, false, notified) ->
  exists w4 t4,
    queue_loop (S fuel) w t = Some (w4, t4, DBUS_DISPATCH_NEED_MEMORY)
    /\ loader t4 = _dbus_message_loader_putback_message_link l m
    /\ delivered (trace w4) = delivered (trace w).
Proof.
  intros Hds Hpop Hadd. simpl. rewrite Hds, Hpop. cbn [live_messages_size set_loader].
  rewrite Hadd.
  apply dispatch_status_inv in Hds. destruct Hds as (_ & _ & _ & Hd1 & _).
  set (t3 := set_live_messages_size c (set_loader l t1)).
  destruct (if notified then notify (set_sys s w1) t3 else (set_sys s w1, t3))
    as [w4 t4] eqn:Hn.
  assert (H4 : quiet (set_sys s w1) w4 /\ frame t3 t4).
  { destruct notified.
    - apply notify_inv in Hn. tauto.
    - inv_pair. split; [apply quiet_refl | apply frame_refl]. }
  destruct H4 as (Hq & Hlo & _).
  cbn [negb]. eexists. eexists. split; [reflexivity |].
  cbn [loader set_loader]. rewrite Hlo. split; [reflexivity |].
  rewrite (delivered_of_quiet _ _ Hq). exact Hd1.
Qed.

Section Corruption.

Hypothesis permanent : corruption_is_permanent.

Lemma recover_keeps_corruption (w w' : World) (t t' : DBusTransport) (ok : bool) :
  recover_unused_bytes w t = (w', t', ok) ->
  _dbus_message_loader_get_is_corrupted (loader t) = true ->
  _dbus_message_loader_get_is_corrupted (loader t') = true.
Proof.
  destruct permanent as (Hget & Hret & _).
  unfold recover_unused_bytes. intros H Hc.
  repeat break_match; inv_pair; cbn [loader set_loader set_auth] in *;
    try assumption;
    try (eapply Hget; eassumption);
    try (apply Hret; eapply Hget; eassumption).
Qed.

Lemma dispatch_status_keeps_corruption (w w' : World) (t t' : DBusTransport)
    (st : DBusDispatchStatus) :
  get_dispatch_status w t = (w', t', st) ->
  _dbus_message_loader_get_is_corrupted (loader t) = true ->
  _dbus_message_loader_get_is_corrupted (loader t') = true.
Proof.
  unfold _dbus_transport_get_dispatch_status. intros H Hc.
  destruct (_ >=? _); [now inv_pair |].
  pose proof (dispatch_authenticate_inv w t) as Hda.
  destruct (dispatch_authenticate vtable DBUS_WIN w t)
    as [[w1 t1] | [[w1 t1] st1]].
  2:{ destruct Hda as ((Hlo & _) & _). inv_pair. now rewrite Hlo. }
  destruct Hda as ((Hlo & _) & _).
  assert (Hc1 : _dbus_message_loader_get_is_corrupted (loader t1) = true)
    by now rewrite Hlo.
  destruct (if negb (unused_bytes_recovered t1)
            then recover_unused_bytes w1 t1 else (w1, t1, true))
    as [[w2 t2] recovered] eqn:Hrec.
  assert (Hc2 : _dbus_message_loader_get_is_corrupted (loader t2) = true).
  { destruct (negb (unused_bytes_recovered t1)).
    - eapply recover_keeps_corruption; eassumption.
    - now inv_pair. }
  destruct recovered; cbn [negb] in H; [| now inv_pair].
  cbn [loader set_unused_bytes_recovered] in H.
  destruct (_dbus_message_loader_queue_messages (loader t2)) as [l queued] eqn:Hq.
  assert (Hcl : _dbus_message_loader_get_is_corrupted l = true).
  { destruct permanent as (_ & _ & Hqueue & _). eapply Hqueue; eassumption. }
  destruct queued; cbn [negb] in H; [| now inv_pair].
  cbn [loader set_loader] in H.
  destruct (_dbus_message_loader_peek_message l); now inv_pair.
Qed.

Lemma queue_loop_keeps_corruption (fuel : nat) :
  forall (w w' : World) (t t' : DBusTransport) (st : DBusDispatchStatus),
    queue_loop fuel w t = Some (w', t', st) ->
    _dbus_message_loader_get_is_corrupted (loader t) = true ->
    _dbus_message_loader_get_is_corrupted (loader t') = true.
Proof.
  induction fuel as [| fuel IH]; intros w w' t t' st H Hc; simpl in H;
    [discriminate |].
  destruct (get_dispatch_status w t) as [[w1 t1] st1] eqn:Hds.
  pose proof (dispatch_status_keeps_corruption _ _ _ _ _ Hds Hc) as Hc1.
  destruct st1; try now inv_pair.
  destruct (_dbus_message_loader_pop_message_link (loader t1))
    as [[m l2] |] eqn:Hpop; [| discriminate].
  assert (Hc2 : _dbus_message_loader_get_is_corrupted l2 = true).
  { destruct permanent as (_ & _ & _ & Hp & _). eapply Hp; eassumption. }
  match type of H with
  | context [_dbus_message_add_size_counter ?a ?b ?c] =>
      destruct (_dbus_message_add_size_counter a b c)
        as [[[s3 c3] added] notified]
  end.
  set (t3 := set_live_messages_size c3 (set_loader l2 t1)) in *.
  destruct (if notified then notify (set_sys s3 w1) t3 else (set_sys s3 w1, t3))
    as [w4 t4] eqn:Hn.
  assert (Hlo : loader t4 = l2).
  { destruct notified.
    - apply notify_inv in Hn. destruct Hn as (_ & (Hlo & _) & _). exact Hlo.
    - now inv_pair. }
  destruct added; cbn [negb] in H.
  - eapply IH; [exact H |]. now rewrite Hlo.
  - assert (Hc4 : _dbus_message_loader_get_is_corrupted (loader t4) = true)
      by now rewrite Hlo.
    inv_pair. cbn [loader set_loader].
    destruct permanent as (_ & _ & _ & _ & Hput). now apply Hput.
Qed.

End Corruption.

(** More fuel does not change the outcome of the loop. *)
Lemma queue_loop_more_fuel (fuel : nat) :
  forall (w : World) (t : DBusTransport) (r : DispatchResult),
    queue_loop fuel w t = Some r -> queue_loop (S fuel) w t = Some r.
Proof.
  induction fuel as [| fuel IH]; intros w t r H; [discriminate |].
  remember (S fuel) as fuel' eqn:Ef.
  simpl. rewrite Ef in H. simpl in H.
  destruct (get_dispatch_status w t) as [[w1 t1] st1].
  destruct st1; try exact H.
  destruct (_dbus_message_loader_pop_message_link (loader t1))
    as [[message l2] |]; [| discriminate].
  match goal with
  | |- context [_dbus_message_add_size_counter ?a ?b ?c] =>
      destruct (_dbus_message_add_size_counter a b c)
        as [[[s3 c3] added] notified]
  end.
  match goal with
  | |- context [if notified then ?a else ?b] =>
      destruct (if notified then a else b) as [w4 t4]
  end.
  destruct added; cbn [negb] in H |- *; [| exact H].
  apply IH. exact H.
Qed.

Lemma queue_loop_fuel_plus (k fuel : nat) (w : World) (t : DBusTransport)
    (r : DispatchResult) :
  queue_loop fuel w t = Some r -> queue_loop (k + fuel) w t = Some r.
Proof.
  intros H. induction k as [| k IH]; [exact H |].
  apply queue_loop_more_fuel. exact IH.
Qed.

(** The outcome of the loop does not depend on the bound. *)
Lemma queue_loop_outcome_unique (f1 f2 : nat) (w : World) (t : DBusTransport)
    (r1 r2 : DispatchResult) :
  queue_loop f1 w t = Some r1 -> queue_loop f2 w t = Some r2 -> r1 = r2.
Proof.
  intros H1 H2.
  apply (queue_loop_fuel_plus f2) in H1.
  apply (queue_loop_fuel_plus f1) in H2.
  rewrite Nat.add_comm in H2. rewrite H1 in H2. now inversion H2.
Qed.

(** From a head the loop has come back to, it goes on as if entered there. *)
Lemma loop_delivers_resumes (w w0 : World) (t t0 : DBusTransport)
    (ms : list DBusMessage) :
  loop_delivers vtable DBUS_WIN w t ms w0 t0 ->
  delivered (trace w0) = delivered (trace w) ++ ms
  /\ exists turns, forall fuel,
        queue_loop (turns + fuel) w t = queue_loop fuel w0 t0.
Proof.
  induction 1 as [| ms w0 w1 w4 t0 t1 t4 m l s c notified Hprev IH Hds Hpop Hadd Hn].
  - split; [now rewrite app_nil_r |]. exists O. reflexivity.
  - destruct IH as (Hdel & turns & Hturns). split.
    + simpl. rewrite app_assoc. f_equal.
      assert (Hq : quiet (set_sys s w1) w4).
      { destruct notified.
        - apply notify_inv in Hn. tauto.
        - inv_pair. apply quiet_refl. }
      rewrite (delivered_of_quiet _ _ Hq). simpl.
      apply dispatch_status_inv in Hds. destruct Hds as (_ & _ & _ & Hd1 & _).
      congruence.
    + exists (turns + 1)%nat. intros fuel.
      replace (turns + 1 + fuel)%nat with (turns + S fuel)%nat by lia.
      rewrite Hturns. simpl. rewrite Hds, Hpop.
      cbn [live_messages_size set_loader]. rewrite Hadd, Hn. reflexivity.
Qed.

(** C5.  [_dbus_transport_queue_messages] comes to an end (the loader
    yielding finitely many messages) and returns [FALSE] if and only if the
    final dispatch status is NEED_MEMORY.  When the live-bytes counter cannot
    be attached to a message just popped, on the first turn of the loop or
    after any number of messages [ms] were delivered, that message is put
    back into the loader and not delivered, the final status is NEED_MEMORY
    and the call returns [FALSE]; the messages [ms] stay delivered.  A
    loader that is corrupted when the loop is over makes the call disconnect
    the transport, and the call still returns [TRUE] unless the final status
    is NEED_MEMORY; corruption being permanent, so does a loader found
    corrupted at the entry of the call or at the head of any later turn,
    and the messages delivered until then stay delivered.  Messages
    delivered, before the call or during it, stay delivered. *)
Theorem queue_messages_outcome (remaining : DBusMessageLoader -> nat)
    (w : World) (t : DBusTransport) :
  loader_yields_finitely remaining ->
  exists fuel w1 t1 status w2 t2 ret,
    queue_loop fuel w t = Some (w1, t1, status)
    /\ queue_messages fuel w t = Some (w2, t2, ret)
    /\ (ret = false <-> status = DBUS_DISPATCH_NEED_MEMORY)
    /\ (if _dbus_message_loader_get_is_corrupted (loader t1)
        then disconnected t2 = true
             /\ (status <> DBUS_DISPATCH_NEED_MEMORY -> ret = true)
        else (w2, t2) = (w1, t1))
    /\ (corruption_is_permanent ->
        forall ms w0 t0,
          loop_delivers vtable DBUS_WIN w t ms w0 t0 ->
          _dbus_message_loader_get_is_corrupted (loader t0) = true ->
          disconnected t2 = true
          /\ exists later, delivered (trace w2) = delivered (trace w) ++ ms ++ later)
    /\ (exists during,
           delivered (trace w1) = delivered (trace w) ++ during
           /\ delivered (trace w2) = delivered (trace w1))
    /\ (forall ms w0 t0 w' t' m l s c notified,
           loop_delivers vtable DBUS_WIN w t ms w0 t0 ->
           get_dispatch_status w0 t0 = (w', t', DBUS_DISPATCH_DATA_REMAINS) ->
           _dbus_message_loader_pop_message_link (loader t') = Some (m, l) ->
           _dbus_message_add_size_counter (sys w') m (live_messages_size t')
           = (s, c, false, notified) ->
           ret = false
           /\ status = DBUS_DISPATCH_NEED_MEMORY
           /\ loader t2 = _dbus_message_loader_putback_message_link l m
           /\ delivered (trace w2) = delivered (trace w) ++ ms).
Proof.
  intros Hfin.
  destruct (queue_loop_ends remaining Hfin w t)
    as (fuel & [[w1 t1] status] & Hloop).
  destruct (if _dbus_message_loader_get_is_corrupted (loader t1)
            then disconnect w1 t1 else (w1, t1)) as [w2 t2] eqn:Hd.
  exists (S fuel), w1, t1, status, w2, t2,
    (negb (DBusDispatchStatus_eqb status DBUS_DISPATCH_NEED_MEMORY)).
  assert (H2 : quiet w1 w2 /\ frame t1 t2).
  { destruct (_dbus_message_loader_get_is_corrupted (loader t1)).
    - apply disconnect_inv in Hd. tauto.
    - inv_pair. split; [apply quiet_refl | apply frame_refl]. }
  destruct H2 as (Hq2 & Hf2).
  split; [exact Hloop |].
  split; [unfold _dbus_transport_queue_messages; rewrite Hloop, Hd; reflexivity |].
  split; [apply need_memory_iff |].
  split.
  { destruct (_dbus_message_loader_get_is_corrupted (loader t1)).
    - apply disconnect_inv in Hd. destruct Hd as (_ & _ & _ & Hdis).
      split; [exact Hdis |].
      intros Hne. destruct status; try reflexivity. contradiction.
    - now inv_pair. }
  split.
  { intros Hperm ms w0 t0 Hreach Hc.
    destruct (loop_delivers_resumes _ _ _ _ _ Hreach) as (Hms & turns & Hturns).
    destruct (queue_loop_ends remaining Hfin w0 t0) as (f0 & r0 & Hloop0).
    pose proof Hloop0 as Hloop0'. rewrite <- Hturns in Hloop0'.
    pose proof (queue_loop_outcome_unique _ _ _ _ _ _ Hloop Hloop0') as E.
    subst r0.
    pose proof (queue_loop_keeps_corruption Hperm _ _ _ _ _ _ Hloop0 Hc) as Hc1.
    pose proof (queue_loop_inv _ _ _ _ _ _ Hloop0) as (_ & _ & He & _).
    destruct (delivered_grows _ _ He) as [later Hg].
    rewrite Hc1 in Hd. apply disconnect_inv in Hd.
    destruct Hd as (Hq & _ & _ & Hdis).
    split; [exact Hdis |]. exists later.
    rewrite (delivered_of_quiet _ _ Hq), Hg, Hms. now rewrite app_assoc. }
  split.
  { pose proof (queue_loop_inv _ _ _ _ _ _ Hloop) as (_ & _ & He & _).
    destruct (delivered_grows _ _ He) as [during Hg].
    exists during. split; [exact Hg | apply delivered_of_quiet, Hq2]. }
  intros ms w0 t0 w' t' m l s c notified Hreach Hds Hpop Hadd.
  destruct (loop_delivers_resumes _ _ _ _ _ Hreach) as (Hms & turns & Hturns).
  destruct (queue_loop_counter_fails O _ _ _ _ _ _ _ _ _ Hds Hpop Hadd)
    as (w4 & t4 & Hloop' & Hput & Hdel).
  rewrite <- Hturns in Hloop'.
  pose proof (queue_loop_outcome_unique _ _ _ _ _ _ Hloop Hloop') as E.
  inversion E; subst w4 t4 status.
  split; [reflexivity |]. split; [reflexivity |].
  split; [destruct Hf2 as (Hlo & _); now rewrite Hlo |].
  rewrite (delivered_of_quiet _ _ Hq2). congruence.
Qed.

(** *** The reference held across the check *)

Lemma released_after_quiet (cn : option ConnPtr) (w w1 : World) :
  quiet w w1 -> released cn w (emit (EvConnectionUnref cn) w1).
Proof.
  intros (_ & Hr & Hu & _). unfold released. simpl.
  rewrite option_nat_eqb_refl, Hr, Hu. split; [reflexivity | lia].
Qed.

Lemma released_before_quiet (cn : option ConnPtr) (w w1 w2 : World) :
  quiet w w1 -> released cn w1 w2 -> released cn w w2.
Proof.
  intros (_ & Hr & Hu & _) [H1 H2]. unfold released.
  rewrite H1, H2, Hr, Hu. auto.
Qed.

Lemma disconnect_then_unref (w w1 : World) (t t1 : DBusTransport) :
  disconnect w t = (w1, t1) ->
  released (connection t) w (emit (EvConnectionUnref (connection t1)) w1).
Proof.
  intros Hd. apply disconnect_inv in Hd.
  destruct Hd as (Hq & (_ & _ & Hcn & _) & _).
  rewrite Hcn. now apply released_after_quiet.
Qed.

Lemma check_server_guid_refs (w : World) (t : DBusTransport) :
  match check_server_guid vtable w t with
  | Go (w', t') => quiet w w' /\ connection t' = connection t
  | Ret (w', t', r) =>
      released (connection t) w w'
      \/ (quiet w w' /\ expected_guid t = None
          /\ exists s,
              _dbus_strdup (sys w)
                (Some (_dbus_auth_get_guid_from_server (auth t))) = (s, None))
  end.
Proof.
  unfold check_server_guid.
  destruct (match expected_guid t with
            | Some g => negb (String.eqb g (_dbus_auth_get_guid_from_server (auth t)))
            | None => false
            end).
  - destruct (disconnect w t) as [w1 t1] eqn:Hd.
    left. eapply disconnect_then_unref. exact Hd.
  - destruct (expected_guid t) eqn:Hg.
    + split; [apply quiet_refl | reflexivity].
    + destruct (_dbus_strdup (sys w) (Some (_dbus_auth_get_guid_from_server (auth t))))
        as [s dup] eqn:Hdup.
      assert (Hq : quiet w (acquire_if_set RExpectedGuid dup (set_sys s w))).
      { eapply quiet_trans; [apply (quiet_set_sys s) | apply quiet_acquire_if_set]. }
      destruct dup.
      * split; [exact Hq | reflexivity].
      * right. split; [exact Hq |]. split; [reflexivity | now exists s].
Qed.

Lemma check_auth_identity_refs (w : World) (t : DBusTransport) :
  match check_auth_identity vtable DBUS_WIN w t with
  | Go (w', t') => quiet w w' /\ t' = t
  | Ret (w', t', r) => released (connection t) w w'
  end.
Proof.
  unfold check_auth_identity.
  assert (Hid :
    match
      (if negb (_dbus_credentials_match
                  (_dbus_credentials_from_current_process (sys w))
                  (_dbus_auth_get_identity (auth t)))
       then
         let '(w1, t1) := disconnect w t in
         Ret (emit (EvConnectionUnref (connection t1)) w1, t1, false)
       else Go (w, t) : Flow (World * DBusTransport) IsAuthResult)
    with
    | Go (w', t') => quiet w w' /\ t' = t
    | Ret (w', t', r) => released (connection t) w w'
    end).
  { destruct (negb _).
    - destruct (disconnect w t) as [w1 t1] eqn:Hd.
      eapply disconnect_then_unref. exact Hd.
    - auto using quiet_refl. }
  destruct (unix_user_function t) as [f |]; [| exact Hid].
  destruct (negb DBUS_WIN); [| exact Hid].
  set (w2 := emit (EvConnectionLock (connection t))
               (emit (EvConnectionUnlock (connection t)) w)).
  assert (Hq : quiet w w2).
  { eapply quiet_trans; [| now apply quiet_emit]. now apply quiet_emit. }
  destruct (f (connection t) (uid (_dbus_auth_get_identity (auth t)))
              (unix_user_data t)).
  - auto.
  - destruct (disconnect w2 t) as [w3 t3] eqn:Hd.
    apply disconnect_inv in Hd. destruct Hd as (Hq3 & _).
    apply released_after_quiet. eapply quiet_trans; eassumption.
Qed.

(** On a connected, not yet authenticated transport, every return path of
    [_dbus_transport_get_is_authenticated] releases the reference it took,
    once, except the one where the copy of the server GUID fails. *)
Lemma paranoid_ref_released_unless_guid_copy_fails (w w' : World)
    (t t' : DBusTransport) (r : bool) :
  authenticated t = false ->
  disconnected t = false ->
  is_authenticated w t = (w', t', r) ->
  (connection_unrefs (connection t) (trace w')
   = S (connection_unrefs (connection t) (trace w))
   /\ connection_refs (connection t) (trace w')
      = connection_refs (connection t) (trace w))
  \/ (is_server t = false /\ expected_guid t = None
      /\ exists a s,
          _dbus_auth_do_work (auth t) = (a, DBUS_AUTH_STATE_AUTHENTICATED)
          /\ _dbus_strdup (sys w) (Some (_dbus_auth_get_guid_from_server a))
             = (s, None)).
Proof.
  intros Ha Hd. unfold _dbus_transport_get_is_authenticated.
  rewrite Ha, Hd.
  set (cn := connection t).
  set (w0 := emit (EvConnectionRef cn) w).
  assert (Hbal : forall w2, released cn w0 w2 ->
            connection_unrefs cn (trace w2) = S (connection_unrefs cn (trace w))
            /\ connection_refs cn (trace w2) = connection_refs cn (trace w)).
  { intros w2 [H1 H2]. rewrite H1, H2. subst w0. simpl.
    rewrite option_nat_eqb_refl. split; [reflexivity | lia]. }
  destruct (if negb (send_credentials_pending t || receive_credentials_pending t)
            then
              let '(a, st) := _dbus_auth_do_work (auth t) in
              (set_auth a t,
               match st with
               | DBUS_AUTH_STATE_AUTHENTICATED => true
               | _ => false
               end)
            else (t, false)) as [t0 maybe] eqn:Hm.
  assert (H0 : connection t0 = cn /\ is_server t0 = is_server t
               /\ expected_guid t0 = expected_guid t
               /\ (maybe = true ->
                   _dbus_auth_do_work (auth t)
                   = (auth t0, DBUS_AUTH_STATE_AUTHENTICATED))).
  { destruct (negb _).
    - destruct (_dbus_auth_do_work (auth t)) as [a st]. inv_pair.
      repeat split. intros Hst. destruct st; try discriminate. reflexivity.
    - inv_pair. repeat split. discriminate. }
  destruct H0 as (Hcn0 & Hsrv0 & Hg0 & Hwork).
  pose proof (check_server_guid_refs w0 t0) as Hc.
  destruct (if maybe && negb (is_server t0)
            then check_server_guid vtable w0 t0 else Go (w0, t0))
    as [[w1 t1] | [[w1 t1] r1]] eqn:Hblock1.
  - assert (H1 : quiet w0 w1 /\ connection t1 = cn).
    { destruct (maybe && negb (is_server t0)).
      - rewrite Hblock1 in Hc. destruct Hc as [Hq Hcn]. split; [exact Hq | congruence].
      - inversion Hblock1; subst. split; [apply quiet_refl | assumption]. }
    destruct H1 as (Hq1 & Hcn1).
    pose proof (check_auth_identity_refs w1 t1) as Hc2.
    destruct (if maybe && is_server t1
              then check_auth_identity vtable DBUS_WIN w1 t1 else Go (w1, t1))
      as [[w2 t2] | [[w2 t2] r2]] eqn:Hblock2.
    + assert (H2 : quiet w1 w2 /\ t2 = t1).
      { destruct (maybe && is_server t1).
        - rewrite Hblock2 in Hc2. exact Hc2.
        - inversion Hblock2; subst. split; [apply quiet_refl | reflexivity]. }
      destruct H2 as (Hq2 & ->).
      intros H. inv_pair. left. apply Hbal.
      cbn [connection set_authenticated]. rewrite Hcn1.
      apply released_after_quiet. eapply quiet_trans; eassumption.
    + assert (H2 : released cn w1 w2).
      { destruct (maybe && is_server t1).
        - rewrite Hblock2 in Hc2. now rewrite Hcn1 in Hc2.
        - discriminate Hblock2. }
      intros H. inv_pair. left. apply Hbal.
      eapply released_before_quiet; eassumption.
  - destruct (maybe && negb (is_server t0)) eqn:Hcond; [| discriminate Hblock1].
    rewrite Hblock1 in Hc. intros H. inv_pair.
    destruct Hc as [Hrel | (Hq & Hnone & s & Hdup)].
    + left. apply Hbal. now rewrite Hcn0 in Hrel.
    + right. apply andb_prop in Hcond. destruct Hcond as [Hmaybe Hcl].
      split; [rewrite <- Hsrv0; now destruct (is_server t0) |].
      split; [congruence |].
      exists (auth t0), s. split; [now apply Hwork | exact Hdup].
Qed.

End BaseFacts.

(** *** The opener *)

Section OpenerFacts.

Context {collab : Collaborators}.
Variable DBUS_BUILD_TESTS : bool.
Variable open_socket : OpenFunc.
Variable open_platform_specific : OpenFunc.
Variable open_debug_pipe : OpenFunc.

Local Abbreviation open_funcs :=
  (Transport.open_funcs DBUS_BUILD_TESTS open_socket open_platform_specific
     open_debug_pipe).
Local Abbreviation transport_open :=
  (_dbus_transport_open DBUS_BUILD_TESTS open_socket open_platform_specific
     open_debug_pipe).

(** Openers that decline are passed over. *)
Lemma try_open_funcs_skips (entry : DBusAddressEntry) (pre rest : list OpenFunc)
    (w w1 : World) :
  all_not_handled entry pre w w1 ->
  try_open_funcs (pre ++ rest) w entry None None
  = try_open_funcs rest w1 entry None None.
Proof.
  induction 1 as [w | func pre' w wa wb Hf Hrest IH]; simpl.
  - reflexivity.
  - rewrite Hf. exact IH.
Qed.

Lemma open_funcs_order (depth : nat) :
  exists inner,
    open_funcs depth
    = [open_socket; open_platform_specific;
       _dbus_transport_open_autolaunch inner]
      ++ (if DBUS_BUILD_TESTS then [open_debug_pipe] else []).
Proof. destruct depth; eexists; reflexivity. Qed.

(** C7 (as amended).  The table of openers is socket, platform-specific,
    autolaunch and, in test builds only, debug-pipe, in that order.  For an
    address entry whose [guid] parameter, if any, could be copied, the opener
    passes over the openers that answer NotHandled; at the first that answers
    otherwise it stops: on OK it returns that opener's transport (carrying
    the expected GUID), on BadAddress or DidNotConnect it returns no
    transport and that opener's error.  When every opener answers NotHandled
    it returns no transport and a bad-address error that names the valid
    address types.  When the [guid] parameter cannot be copied for lack of
    memory, the opener returns no transport and an out-of-memory error, and
    calls no opener. *)
Theorem opener_tries_in_order (depth : nat) (w : World) (entry : DBusAddressEntry)
    (error : DBusError) (s : Sys) (copy : option string) :
  _dbus_strdup (sys w) (dbus_address_entry_get_value entry "guid") = (s, copy) ->
  let guid := dbus_address_entry_get_value entry "guid" in
  let w0 := acquire_if_set RExpectedGuid copy (set_sys s w) in
  (exists inner,
      open_funcs depth
      = [open_socket; open_platform_specific;
         _dbus_transport_open_autolaunch inner]
        ++ (if DBUS_BUILD_TESTS then [open_debug_pipe] else []))
  /\ (if is_some guid && negb (is_some copy)
      then transport_open depth w entry error = Some (w0, None, _DBUS_SET_OOM)
      else
        (forall pre func post w1 w2 t,
            open_funcs depth = pre ++ func :: post ->
            all_not_handled entry pre w0 w1 ->
            func w1 entry None None
            = Some (w2, DBUS_TRANSPORT_OPEN_OK, Some t, None) ->
            transport_open depth w entry error
            = Some (w2, Some (set_expected_guid copy t), error))
        /\ (forall pre func post w1 w2 result e,
               open_funcs depth = pre ++ func :: post ->
               all_not_handled entry pre w0 w1 ->
               func w1 entry None None = Some (w2, result, None, Some e) ->
               result = DBUS_TRANSPORT_OPEN_BAD_ADDRESS
               \/ result = DBUS_TRANSPORT_OPEN_DID_NOT_CONNECT ->
               transport_open depth w entry error
               = Some (release_if_set RExpectedGuid copy w2, None, Some e))
        /\ (forall w1,
               all_not_handled entry (open_funcs depth) w0 w1 ->
               transport_open depth w entry error
               = Some (release_if_set RExpectedGuid copy w1, None,
                       _dbus_set_bad_address unknown_address_type_message))).
Proof.
  intros Hdup guid w0.
  split; [apply open_funcs_order |].
  unfold _dbus_transport_open, _dbus_transport_open_with.
  rewrite Hdup. fold guid. fold w0.
  destruct (is_some guid && negb (is_some copy)); [reflexivity |].
  split; [| split].
  - intros pre func post w1 w2 t Hfuncs Hpre Hfunc.
    rewrite Hfuncs, (try_open_funcs_skips _ _ _ _ _ Hpre). simpl.
    now rewrite Hfunc.
  - intros pre func post w1 w2 result e Hfuncs Hpre Hfunc Hres.
    rewrite Hfuncs, (try_open_funcs_skips _ _ _ _ _ Hpre). simpl.
    rewrite Hfunc. destruct Hres as [-> | ->]; reflexivity.
  - intros w1 Hall.
    rewrite <- (app_nil_r (open_funcs depth)).
    rewrite (try_open_funcs_skips _ _ _ _ _ Hall). reflexivity.
Qed.

End OpenerFacts.

End TransportFacts.

(* ===================================================================== *)
(** * The theorems at work on concrete transports *)
(* ===================================================================== *)

Module TransportRuns.
Import Transport TransportFacts.

#[local] Existing Instance toy_collaborators.

Lemma toy_loader_finite : loader_yields_finitely toy_remaining.
Proof.
  split.
  - intros l l' ok H. simpl in H. inversion H; subst.
    unfold toy_remaining. simpl. rewrite length_app. lia.
  - intros l m H. simpl in H. simpl.
    destruct (toy_queued l) as [| m0 rest] eqn:Hq; [discriminate |].
    exists m0. eexists. split; [reflexivity |].
    unfold toy_remaining. simpl. rewrite Hq. simpl. lia.
Qed.

Lemma toy_corruption_permanent : corruption_is_permanent.
Proof.
  unfold corruption_is_permanent.
  split; [| split; [| split; [| split]]].
  - intros l l' b H Hc. simpl in H. now inversion H; subst.
  - intros l b n Hc. exact Hc.
  - intros l l' ok H Hc. simpl in H. now inversion H; subst.
  - intros l l' m H Hc. simpl in H.
    destruct (toy_queued l); [discriminate |]. now inversion H; subst.
  - intros l m Hc. exact Hc.
Qed.

(** A session in which [authenticated] rises exactly once. *)
Lemma toy_session_history :
  let init :=
    _dbus_transport_init_base (toy_world []) toy_blank None
      (Some "unix:path=/tmp/bus"%string) in
  let w0 := fst (fst init) in
  let t0 := snd (fst init) in
  snd init = true
  /\ option_map (authenticated_history t0)
       (exec_ops toy_client_vtable false 5 toy_session_ops w0 t0)
     = Some [false; false; false; false; true; true; true; true].
Proof. vm_compute. split; reflexivity. Qed.

Lemma authenticated_set_once_and_kept_witness :
  let init :=
    _dbus_transport_init_base (toy_world []) toy_blank None
      (Some "unix:path=/tmp/bus"%string) in
  let w0 := fst (fst init) in
  let t0 := snd (fst init) in
  exists sts,
    init = (w0, t0, true)
    /\ exec_ops toy_client_vtable false 5 toy_session_ops w0 t0 = Some sts
    /\ Forall (fun st => authenticated_after_credentials (snd st)) ((w0, t0) :: sts)
    /\ (rises (authenticated_history t0 sts) <= 1)%nat
    /\ falls (authenticated_history t0 sts) = O.
Proof.
  intros init w0 t0.
  destruct (exec_ops toy_client_vtable false 5 toy_session_ops w0 t0)
    as [sts |] eqn:Hrun; [| vm_compute in Hrun; discriminate Hrun].
  exists sts.
  assert (Hinit : init = (w0, t0, true)) by (vm_compute; reflexivity).
  split; [exact Hinit |]. split; [reflexivity |].
  exact (authenticated_set_once_and_kept toy_client_vtable false 5
           (toy_world []) w0 toy_blank t0 None
           (Some "unix:path=/tmp/bus"%string) toy_session_ops sts Hinit Hrun).
Defined.

(** The three rejections: a server GUID "g2" where "g1" was expected; a
    predicate that rejects uid 1000; a peer with uid 2000 on a server
    running as uid 1000. *)
Lemma auth_failure_disconnects_witness :
  (exists w' t',
      _dbus_transport_get_is_authenticated toy_plain_vtable false (toy_world [])
        (toy_handshaken false (toy_auth_done "g2" 1000 "") (Some "g1"%string)
           None [256%nat])
      = (w', t', false)
      /\ disconnected t' = true
      /\ authenticated t' = false
      /\ delivered (trace w') = delivered (trace (toy_world []))
      /\ forall fuel ops sts,
          exec_ops toy_plain_vtable false fuel ops w' t' = Some sts ->
          Forall (fun st => severed (snd st)
                            /\ delivered (trace (fst st))
                               = delivered (trace (toy_world [])))
            sts)
  /\ (exists w' t',
         _dbus_transport_get_is_authenticated toy_plain_vtable false (toy_world [])
           (toy_handshaken true (toy_auth_done "" 1000 "") None
              (Some toy_reject_all) [])
         = (w', t', false)
         /\ disconnected t' = true)
  /\ (exists w' t',
         _dbus_transport_get_is_authenticated toy_plain_vtable false (toy_world [])
           (toy_handshaken true (toy_auth_done "" 2000 "") None None [])
         = (w', t', false)
         /\ disconnected t' = true).
Proof.
  split; [| split].
  - apply (auth_failure_disconnects toy_plain_vtable false (toy_world [])
             (toy_handshaken false (toy_auth_done "g2" 1000 "") (Some "g1"%string)
                None [256%nat])
             (toy_auth_done "g2" 1000 ""));
      try reflexivity.
    left. split; [reflexivity |]. exists "g1"%string.
    split; [reflexivity | discriminate].
  - destruct (auth_failure_disconnects toy_plain_vtable false (toy_world [])
                (toy_handshaken true (toy_auth_done "" 1000 "") None
                   (Some toy_reject_all) [])
                (toy_auth_done "" 1000 "")
                eq_refl eq_refl eq_refl eq_refl eq_refl)
      as (w' & t' & H1 & H2 & _).
    + right. left. split; [reflexivity |]. split; [reflexivity |].
      exists toy_reject_all. split; reflexivity.
    + exists w', t'. split; assumption.
  - destruct (auth_failure_disconnects toy_plain_vtable false (toy_world [])
                (toy_handshaken true (toy_auth_done "" 2000 "") None None [])
                (toy_auth_done "" 2000 "")
                eq_refl eq_refl eq_refl eq_refl eq_refl)
      as (w' & t' & H1 & H2 & _).
    + right. right. split; [reflexivity |]. split; [now left | reflexivity].
    + exists w', t'. split; assumption.
Defined.

(** The server GUID cannot be copied: the reference stays. *)
Lemma paranoid_ref_kept_when_guid_copy_fails_witness :
  let w := toy_world [false] in
  let t := toy_handshaken false (toy_auth_done "g1" 1000 "") None None [] in
  exists w' t',
    _dbus_transport_get_is_authenticated toy_plain_vtable false w t
    = (w', t', false)
    /\ trace w' = EvConnectionRef (connection t) :: trace w
    /\ connection_unrefs (connection t) (trace w')
       = connection_unrefs (connection t) (trace w)
    /\ connection_refs (connection t) (trace w')
       = connection_refs (connection t) (trace w) + 1
    /\ authenticated t' = false
    /\ disconnected t' = false.
Proof.
  intros w t.
  exact (paranoid_ref_kept_when_guid_copy_fails toy_plain_vtable false w t
           (toy_auth_done "g1" 1000 "") []
           eq_refl eq_refl eq_refl eq_refl eq_refl eq_refl eq_refl eq_refl).
Defined.

Lemma paranoid_ref_leak_run :
  let w := toy_world [false] in
  let t := toy_handshaken false (toy_auth_done "g1" 1000 "") None None [] in
  let '(w', t', r) :=
    _dbus_transport_get_is_authenticated toy_plain_vtable false w t in
  r = false
  /\ trace w' = [EvConnectionRef (Some 7%nat)]
  /\ connection_refs (Some 7%nat) (trace w') = 1.
Proof. vm_compute. repeat split. Qed.

(** Two messages wait in the loader and the counter can be attached to
    the first only. *)
Lemma queue_messages_outcome_witness :
  let w := toy_world [true; true; false] in
  let t :=
    toy_handshaken false (toy_auth_done "g1" 1000 "") (Some "g1"%string) None
      [256%nat; 10%nat] in
  loader_yields_finitely toy_remaining
  /\ exists w0 t0,
      loop_delivers toy_plain_vtable false w t [256%nat] w0 t0
      /\ exists fuel w2 t2,
          _dbus_transport_queue_messages toy_plain_vtable false fuel w t
          = Some (w2, t2, false)
          /\ toy_queued (loader t2) = [10%nat]
          /\ delivered (trace w2) = [256%nat].
Proof.
  intros w t. split; [exact toy_loader_finite |].
  destruct (queue_messages_outcome toy_plain_vtable false toy_remaining w t
              toy_loader_finite)
    as (fuel & w1 & t1 & status & w2 & t2 & ret & _ & H2 & _ & _ & _ & _ & Hfail).
  pose (gds := _dbus_transport_get_dispatch_status toy_plain_vtable false).
  pose (wa := fst (fst (gds w t))). pose (ta := snd (fst (gds w t))).
  pose (la := toy_with_queue (loader ta) (toy_parsable (loader ta)) [10%nat]).
  pose (ca := (256, 66060288) : Z * Z).
  pose (sf := sys (toy_world [false])).
  pose (w0 := emit (EvQueueReceivedMessage (Some 7%nat) 256%nat) (set_sys sf wa)).
  pose (t0 := set_live_messages_size ca (set_loader la ta)).
  assert (Hreach : loop_delivers toy_plain_vtable false w t [256%nat] w0 t0).
  { apply (ld_turn toy_plain_vtable false w t [] w wa (set_sys sf wa) t ta t0
             256%nat la sf ca false).
    - apply ld_start.
    - vm_compute. reflexivity.
    - vm_compute. reflexivity.
    - vm_compute. reflexivity.
    - reflexivity. }
  pose (wb := fst (fst (gds w0 t0))). pose (tb := snd (fst (gds w0 t0))).
  pose (lb := toy_with_queue (loader tb) (toy_parsable (loader tb)) []).
  assert (Hds : gds w0 t0 = (wb, tb, DBUS_DISPATCH_DATA_REMAINS))
    by (vm_compute; reflexivity).
  assert (Hpop : _dbus_message_loader_pop_message_link (loader tb) = Some (10%nat, lb))
    by (vm_compute; reflexivity).
  assert (Hadd : _dbus_message_add_size_counter (sys wb) 10%nat (live_messages_size tb)
                 = (sys (toy_world []), ca, false, false)) by (vm_compute; reflexivity).
  destruct (Hfail _ _ _ _ _ _ _ _ _ _ Hreach Hds Hpop Hadd) as (Hret & _ & Hput & Hdel).
  exists w0, t0. split; [exact Hreach |].
  exists fuel, w2, t2. subst ret. split; [exact H2 |].
  split; [rewrite Hput; reflexivity | exact Hdel].
Defined.

(** C2, as stated, fails: on a connected client with no credentials
    pending whose Auth's next step reports Continuing and the one after it
    WaitingForMemory, the call answers NEED_MEMORY after two steps of the
    Auth, the first of which did not report WaitingForMemory. *)
Lemma auth_stepped_once_as_stated_fails :
  ~ auth_stepped_once_as_stated toy_plain_vtable false.
Proof.
  intros H.
  pose (t :=
    toy_handshaken false
      (toy_auth_midway
         [DBUS_AUTH_STATE_CONTINUING; DBUS_AUTH_STATE_WAITING_FOR_MEMORY])
      (Some "g1"%string) None []).
  pose (r := _dbus_transport_get_dispatch_status toy_plain_vtable false
               (toy_world []) t).
  destruct (H (toy_world []) (fst (fst r)) t (snd (fst r))
              DBUS_DISPATCH_NEED_MEMORY) as [_ [Hst _]].
  - reflexivity.
  - reflexivity.
  - vm_compute. reflexivity.
  - reflexivity.
  - specialize (Hst eq_refl). vm_compute in Hst. discriminate Hst.
Qed.

(** The same call, through the theorem: two steps of the Auth, none left
    in the script. *)
Lemma dispatch_status_steps_and_recovery_witness :
  let t :=
    toy_handshaken false
      (toy_auth_midway
         [DBUS_AUTH_STATE_CONTINUING; DBUS_AUTH_STATE_WAITING_FOR_MEMORY])
      (Some "g1"%string) None [] in
  exists (w' : World) (t' : DBusTransport),
    _dbus_transport_get_dispatch_status toy_plain_vtable false (toy_world []) t
    = (w', t', DBUS_DISPATCH_NEED_MEMORY)
    /\ auth t' = auth_after 2 (auth t)
    /\ toy_script (auth t') = [].
Proof.
  intros t.
  pose (r := _dbus_transport_get_dispatch_status toy_plain_vtable false
               (toy_world []) t).
  destruct (dispatch_status_steps_and_recovery toy_plain_vtable false
              (toy_world []) t) as (_ & _ & _ & Hsteps).
  assert (Hr : _dbus_transport_get_dispatch_status toy_plain_vtable false
                 (toy_world []) t
               = (fst (fst r), snd (fst r), DBUS_DISPATCH_NEED_MEMORY))
    by (vm_compute; reflexivity).
  destruct (Hsteps _ _ _ Hr) as (n & _ & Hauth & _ & _ & Hn & _).
  - vm_compute. reflexivity.
  - reflexivity.
  - exists (fst (fst r)), (snd (fst r)).
    split; [exact Hr |].
    rewrite (Hn eq_refl) in Hauth.
    split; [exact Hauth | reflexivity].
Defined.

(** Three steps in one call: the handshake goes on, and each of the two
    runs of the is_authenticated procedure steps the Auth as the explicit
    step between them does. *)
Lemma dispatch_status_steps_three_times :
  let a :=
    toy_auth_midway
      [DBUS_AUTH_STATE_CONTINUING; DBUS_AUTH_STATE_CONTINUING;
       DBUS_AUTH_STATE_CONTINUING; DBUS_AUTH_STATE_WAITING_FOR_MEMORY] in
  let t := toy_handshaken false a (Some "g1"%string) None [] in
  let r := _dbus_transport_get_dispatch_status toy_plain_vtable false
             (toy_world []) t in
  snd r = DBUS_DISPATCH_COMPLETE
  /\ auth (snd (fst r)) = auth_after 3 a
  /\ toy_script (auth (snd (fst r))) = [DBUS_AUTH_STATE_WAITING_FOR_MEMORY].
Proof. vm_compute. repeat split. Qed.

Lemma queue_messages_run :
  let w := toy_world [true; true; false] in
  let t :=
    toy_handshaken false (toy_auth_done "g1" 1000 "") (Some "g1"%string) None
      [256%nat; 10%nat] in
  match _dbus_transport_queue_messages toy_plain_vtable false 5 w t with
  | Some (w2, t2, ret) =>
      ret = false
      /\ delivered (trace w2) = [256%nat]
      /\ toy_queued (loader t2) = [10%nat]
      /\ fst (live_messages_size t2) = 256
  | None => False
  end.
Proof. vm_compute. repeat split. Qed.

(** The entry "debug-pipe:name=foo" in a test build: socket, platform and
    autolaunch decline, the debug pipe opens. *)
Lemma opener_tries_in_order_witness :
  let w := toy_world [] in
  let entry := toy_entry "debug-pipe" (Some "abcd"%string) in
  let funcs :=
    open_funcs true toy_open_socket toy_open_platform_specific
      toy_open_debug_pipe 1 in
  _dbus_strdup (sys w) (dbus_address_entry_get_value entry "guid")
  = ([], Some "abcd"%string)
  /\ (exists inner,
         funcs = [toy_open_socket; toy_open_platform_specific;
                  _dbus_transport_open_autolaunch inner]
                 ++ [toy_open_debug_pipe])
  /\ _dbus_transport_open true toy_open_socket toy_open_platform_specific
       toy_open_debug_pipe 1 w entry None
     = Some (emit (EvAcquire RExpectedGuid) w,
             Some (set_expected_guid (Some "abcd"%string)
                     (toy_handshaken false toy_fresh_auth None None [])),
             None).
Proof.
  intros w entry funcs.
  pose proof (opener_tries_in_order true toy_open_socket
                toy_open_platform_specific toy_open_debug_pipe 1 w entry None
                [] (Some "abcd"%string) eq_refl) as H.
  cbv zeta in H. destruct H as (Horder & Hrest).
  split; [reflexivity |]. split; [exact Horder |].
  cbn [is_some negb andb dbus_address_entry_get_value] in Hrest.
  change (is_some
            (@dbus_address_entry_get_value toy_collaborators entry "guid")
          && negb (is_some (Some "abcd"%string))) with false in Hrest.
  destruct Hrest as (Hok & _ & _).
  set (w0 := emit (EvAcquire RExpectedGuid) w).
  apply (Hok (firstn 3 funcs) toy_open_debug_pipe [] w0 w0).
  - reflexivity.
  - repeat (eapply anh_cons; [reflexivity |]). apply anh_nil.
  - reflexivity.
Defined.

(** An entry nobody takes, and one the socket opener fails to connect. *)
Lemma opener_errors_run :
  let open :=
    _dbus_transport_open true toy_open_socket toy_open_platform_specific
      toy_open_debug_pipe 1 (toy_world []) in
  open (toy_entry "carrier-pigeon" None) None
  = Some (toy_world [], None,
          _dbus_set_bad_address unknown_address_type_message)
  /\ open (toy_entry "tcp" None) None
     = Some (toy_world [], None,
             Some {| error_name := "org.freedesktop.DBus.Error.NoServer";
                     error_message := "Connection refused" |}).
Proof. vm_compute. split; reflexivity. Qed.

(** C7, as stated, fails: the entry "unix:guid=abcd" is one the socket
    opener would open, but when the copy of "abcd" runs out of memory the
    opener returns no transport and an out-of-memory error. *)
Lemma opener_as_stated_fails :
  ~ opener_as_stated true toy_open_socket toy_open_platform_specific
      toy_open_debug_pipe.
Proof.
  intros H.
  specialize (H 1%nat (toy_world [false]) (toy_entry "unix" (Some "abcd"%string))
                None [] None eq_refl).
  cbv zeta in H.
  specialize (H [] toy_open_socket
                (skipn 1 (open_funcs true toy_open_socket
                            toy_open_platform_specific toy_open_debug_pipe 1))
                (toy_world []) (toy_world [])
                (toy_handshaken false toy_fresh_auth None None [])
                eq_refl (anh_nil _ _) eq_refl).
  vm_compute in H. discriminate H.
Qed.

(** Construction with the third allocation (the counter) failing: the
    loader and the Auth are released again and the transport is untouched. *)
Lemma init_base_counter_oom_run :
  _dbus_transport_init_base (toy_world [true; true; false]) toy_blank None
    (Some "unix:path=/tmp/bus"%string)
  = ({| sys := [];
        trace := [EvRelease RLoader; EvRelease RAuth;
                  EvAcquire RAuth; EvAcquire RLoader] |},
     toy_blank, false).
Proof. vm_compute. reflexivity. Qed.

(** A backend whose [connection_set] hook fails. *)
Lemma set_connection_failure_run :
  let '(_, t', ret) :=
    _dbus_transport_set_connection (toy_vtable [] false) (toy_world [])
      (toy_handshaken false toy_fresh_auth None None []) (Some 3%nat) in
  ret = false /\ connection t' = None /\ refcount t' = 1.
Proof. vm_compute. repeat split. Qed.

(** A client whose handshake with server "g1" has completed, with one
    message in the loader: the status is DATA_REMAINS, and COMPLETE once the
    live counter has reached the maximum. *)
Lemma dispatch_status_run :
  let t :=
    toy_handshaken false (toy_auth_done "g1" 1000 "") (Some "g1"%string) None
      [256%nat] in
  snd (_dbus_transport_get_dispatch_status toy_plain_vtable false (toy_world []) t)
  = DBUS_DISPATCH_DATA_REMAINS
  /\ snd (_dbus_transport_get_dispatch_status toy_plain_vtable false (toy_world [])
            (_dbus_transport_set_max_received_size t 0))
     = DBUS_DISPATCH_COMPLETE.
Proof. vm_compute. split; reflexivity. Qed.

End TransportRuns.

(* ===================================================================== *)
(** * The debug allocator over whole runs *)
(* ===================================================================== *)

Module MemoryInvariants.
Import Memory MemoryFacts.

Section RunFacts.

Context {Heap : Type}.
Variable libc : Libc Heap.
Variable DBUS_BUILD_TESTS : bool.

Local Abbreviation init := (_dbus_initialize_malloc_debug libc).
Local Abbreviation decrement := (_dbus_decrement_fail_alloc_counter libc).
Local Abbreviation dbus_free := (Memory.dbus_free libc DBUS_BUILD_TESTS).
Local Abbreviation do_call := (Memory.do_call libc DBUS_BUILD_TESTS).
Local Abbreviation run_calls := (Memory.run_calls libc DBUS_BUILD_TESTS).
Local Abbreviation ordinary_call := (Memory.ordinary_call libc DBUS_BUILD_TESTS).
Local Abbreviation injection_fires := (Memory.injection_fires libc DBUS_BUILD_TESTS).
Local Abbreviation after_countdown := (Memory.after_countdown libc DBUS_BUILD_TESTS).
Local Abbreviation do_mem_op := (Memory.do_mem_op libc DBUS_BUILD_TESTS).
Local Abbreviation run_mem_ops := (Memory.run_mem_ops libc DBUS_BUILD_TESTS).
Local Abbreviation library_request := (Memory.library_request libc DBUS_BUILD_TESTS).

Lemma dbus_free_dbg (st : MemState Heap) (m : ptr) :
  dbg (dbus_free st m) = dbg st.
Proof.
  unfold Memory.dbus_free.
  destruct (DBUS_BUILD_TESTS && guards (dbg st)); destruct (m =? NULL); reflexivity.
Qed.

Lemma ordinary_call_dbg (st : MemState Heap) (c : AllocCall) :
  dbg (fst (ordinary_call st c)) = dbg st.
Proof.
  destruct c as [b | b | m b]; simpl.
  - destruct (b =? 0); [reflexivity |].
    destruct (DBUS_BUILD_TESTS && _); [reflexivity |].
    destruct (DBUS_BUILD_TESTS && guards (dbg st)).
    + destruct (malloc libc (heap st) _) as [h blk].
      now destruct (set_guards libc h blk b SOURCE_MALLOC).
    + now destruct (malloc libc (heap st) b).
  - destruct (b =? 0); [reflexivity |].
    destruct (DBUS_BUILD_TESTS && _); [reflexivity |].
    destruct (DBUS_BUILD_TESTS && guards (dbg st)).
    + destruct (calloc libc (heap st) _ 1) as [h blk].
      now destruct (set_guards libc h blk b SOURCE_MALLOC_ZERO).
    + now destruct (calloc libc (heap st) b 1).
  - destruct (b =? 0); [apply dbus_free_dbg |].
    destruct (DBUS_BUILD_TESTS && _); [reflexivity |].
    destruct (DBUS_BUILD_TESTS && guards (dbg st)).
    + destruct (negb (m =? NULL)).
      * destruct (realloc libc (heap st) _ _) as [h blk].
        now destruct (set_guards libc h blk b SOURCE_REALLOC).
      * destruct (malloc libc (heap st) _) as [h blk].
        now destruct (set_guards libc h blk b SOURCE_REALLOC_NULL).
    + now destruct (realloc libc (heap st) m b).
Qed.

Lemma do_call_dbg (st : MemState Heap) (c : AllocCall) :
  dbg (fst (do_call st c)) = dbg (after_countdown st).
Proof.
  rewrite call_is_countdown_then_ordinary.
  destruct (injection_fires st); [reflexivity | apply ordinary_call_dbg].
Qed.

Lemma settings_init_twice (d : MallocDebug) :
  environment_settings (init (init d)) = environment_settings (init d).
Proof. now rewrite init_idempotent. Qed.

Lemma settings_set_counter (d : MallocDebug) (v : Z) :
  environment_settings (init (set_fail_alloc_counter (init d) v))
  = environment_settings (init d).
Proof. rewrite init_set_counter by apply init_initialized. reflexivity. Qed.

Lemma settings_decrement (d : MallocDebug) :
  environment_settings (init (fst (decrement d))) = environment_settings (init d).
Proof.
  unfold _dbus_decrement_fail_alloc_counter.
  destruct (fail_alloc_counter (init d) <=? 0); simpl fst;
    apply settings_set_counter.
Qed.

Lemma settings_after_op (st : MemState Heap) (op : MemOp) :
  environment_settings (init (dbg (do_mem_op st op)))
  = environment_settings (init (dbg st)).
Proof.
  destruct op as [c | m | n | |]; simpl.
  - rewrite do_call_dbg. unfold Memory.after_countdown.
    destruct DBUS_BUILD_TESTS; [apply settings_decrement | reflexivity].
  - now rewrite dbus_free_dbg.
  - apply settings_set_counter.
  - apply settings_init_twice.
  - apply settings_init_twice.
Qed.

Lemma settings_after_ops (st : MemState Heap) (ops : list MemOp) :
  environment_settings (init (dbg (run_mem_ops st ops)))
  = environment_settings (init (dbg st)).
Proof.
  unfold Memory.run_mem_ops. revert st.
  induction ops as [| op ops IH]; intros st; [reflexivity |].
  simpl. rewrite IH. apply settings_after_op.
Qed.

Lemma decrement_passes (d : MallocDebug) :
  debug_initialized d = true ->
  0 < fail_alloc_counter d ->
  decrement d = (set_fail_alloc_counter d (fail_alloc_counter d - 1), false).
Proof.
  intros Hi Hc. unfold _dbus_decrement_fail_alloc_counter.
  assert (E : init d = d)
    by (unfold _dbus_initialize_malloc_debug; now rewrite Hi).
  rewrite E.
  replace (fail_alloc_counter d <=? 0) with false
    by (symmetry; apply Z.leb_gt; lia).
  reflexivity.
Qed.

(** Where the countdown stands [length cs] calls after it was set to [k]. *)
Lemma counter_after_set (st : MemState Heap) (k : Z) (cs : list AllocCall) :
  DBUS_BUILD_TESTS = true ->
  Z.of_nat (List.length cs) <= k ->
  debug_initialized
    (dbg (fst (run_calls
                 (with_dbg st (_dbus_set_fail_alloc_counter libc (dbg st) k)) cs)))
  = true
  /\ fail_alloc_counter
       (dbg (fst (run_calls
                    (with_dbg st (_dbus_set_fail_alloc_counter libc (dbg st) k)) cs)))
     = k - Z.of_nat (List.length cs)
  /\ fail_counts
       (dbg (fst (run_calls
                    (with_dbg st (_dbus_set_fail_alloc_counter libc (dbg st) k)) cs)))
     = fail_counts (init (dbg st)).
Proof.
  intros Ht. set (st0 := with_dbg st _).
  induction cs as [| c cs IH] using rev_ind; intros Hlen.
  - subst st0. simpl.
    split; [apply init_initialized | split; [lia | reflexivity]].
  - rewrite length_app in Hlen. simpl in Hlen.
    rewrite run_calls_app.
    destruct (run_calls st0 cs) as [st1 ps] eqn:E.
    simpl in IH.
    destruct IH as (Hi & Hc & Hf); [lia |].
    simpl. destruct (do_call st1 c) as [st2 p] eqn:Ec. simpl.
    replace st2 with (fst (do_call st1 c)) by now rewrite Ec.
    rewrite dbg_after_call by exact Ht.
    rewrite decrement_passes by (try exact Hi; lia).
    simpl. rewrite length_app. simpl. repeat split; [exact Hi | lia | exact Hf].
Qed.

Lemma initialized_after_op (st : MemState Heap) (op : MemOp) :
  debug_initialized (dbg st) = true ->
  debug_initialized (dbg (do_mem_op st op)) = true.
Proof.
  intros Hi.
  assert (E : init (dbg st) = dbg st)
    by (unfold _dbus_initialize_malloc_debug; now rewrite Hi).
  destruct op as [c | m | n | |]; simpl; rewrite ?E; try exact Hi.
  - rewrite do_call_dbg. unfold Memory.after_countdown.
    destruct DBUS_BUILD_TESTS; [| exact Hi]. simpl.
    unfold _dbus_decrement_fail_alloc_counter. rewrite E.
    destruct (fail_alloc_counter (dbg st) <=? 0); exact Hi.
  - now rewrite dbus_free_dbg.
Qed.

Lemma initialized_after_ops (st : MemState Heap) (ops : list MemOp) :
  debug_initialized (dbg st) = true ->
  debug_initialized (dbg (run_mem_ops st ops)) = true.
Proof.
  unfold Memory.run_mem_ops. revert st.
  induction ops as [| op ops IH]; intros st Hi; [exact Hi |].
  simpl. apply IH. now apply initialized_after_op.
Qed.

Lemma decrement_guards (d : MallocDebug) :
  guards (fst (decrement d)) = guards (init d).
Proof.
  unfold _dbus_decrement_fail_alloc_counter.
  now destruct (fail_alloc_counter (init d) <=? 0).
Qed.

Lemma decrement_fail_size (d : MallocDebug) :
  fail_size (fst (decrement d)) = fail_size (init d).
Proof.
  unfold _dbus_decrement_fail_alloc_counter.
  now destruct (fail_alloc_counter (init d) <=? 0).
Qed.

Lemma settings_after_calls (st : MemState Heap) (cs : list AllocCall) :
  environment_settings (init (dbg (fst (run_calls st cs))))
  = environment_settings (init (dbg st)).
Proof.
  revert st. induction cs as [| c cs IH]; intros st; [reflexivity |].
  simpl. destruct (do_call st c) as [st1 p] eqn:Ec.
  specialize (IH st1). destruct (run_calls st1 cs) as [st2 ps]. simpl in *.
  rewrite IH. replace st1 with (do_mem_op st (MO_call c)) by (simpl; now rewrite Ec).
  apply settings_after_op.
Qed.

(** The remainder of [k * N] by [N + 1], for [1 <= k <= N]. *)
Lemma mod_of_multiple (N k : Z) :
  1 <= k <= N -> (k * N) mod (N + 1) = N + 1 - k.
Proof.
  intros Hk. symmetry. apply (Z.mod_unique _ _ (k - 1)); nia.
Qed.

(** C8.  What the code does with [DBUS_MALLOC_FAIL_NTH=N], [N >= 1] (and
    neither a size limit nor guards in the environment), counting the calls
    of [dbus_malloc], [dbus_malloc0] and [dbus_realloc] from the start of the
    process: the countdown is armed with [N] itself, so it fails one call
    late.  For [1 <= k <= N] the [k*N]-th call is not failed:
    [_dbus_decrement_fail_alloc_counter] returns [FALSE] and a request of a
    size other than zero is answered with what the underlying allocator
    returns.  The calls that are failed are the [k*(N+1)]-th: there
    [_dbus_decrement_fail_alloc_counter] returns [TRUE] and the call returns
    [NULL] with the heap untouched. *)
Theorem fail_nth_fails_one_call_late (s : string) (N k : Z) (h : Heap)
    (pre : list AllocCall) (c : AllocCall) :
  DBUS_BUILD_TESTS = true ->
  _dbus_getenv libc "DBUS_MALLOC_FAIL_NTH" = Some s ->
  atoi libc s = N ->
  1 <= N ->
  _dbus_getenv libc "DBUS_MALLOC_FAIL_GREATER_THAN" = None ->
  _dbus_getenv libc "DBUS_MALLOC_GUARDS" = None ->
  1 <= k ->
  let st := fst (run_calls (process_start h) pre) in
  let j := Z.of_nat (List.length pre) + 1 in
  (j = k * N -> k <= N ->
   snd (decrement (dbg st)) = false
   /\ (requested_bytes c <> 0 ->
       (heap (fst (do_call st c)), snd (do_call st c))
       = underlying_call libc (heap st) c))
  /\ (j = k * (N + 1) ->
      snd (decrement (dbg st)) = true
      /\ snd (do_call st c) = NULL
      /\ heap (fst (do_call st c)) = heap st).
Proof.
  intros Ht Henv Hatoi HN Hgt Hguards Hk st j.
  pose proof (fail_nth_period libc DBUS_BUILD_TESTS s N Ht Henv Hatoi
                ltac:(lia) h pre) as Hfire.
  fold st j in Hfire.
  pose proof (countdown_fires_iff libc DBUS_BUILD_TESTS st Ht) as Hdec.
  split.
  - intros Hj HkN.
    assert (Hno : injection_fires st = false).
    { rewrite Hfire, Hj, mod_of_multiple by lia. apply Z.eqb_neq. lia. }
    split; [now rewrite Hdec |].
    intros Hsize.
    rewrite call_is_countdown_then_ordinary, Hno.
    pose proof (settings_after_calls (process_start h) pre) as Hset.
    fold st in Hset. unfold environment_settings in Hset.
    assert (Hs0 : fail_size (init (dbg st)) = 0 /\ guards (init (dbg st)) = false).
    { assert (E1 : fail_size (init (dbg st))
                   = fail_size (init (dbg (process_start h)))) by congruence.
      assert (E2 : guards (init (dbg st))
                   = guards (init (dbg (process_start h)))) by congruence.
      rewrite E1, E2. unfold _dbus_initialize_malloc_debug. simpl.
      now rewrite Hgt, Hguards. }
    destruct Hs0 as [Hsz Hg].
    assert (Hs1 : fail_size (dbg (after_countdown st)) = 0
                  /\ guards (dbg (after_countdown st)) = false).
    { unfold Memory.after_countdown. rewrite Ht. simpl.
      now rewrite decrement_fail_size, decrement_guards. }
    destruct Hs1 as [Hsz1 Hg1].
    pose proof (heap_after_countdown libc DBUS_BUILD_TESTS st) as Hh.
    revert Hsz1 Hg1 Hh. generalize (after_countdown st). intros st1 Hsz1 Hg1 Hh.
    destruct c as [b | b | m b]; simpl in Hsize |- *;
      (replace (b =? 0) with false by (symmetry; apply Z.eqb_neq; lia));
      rewrite Hsz1, Hg1, Ht, Hh; simpl;
      match goal with
      | |- context [let '(_, _) := ?e in _] => destruct e as [h1 p1]
      end; reflexivity.
  - intros Hj.
    assert (Hyes : injection_fires st = true).
    { rewrite Hfire, Hj, Z.mod_mul by lia. reflexivity. }
    split; [now rewrite Hdec |].
    rewrite call_is_countdown_then_ordinary, Hyes.
    split; [reflexivity | apply heap_after_countdown].
Qed.

(** X1.  With [DBUS_MALLOC_FAIL_NTH] set to [N >= 0], a test build fails
    every [(N+1)]-th allocation call counted from the start of the process:
    call number [j] returns [NULL] and leaves the heap untouched when [N+1]
    divides [j], and is served by the ordinary allocation logic otherwise,
    so that [N] calls go through between two failures. *)
Theorem fail_nth_fails_every_n_plus_first (s : string) (N : Z) (h : Heap)
    (pre : list AllocCall) (c : AllocCall) :
  DBUS_BUILD_TESTS = true ->
  _dbus_getenv libc "DBUS_MALLOC_FAIL_NTH" = Some s ->
  atoi libc s = N ->
  0 <= N ->
  let st := fst (run_calls (process_start h) pre) in
  let j := Z.of_nat (List.length pre) + 1 in
  if j mod (N + 1) =? 0
  then snd (do_call st c) = NULL /\ heap (fst (do_call st c)) = heap st
  else do_call st c = ordinary_call (after_countdown st) c.
Proof.
  intros Ht Henv Hatoi HN st j.
  pose proof (fail_nth_period libc DBUS_BUILD_TESTS s N Ht Henv Hatoi HN h pre)
    as Hfire.
  fold st j in Hfire.
  rewrite call_is_countdown_then_ordinary, Hfire.
  destruct (j mod (N + 1) =? 0); [| reflexivity].
  split; [reflexivity | apply heap_after_countdown].
Qed.

(** X2.  [_dbus_set_fail_alloc_counter (k)] lets exactly [k] allocation
    calls past the countdown and fails the one after them:
    [_dbus_get_fail_alloc_counter] reads [k - j] after [j <= k] calls, a call
    that follows fewer than [k] calls is served by the ordinary allocation
    logic, and the call that follows [k] calls returns [NULL] with the heap
    untouched and re-arms the countdown to [fail_counts] (to [INT_MAX] when
    [fail_counts] is negative). *)
Theorem set_fail_alloc_counter_counts_down (st : MemState Heap) (k : Z)
    (cs : list AllocCall) (c : AllocCall) :
  DBUS_BUILD_TESTS = true ->
  Z.of_nat (List.length cs) <= k ->
  let st1 :=
    fst (run_calls (with_dbg st (_dbus_set_fail_alloc_counter libc (dbg st) k)) cs) in
  injection_fires st1 = (Z.of_nat (List.length cs) =? k)
  /\ snd (_dbus_get_fail_alloc_counter libc (dbg st1)) = k - Z.of_nat (List.length cs)
  /\ (Z.of_nat (List.length cs) < k ->
      do_call st1 c = ordinary_call (after_countdown st1) c)
  /\ (Z.of_nat (List.length cs) = k ->
      snd (do_call st1 c) = NULL
      /\ heap (fst (do_call st1 c)) = heap st1
      /\ fail_alloc_counter (dbg (fst (do_call st1 c)))
         = (if fail_counts (init (dbg st)) >=? 0
            then fail_counts (init (dbg st))
            else _DBUS_INT_MAX)).
Proof.
  intros Ht Hlen st1.
  destruct (counter_after_set st k cs Ht Hlen) as (Hi & Hc & Hf).
  fold st1 in Hi, Hc, Hf.
  assert (E : init (dbg st1) = dbg st1)
    by (unfold _dbus_initialize_malloc_debug; now rewrite Hi).
  assert (Hfire : injection_fires st1 = (Z.of_nat (List.length cs) =? k)).
  { unfold Memory.injection_fires. rewrite Ht, E, Hc. simpl.
    destruct (Z.eqb_spec (Z.of_nat (List.length cs)) k) as [e | n].
    - apply Z.leb_le. lia.
    - apply Z.leb_gt. lia. }
  split; [exact Hfire |].
  split; [unfold _dbus_get_fail_alloc_counter; simpl; now rewrite E |].
  split.
  - intros Hlt. rewrite call_is_countdown_then_ordinary, Hfire.
    now replace (Z.of_nat (List.length cs) =? k) with false
      by (symmetry; apply Z.eqb_neq; lia).
  - intros He. rewrite call_is_countdown_then_ordinary, Hfire.
    replace (Z.of_nat (List.length cs) =? k) with true
      by (symmetry; apply Z.eqb_eq; exact He).
    simpl. split; [reflexivity |]. split; [apply heap_after_countdown |].
    unfold Memory.after_countdown. rewrite Ht. simpl.
    unfold _dbus_decrement_fail_alloc_counter. rewrite E, Hc.
    replace (k - Z.of_nat (List.length cs) <=? 0) with true
      by (symmetry; apply Z.leb_le; lia).
    simpl. now rewrite Hf.
Qed.

(** X3.  The environment is read once.  Whatever calls follow (allocations,
    frees, [_dbus_set_fail_alloc_counter], [_dbus_get_fail_alloc_counter],
    [_dbus_disable_mem_pools]), the settings [fail_counts], [fail_size],
    [guards] and [disable_mem_pools] keep the values the first
    initialisation gave them; from the start of the process,
    [_dbus_disable_mem_pools] answers whether [DBUS_DISABLE_MEM_POOLS] is
    set, at any point of the run. *)
Theorem environment_read_once (st : MemState Heap) (h : Heap) (ops : list MemOp) :
  environment_settings (init (dbg (run_mem_ops st ops)))
  = environment_settings (init (dbg st))
  /\ (debug_initialized (dbg st) = true ->
      environment_settings (dbg (run_mem_ops st ops))
      = environment_settings (dbg st))
  /\ snd (_dbus_disable_mem_pools libc (dbg (run_mem_ops (process_start h) ops)))
     = is_set (_dbus_getenv libc "DBUS_DISABLE_MEM_POOLS").
Proof.
  split; [apply settings_after_ops |]. split.
  - intros Hi.
    pose proof (settings_after_ops st ops) as H.
    pose proof (initialized_after_ops st ops Hi) as Hi'.
    assert (E : init (dbg st) = dbg st)
      by (unfold _dbus_initialize_malloc_debug; now rewrite Hi).
    assert (E' : init (dbg (run_mem_ops st ops)) = dbg (run_mem_ops st ops))
      by (unfold _dbus_initialize_malloc_debug; now rewrite Hi').
    now rewrite E, E' in H.
  - pose proof (settings_after_ops (process_start h) ops) as H.
    unfold environment_settings in H. unfold _dbus_disable_mem_pools. simpl snd.
    assert (Hd : disable_mem_pools (init (dbg (run_mem_ops (process_start h) ops)))
                 = disable_mem_pools (init (dbg (process_start h))))
      by congruence.
    rewrite Hd. unfold _dbus_initialize_malloc_debug. simpl.
    now destruct (_dbus_getenv libc "DBUS_DISABLE_MEM_POOLS").
Qed.

(** X4.  With [DBUS_MALLOC_FAIL_GREATER_THAN] set to a positive limit, a
    test build refuses every request above the limit, at any point of a run
    from the start of the process: [dbus_malloc], [dbus_malloc0] and
    [dbus_realloc] return [NULL] and leave the heap untouched, so the block
    passed to [dbus_realloc] is not freed. *)
Theorem size_limit_refuses (s : string) (L : Z) (h : Heap) (ops : list MemOp)
    (c : AllocCall) :
  DBUS_BUILD_TESTS = true ->
  _dbus_getenv libc "DBUS_MALLOC_FAIL_GREATER_THAN" = Some s ->
  (atoi libc s) mod (size_modulus libc) = L ->
  0 < L ->
  L < requested_bytes c ->
  let st := run_mem_ops (process_start h) ops in
  snd (do_call st c) = NULL /\ heap (fst (do_call st c)) = heap st.
Proof.
  intros Ht Henv Hatoi Hpos Hbig st.
  assert (Hsize : fail_size (init (dbg st)) = L).
  { pose proof (settings_after_ops (process_start h) ops) as H.
    unfold environment_settings in H. fold st in H.
    assert (E : fail_size (init (dbg st)) = fail_size (init (dbg (process_start h))))
      by congruence.
    rewrite E. unfold _dbus_initialize_malloc_debug. simpl.
    now rewrite Henv. }
  rewrite call_is_countdown_then_ordinary.
  destruct (injection_fires st).
  { split; [reflexivity | apply heap_after_countdown]. }
  assert (Hs1 : fail_size (dbg (after_countdown st)) = L).
  { unfold Memory.after_countdown. rewrite Ht. simpl.
    now rewrite decrement_fail_size. }
  pose proof (heap_after_countdown libc DBUS_BUILD_TESTS st) as Hh.
  revert Hs1 Hh. generalize (after_countdown st). intros st1 Hs1 Hh.
  assert (Hbig' : negb (L =? 0) && (requested_bytes c >? L) = true).
  { apply andb_true_iff. split.
    - apply negb_true_iff. apply Z.eqb_neq. lia.
    - apply Z.gtb_lt. lia. }
  destruct c as [b | b | m b]; simpl in Hbig, Hbig' |- *;
    (replace (b =? 0) with false by (symmetry; apply Z.eqb_neq; lia));
    rewrite Ht, Hs1, Hbig'; simpl; split; [reflexivity | exact Hh | reflexivity
                                            | exact Hh | reflexivity | exact Hh].
Qed.

(** X5.  [dbus_free] hands the C library exactly the block its allocator
    returned.  When an allocation call returns a block [p], the C library
    was asked once, for the request of [library_request], and returned a
    block that [p] equals, or lies [GUARD_START_OFFSET] bytes into when
    guards are on; freeing [p] passes that very block to [free]. *)
Theorem free_receives_library_block (st st' : MemState Heap) (c : AllocCall)
    (p : ptr) :
  do_call st c = (st', p) ->
  p <> NULL ->
  exists (h : Heap) (block : ptr),
    underlying_call libc (heap st) (library_request (init (dbg st)) c) = (h, block)
    /\ block <> NULL
    /\ p = (if DBUS_BUILD_TESTS && guards (init (dbg st))
            then block + GUARD_START_OFFSET
            else block)
    /\ heap (dbus_free st' p) = free libc (heap st') block.
Proof.
  intros Hcall Hp.
  rewrite call_is_countdown_then_ordinary in Hcall.
  destruct (injection_fires st).
  { inversion Hcall. congruence. }
  assert (Hg : DBUS_BUILD_TESTS && guards (dbg (after_countdown st))
               = DBUS_BUILD_TESTS && guards (init (dbg st))).
  { unfold Memory.after_countdown. destruct DBUS_BUILD_TESTS; [| reflexivity].
    simpl. apply decrement_guards. }
  pose proof (heap_after_countdown libc DBUS_BUILD_TESTS st) as Hh.
  assert (Hd : dbg st' = dbg (after_countdown st)).
  { replace st' with (fst (ordinary_call (after_countdown st) c))
      by now rewrite Hcall.
    apply ordinary_call_dbg. }
  unfold Memory.library_request, Memory.dbus_free.
  rewrite Hd, <- Hg, <- Hh.
  revert Hcall. generalize (after_countdown st). clear Hg Hh Hd.
  intros st1 Hcall.
  replace (p =? NULL) with false by (symmetry; apply Z.eqb_neq; exact Hp).
  assert (Hoff : forall blk, blk + GUARD_START_OFFSET - GUARD_START_OFFSET = blk)
    by (intros; lia).
  destruct c as [b | b | m b]; simpl in Hcall;
    (destruct (b =? 0); [inversion Hcall; congruence |]);
    (destruct (DBUS_BUILD_TESTS && (negb _ && _));
       [inversion Hcall; congruence |]);
    destruct (DBUS_BUILD_TESTS && guards (dbg st1)); simpl;
    try (destruct (negb (m =? NULL)); simpl);
    cbv iota in Hcall;
    match type of Hcall with
    | (let '(_, _) := ?e in _) = _ => destruct e as [? ?] eqn:El
    end;
    match type of El with
    | _ = (?h, ?blk) =>
        try (unfold set_guards in Hcall;
             destruct (blk =? NULL) eqn:En;
             [inversion Hcall; congruence |];
             apply Z.eqb_neq in En);
        injection Hcall as Hst Hblk; subst st' p; simpl;
        exists h, blk; rewrite ?Hoff; repeat split; auto
    end.
Qed.

End RunFacts.

(** ** Concrete runs *)

Lemma fail_nth_fails_every_n_plus_first_witness :
  let libc := toy_libc (Some "2"%string) in
  let st :=
    fst (run_calls libc true (process_start toy_heap)
           [Call_malloc 8; Call_malloc 8]) in
  snd (do_call libc true st (Call_malloc 8)) = NULL
  /\ heap (fst (do_call libc true st (Call_malloc 8))) = heap st.
Proof.
  exact (fail_nth_fails_every_n_plus_first (toy_libc (Some "2"%string)) true
           "2"%string 2 toy_heap [Call_malloc 8; Call_malloc 8] (Call_malloc 8)
           eq_refl eq_refl eq_refl ltac:(lia)).
Defined.

(** [DBUS_MALLOC_FAIL_NTH=2]: call 2 returns the underlying allocator's
    block, call 3 returns [NULL]. *)
Lemma fail_nth_fails_one_call_late_witness :
  let libc := toy_libc (Some "2"%string) in
  let st2 := fst (run_calls libc true (process_start toy_heap) [Call_malloc 8]) in
  let st3 :=
    fst (run_calls libc true (process_start toy_heap)
           [Call_malloc 8; Call_malloc 8]) in
  snd (do_call libc true st2 (Call_malloc 8)) = 4104
  /\ snd (do_call libc true st3 (Call_malloc 8)) = NULL.
Proof.
  intros libc st2 st3.
  destruct (fail_nth_fails_one_call_late libc true "2"%string 2 1 toy_heap
              [Call_malloc 8] (Call_malloc 8)
              eq_refl eq_refl eq_refl ltac:(lia) eq_refl eq_refl ltac:(lia))
    as [Hpass _].
  destruct (fail_nth_fails_one_call_late libc true "2"%string 2 1 toy_heap
              [Call_malloc 8; Call_malloc 8] (Call_malloc 8)
              eq_refl eq_refl eq_refl ltac:(lia) eq_refl eq_refl ltac:(lia))
    as [_ Hfail].
  destruct (Hpass eq_refl ltac:(lia)) as [_ Hblock].
  destruct (Hfail eq_refl) as (_ & Hnull & _).
  split; [| exact Hnull].
  specialize (Hblock ltac:(simpl; lia)).
  change (snd (do_call libc true st2 (Call_malloc 8)))
    with (snd (heap (fst (do_call libc true st2 (Call_malloc 8))),
               snd (do_call libc true st2 (Call_malloc 8)))).
  fold st2 in Hblock. rewrite Hblock. reflexivity.
Defined.

Lemma set_fail_alloc_counter_counts_down_witness :
  let libc := toy_libc None in
  let st1 :=
    fst (run_calls libc true
           (with_dbg (process_start toy_heap)
              (_dbus_set_fail_alloc_counter libc MallocDebug_static_init 1))
           [Call_malloc 8]) in
  injection_fires libc true st1 = true
  /\ snd (do_call libc true st1 (Call_malloc 8)) = NULL.
Proof.
  intros libc st1.
  destruct (set_fail_alloc_counter_counts_down libc true (process_start toy_heap)
              1 [Call_malloc 8] (Call_malloc 8) eq_refl ltac:(simpl; lia))
    as (Hfire & _ & _ & Hfail).
  split; [exact Hfire |].
  destruct (Hfail eq_refl) as (Hnull & _). exact Hnull.
Defined.

Lemma size_limit_refuses_witness :
  let libc := toy_libc_env toy_env_limit_guards in
  let st := run_mem_ops libc true (process_start toy_heap)
              [MO_call (Call_malloc 8); MO_set_fail_alloc_counter 5] in
  snd (do_call libc true st (Call_realloc 4120 17)) = NULL
  /\ heap (fst (do_call libc true st (Call_realloc 4120 17))) = heap st.
Proof.
  exact (size_limit_refuses (toy_libc_env toy_env_limit_guards) true "16"%string
           16 toy_heap [MO_call (Call_malloc 8); MO_set_fail_alloc_counter 5]
           (Call_realloc 4120 17) eq_refl eq_refl eq_refl ltac:(lia)
           ltac:(simpl; lia)).
Defined.

Lemma free_receives_library_block_witness :
  let libc := toy_libc_env toy_env_limit_guards in
  exists st' h,
    do_call libc true (process_start toy_heap) (Call_malloc 8) = (st', 4120)
    /\ malloc libc toy_heap 48 = (h, 4096)
    /\ heap (dbus_free libc true st' 4120) = free libc (heap st') 4096.
Proof.
  intros libc.
  destruct (do_call libc true (process_start toy_heap) (Call_malloc 8))
    as [st' p] eqn:E.
  assert (Hp : p = 4120) by (vm_compute in E; now inversion E).
  subst p.
  destruct (free_receives_library_block libc true (process_start toy_heap) st'
              (Call_malloc 8) 4120 E ltac:(discriminate))
    as (h & block & Hlib & _ & Hp & Hfree).
  change (4120 = block + 24) in Hp.
  assert (Hb : block = 4096) by lia.
  subst block.
  exists st', h. split; [reflexivity |]. split; [exact Hlib | exact Hfree].
Defined.

End MemoryInvariants.

(* ===================================================================== *)
(** * The transport: life cycle, short cuts and bookkeeping *)
(* ===================================================================== *)

Module TransportInvariants.
Import Transport TransportFacts.

Section LifeCycle.

Context {collab : Collaborators}.
Variable vtable : DBusTransportVTable.
Variable DBUS_WIN : bool.

Local Abbreviation disconnect := (_dbus_transport_disconnect vtable).
Local Abbreviation finalize_base := (_dbus_transport_finalize_base vtable).
Local Abbreviation unref := (_dbus_transport_unref vtable).
Local Abbreviation notify := (live_messages_size_notify vtable).
Local Abbreviation is_authenticated :=
  (_dbus_transport_get_is_authenticated vtable DBUS_WIN).
Local Abbreviation get_dispatch_status :=
  (_dbus_transport_get_dispatch_status vtable DBUS_WIN).
Local Abbreviation queue_loop := (queue_messages_loop vtable DBUS_WIN).
Local Abbreviation queue_messages :=
  (_dbus_transport_queue_messages vtable DBUS_WIN).
Local Abbreviation set_connection := (_dbus_transport_set_connection vtable).
Local Abbreviation get_socket_fd := (_dbus_transport_get_socket_fd vtable).
Local Abbreviation handle_watch := (_dbus_transport_handle_watch vtable DBUS_WIN).
Local Abbreviation do_iteration := (_dbus_transport_do_iteration vtable DBUS_WIN).
Local Abbreviation exec_op := (Transport.exec_op vtable DBUS_WIN).
Local Abbreviation exec_ops := (Transport.exec_ops vtable DBUS_WIN).

(** ** Disconnecting *)

Lemma disconnect_trace (w w' : World) (t t' : DBusTransport) :
  disconnect w t = (w', t') -> trace w' = trace w.
Proof.
  unfold _dbus_transport_disconnect, run_hook.
  destruct (disconnected t); [intros H; now inv_pair |].
  destruct (vt_disconnect vtable (sys w) t) as [s b]. intros H. now inv_pair.
Qed.

(** X6.  [_dbus_transport_disconnect] is idempotent: the first call runs
    the backend's disconnect hook once and sets [disconnected]; a call on a
    disconnected transport changes nothing and runs no hook.  Afterwards
    [_dbus_transport_get_is_connected] answers [FALSE]. *)
Theorem disconnect_is_idempotent (w : World) (t : DBusTransport) :
  let hook := vt_disconnect vtable (sys w) t in
  let '(w1, t1) := disconnect w t in
  disconnect w1 t1 = (w1, t1)
  /\ disconnected t1 = true
  /\ _dbus_transport_get_is_connected t1 = false
  /\ trace w1 = trace w
  /\ (disconnected t = true -> (w1, t1) = (w, t))
  /\ (disconnected t = false ->
      (w1, t1) = (set_sys (fst hook) w,
                  set_disconnected true (set_backend (snd hook) t))).
Proof.
  intros hook. subst hook.
  unfold _dbus_transport_disconnect, _dbus_transport_get_is_connected, run_hook.
  destruct (disconnected t) eqn:Hd.
  - rewrite Hd. repeat split; auto; discriminate.
  - destruct (vt_disconnect vtable (sys w) t) as [s b]. simpl.
    repeat split; auto; discriminate.
Qed.

(** ** Flags that go one way *)

Lemma one_way_refl (t : DBusTransport) : one_way t t.
Proof. unfold one_way. auto. Qed.

Lemma one_way_trans (t1 t2 t3 : DBusTransport) :
  one_way t1 t2 -> one_way t2 t3 -> one_way t1 t3.
Proof. unfold one_way. intuition congruence. Qed.

Lemma one_way_of_loose (t t' : DBusTransport) : loose_frame t t' -> one_way t t'.
Proof. unfold loose_frame, one_way. tauto. Qed.

Lemma one_way_of_frame (t t' : DBusTransport) : frame t t' -> one_way t t'.
Proof. intros H. apply one_way_of_loose. now apply loose_of_frame. Qed.

Lemma one_way_same (t t' : DBusTransport) :
  disconnected t' = disconnected t ->
  unused_bytes_recovered t' = unused_bytes_recovered t ->
  is_server t' = is_server t ->
  one_way t t'.
Proof. unfold one_way. intuition congruence. Qed.

Lemma one_way_unref (w w' : World) (t t' : DBusTransport) :
  unref w t = (w', t') -> one_way t t'.
Proof. intros H. apply unref_inv in H. apply one_way_of_frame. tauto. Qed.

Lemma one_way_backend_action (fuel : nat) (a : BackendAction) (w w' : World)
    (t t' : DBusTransport) :
  apply_backend_action vtable DBUS_WIN fuel a w t = Some (w', t') ->
  one_way t t'.
Proof.
  destruct a; simpl; intros H.
  - inv_pair. now apply one_way_same.
  - inv_pair. now apply one_way_same.
  - inv_pair. now apply one_way_same.
  - inv_pair. now apply one_way_same.
  - destruct (disconnect w t) as [w1 t1] eqn:Hd. inv_pair.
    apply disconnect_inv in Hd. apply one_way_of_frame. tauto.
  - destruct (queue_messages fuel w t) as [[[w1 t1] ret] |] eqn:Hq;
      [| discriminate].
    inv_pair. apply queue_messages_inv in Hq. apply one_way_of_loose. tauto.
Qed.

Lemma one_way_backend_actions (fuel : nat) (acts : list BackendAction) :
  forall (w w' : World) (t t' : DBusTransport),
    apply_backend_actions vtable DBUS_WIN fuel acts w t = Some (w', t') ->
    one_way t t'.
Proof.
  induction acts as [| a acts IH]; intros w w' t t'; simpl.
  - intros H. inv_pair. apply one_way_refl.
  - destruct (apply_backend_action vtable DBUS_WIN fuel a w t)
      as [[w1 t1] |] eqn:Ha; [| discriminate].
    intros H. eapply one_way_trans.
    + eapply one_way_backend_action. exact Ha.
    + eapply IH. exact H.
Qed.

Lemma one_way_io (fuel : nat) (s : Sys) (b : Backend) (acts : list BackendAction)
    (w w2 w3 : World) (t t2 t3 : DBusTransport) :
  apply_backend_actions vtable DBUS_WIN fuel acts (set_sys s w)
    (set_backend b (_dbus_transport_ref t)) = Some (w2, t2) ->
  unref w2 t2 = (w3, t3) ->
  one_way t t3.
Proof.
  intros Ha Hu.
  eapply one_way_trans; [| eapply one_way_unref; exact Hu].
  eapply one_way_trans; [| eapply one_way_backend_actions; exact Ha].
  now apply one_way_same.
Qed.

Lemma one_way_exec_op (fuel : nat) (op : Op) (w w' : World)
    (t t' : DBusTransport) :
  exec_op fuel op w t = Some (w', t') -> one_way t t'.
Proof.
  destruct op; simpl; intros H.
  - inv_pair. now apply one_way_same.
  - destruct (unref w t) eqn:Hu. inv_pair. eapply one_way_unref. exact Hu.
  - destruct (disconnect w t) eqn:Hd. inv_pair.
    apply disconnect_inv in Hd. apply one_way_of_frame. tauto.
  - destruct (is_authenticated w t) as [[w1 t1] r] eqn:Hi. inv_pair.
    apply is_authenticated_inv in Hi. apply one_way_of_frame. tauto.
  - unfold _dbus_transport_handle_watch in H.
    destruct (disconnected t); [inv_pair; apply one_way_refl |].
    destruct (watch_fd watch <? 0); [inv_pair; apply one_way_refl |].
    destruct (vt_handle_watch vtable (sys w) (_dbus_transport_ref t) watch
                (_dbus_watch_sanitize_condition watch condition))
      as [[[s b] acts] retval].
    destruct (apply_backend_actions vtable DBUS_WIN fuel acts (set_sys s w)
                (set_backend b (_dbus_transport_ref t)))
      as [[w2 t2] |] eqn:Ha; [| discriminate].
    destruct (unref w2 t2) as [w3 t3] eqn:Hu. inv_pair.
    eapply one_way_io; eassumption.
  - unfold _dbus_transport_set_connection in H.
    destruct (vt_connection_set vtable (sys w)
                (_dbus_transport_ref (Transport.set_connection cn t)))
      as [[s b] ok].
    match type of H with
    | context [unref ?a ?b] => destruct (unref a b) as [w5 t5] eqn:Hu
    end.
    inv_pair.
    eapply one_way_trans; [| eapply one_way_unref; exact Hu].
    destruct ok; now apply one_way_same.
  - unfold _dbus_transport_get_socket_fd in H.
    destruct (vt_get_socket_fd vtable) as [h |];
      [| inv_pair; apply one_way_refl].
    destruct (disconnected t); [inv_pair; apply one_way_refl |].
    destruct (h (sys w) (_dbus_transport_ref t)) as [[s b] fd].
    match type of H with
    | context [unref ?a ?b] => destruct (unref a b) as [w5 t5] eqn:Hu
    end.
    inv_pair.
    eapply one_way_trans; [| eapply one_way_unref; exact Hu].
    now apply one_way_same.
  - unfold _dbus_transport_do_iteration in H.
    destruct (_ =? 0); [inv_pair; apply one_way_refl |].
    destruct (disconnected t); [inv_pair; apply one_way_refl |].
    destruct (vt_do_iteration vtable (sys w) (_dbus_transport_ref t) flags
                timeout_milliseconds) as [[s b] acts].
    destruct (apply_backend_actions vtable DBUS_WIN fuel acts (set_sys s w)
                (set_backend b (_dbus_transport_ref t)))
      as [[w2 t2] |] eqn:Ha; [| discriminate].
    destruct (unref w2 t2) as [w3 t3] eqn:Hu. inv_pair.
    eapply one_way_io; eassumption.
  - destruct (get_dispatch_status w t) as [[w1 t1] st] eqn:Hd. inv_pair.
    apply dispatch_status_inv in Hd. apply one_way_of_loose. tauto.
  - destruct (queue_messages fuel w t) as [[[w1 t1] ret] |] eqn:Hq;
      [| discriminate].
    inv_pair. apply queue_messages_inv in Hq. apply one_way_of_loose. tauto.
  - inv_pair. now apply one_way_same.
  - inv_pair. now apply one_way_same.
  - inv_pair. now apply one_way_same.
  - unfold _dbus_transport_set_auth_mechanisms in H.
    destruct (_dbus_auth_set_mechanisms (sys w) (auth t) mechanisms)
      as [[s a] ok].
    inv_pair. now apply one_way_same.
Qed.

(** X7.  Over any sequence of operations on a transport, [disconnected]
    and [unused_bytes_recovered] are never reset once set, and [is_server]
    never changes. *)
Theorem flags_go_one_way (fuel : nat) (ops : list Op) (w : World)
    (t : DBusTransport) (sts : list (World * DBusTransport)) :
  exec_ops fuel ops w t = Some sts ->
  Forall (fun st => one_way t (snd st)) sts.
Proof.
  revert w t sts.
  induction ops as [| op ops IH]; intros w t sts; simpl.
  - intros H. inv_pair. constructor.
  - destruct (exec_op fuel op w t) as [[w1 t1] |] eqn:Hop; [| discriminate].
    destruct (exec_ops fuel ops w1 t1) as [sts1 |] eqn:Hrest; [| discriminate].
    intros H. inv_pair.
    apply one_way_exec_op in Hop.
    constructor; [exact Hop |].
    specialize (IH _ _ _ Hrest).
    eapply Forall_impl; [| exact IH].
    intros st Hst. eapply one_way_trans; eassumption.
Qed.

(** ** Entry points that do nothing *)

(** X8.  Once [_dbus_transport_disconnect] has run, the I/O entry points
    are short cuts: [_dbus_transport_handle_watch] returns [TRUE],
    [_dbus_transport_do_iteration] returns and
    [_dbus_transport_get_socket_fd] returns [FALSE], all three without
    calling the backend or touching the transport.  On a connected
    transport, a watch with a negative descriptor is answered with a warning
    and [TRUE], and an iteration that asks for neither reading nor writing
    does nothing. *)
Theorem disconnected_transport_does_no_io (fuel : nat) (w : World)
    (t : DBusTransport) (watch : DBusWatch) (condition flags timeout : Z) :
  (let '(w1, t1) := disconnect w t in
   handle_watch fuel w1 t1 watch condition = Some (w1, t1, true)
   /\ do_iteration fuel w1 t1 flags timeout = Some (w1, t1)
   /\ get_socket_fd w1 t1 = (w1, t1, None))
  /\ (disconnected t = false -> watch_fd watch < 0 ->
      handle_watch fuel w t watch condition
      = Some (emit EvWarnCheckFailed w, t, true))
  /\ (Z.land flags (Z.lor DBUS_ITERATION_DO_WRITING DBUS_ITERATION_DO_READING) = 0 ->
      do_iteration fuel w t flags timeout = Some (w, t)).
Proof.
  split; [| split].
  - destruct (disconnect w t) as [w1 t1] eqn:Hd.
    apply disconnect_inv in Hd. destruct Hd as (_ & _ & _ & Hd).
    unfold _dbus_transport_handle_watch, _dbus_transport_do_iteration,
      _dbus_transport_get_socket_fd.
    rewrite Hd. split; [reflexivity |]. split.
    + now destruct (_ =? 0).
    + now destruct (vt_get_socket_fd vtable).
  - intros Hd Hfd. unfold _dbus_transport_handle_watch. rewrite Hd.
    now replace (watch_fd watch <? 0) with true by (symmetry; apply Z.ltb_lt; lia).
  - intros Hz. unfold _dbus_transport_do_iteration. now rewrite Hz.
Qed.

(** ** Reference counting *)

Lemma set_refcount_back (t : DBusTransport) (b : Backend) :
  set_refcount (refcount t + 1 - 1) (set_backend b (set_refcount (refcount t + 1) t))
  = set_backend b t.
Proof.
  destruct t. unfold set_refcount, set_backend. simpl. f_equal. lia.
Qed.

Lemma set_backend_same (t : DBusTransport) : set_backend (backend t) t = t.
Proof. now destruct t. Qed.

Lemma set_sys_same (w : World) : set_sys (sys w) w = w.
Proof. now destruct w. Qed.

Lemma unref_not_last (w : World) (t : DBusTransport) :
  refcount t <> 1 -> unref w t = (w, set_refcount (refcount t - 1) t).
Proof.
  intros H. unfold _dbus_transport_unref. simpl.
  now replace (refcount t - 1 =? 0) with false by (symmetry; apply Z.eqb_neq; lia).
Qed.

(** X9.  References balance.  On a transport whose count is not zero,
    [_dbus_transport_unref] after [_dbus_transport_ref] gives the transport
    back unchanged, and the entry points that hold a reference across a
    backend hook ([live_messages_size_notify],
    [_dbus_transport_set_connection], [_dbus_transport_get_socket_fd]) return
    with the count they found and without finalising: no event is recorded
    and [disconnected] is as before. *)
Theorem references_balance (w : World) (t : DBusTransport) (cn : option ConnPtr) :
  refcount t <> 0 ->
  unref w (_dbus_transport_ref t) = (w, t)
  /\ (let '(w', t') := notify w t in
      refcount t' = refcount t /\ trace w' = trace w
      /\ disconnected t' = disconnected t
      /\ t' = set_backend (backend t') t)
  /\ (let '(w', t', _) := set_connection w t cn in
      refcount t' = refcount t /\ trace w' = trace w
      /\ disconnected t' = disconnected t)
  /\ (let '(w', t', _) := get_socket_fd w t in
      refcount t' = refcount t /\ trace w' = trace w
      /\ disconnected t' = disconnected t).
Proof.
  intros Hrc.
  assert (Hback : forall s b u,
             refcount u = refcount t ->
             unref (set_sys s w) (set_backend b (_dbus_transport_ref u))
             = (set_sys s w, set_backend b u)).
  { intros s b u Hu. rewrite unref_not_last by (simpl; lia).
    unfold _dbus_transport_ref. simpl. now rewrite set_refcount_back. }
  assert (Hplain : unref w (_dbus_transport_ref t) = (w, t)).
  { pose proof (Hback (sys w) (backend t) t eq_refl) as H.
    rewrite set_sys_same in H.
    replace (set_backend (backend t) (_dbus_transport_ref t))
      with (_dbus_transport_ref t) in H by now destruct t.
    now rewrite set_backend_same in H. }
  split; [exact Hplain |]. split; [| split].
  - unfold live_messages_size_notify, run_hook.
    destruct (vt_live_messages_changed vtable) as [h |].
    + destruct (h (sys w) (_dbus_transport_ref t)) as [s b].
      rewrite (Hback s b t eq_refl). simpl. auto.
    + rewrite Hplain. simpl. repeat split. now rewrite set_backend_same.
  - unfold _dbus_transport_set_connection.
    destruct (vt_connection_set vtable (sys w)
                (_dbus_transport_ref (Transport.set_connection cn t)))
      as [[s b] ok].
    destruct ok; cbn [negb].
    + rewrite (Hback s b (Transport.set_connection cn t) eq_refl). simpl. auto.
    + replace (Transport.set_connection None
                 (set_backend b (_dbus_transport_ref (Transport.set_connection cn t))))
        with (set_backend b (_dbus_transport_ref (Transport.set_connection None t)))
        by reflexivity.
      rewrite (Hback s b (Transport.set_connection None t) eq_refl). simpl. auto.
  - unfold _dbus_transport_get_socket_fd.
    destruct (vt_get_socket_fd vtable) as [h |]; [| auto].
    destruct (disconnected t) eqn:Hd; [auto |].
    destruct (h (sys w) (_dbus_transport_ref t)) as [[s b] fd].
    rewrite (Hback s b t eq_refl). simpl. auto.
Qed.

(** ** Finalisation *)

Lemma finalize_base_effect (w : World) (t : DBusTransport) (r : Resource) :
  let '(w', t') := finalize_base w t in
  refcount t' = refcount t
  /\ disconnected t' = true
  /\ outstanding r (trace w') = outstanding r (trace w) - owned r t
  /\ user_data_frees (trace w')
     = user_data_frees (trace w)
       ++ match free_unix_user_data t with
          | Some f => [(f, unix_user_data t)]
          | None => []
          end.
Proof.
  unfold _dbus_transport_finalize_base, _dbus_transport_disconnect, run_hook, owned.
  destruct (disconnected t) eqn:Hd; cbn [negb].
  - destruct (free_unix_user_data t) eqn:Hf, (address t) eqn:Ha,
      (expected_guid t) eqn:Hg, r;
      simpl; rewrite ?Hf, ?Ha, ?Hg; simpl; rewrite ?app_nil_r;
      repeat split; auto; lia.
  - destruct (vt_disconnect vtable (sys w) t) as [s b].
    destruct (free_unix_user_data t) eqn:Hf, (address t) eqn:Ha,
      (expected_guid t) eqn:Hg, r;
      simpl; rewrite ?Hf, ?Ha, ?Hg; simpl; rewrite ?app_nil_r;
      repeat split; auto; lia.
Qed.

(** X10.  Dropping the last reference finalises the transport: the count
    reaches zero, the transport is disconnected, the loader, the Auth and the
    counter are released once each, the address and the expected GUID are
    released when they are set, and the installed [free_unix_user_data]
    function, if any, is called once on [unix_user_data]. *)
Theorem last_unref_finalizes (w : World) (t : DBusTransport) (r : Resource) :
  refcount t = 1 ->
  let '(w', t') := unref w t in
  refcount t' = 0
  /\ disconnected t' = true
  /\ outstanding r (trace w') = outstanding r (trace w) - owned r t
  /\ user_data_frees (trace w')
     = user_data_frees (trace w)
       ++ match free_unix_user_data t with
          | Some f => [(f, unix_user_data t)]
          | None => []
          end.
Proof.
  intros Hrc. unfold _dbus_transport_unref, run_hook. simpl refcount.
  rewrite Hrc. simpl.
  destruct (vt_finalize vtable (sys w) (set_refcount 0 t)) as [s b].
  pose proof (finalize_base_effect (set_sys s w) (set_backend b (set_refcount 0 t)) r)
    as H.
  destruct (finalize_base (set_sys s w) (set_backend b (set_refcount 0 t)))
    as [w' t'].
  exact H.
Qed.

Lemma init_base_acquires (w w0 : World) (blank t0 : DBusTransport)
    (server_guid address : option string) (r : Resource) :
  _dbus_transport_init_base w blank server_guid address = (w0, t0, true) ->
  refcount t0 = 1
  /\ free_unix_user_data t0 = None
  /\ outstanding r (trace w0) = outstanding r (trace w) + owned r t0.
Proof.
  unfold _dbus_transport_init_base, acquire_if_set. intros H.
  repeat break_match; inv_pair; try discriminate;
    unfold owned; destruct r; cbn -[Z.add Z.sub]; repeat split; auto; lia.
Qed.

(** X11.  Construction and finalisation balance: when a transport built by
    [_dbus_transport_init_base] loses its only reference, every object the
    construction acquired has been released, finalisation has freed no user
    data, and the transport is disconnected. *)
Theorem construction_and_finalization_balance (w w0 : World)
    (blank t0 : DBusTransport) (server_guid address : option string)
    (r : Resource) :
  _dbus_transport_init_base w blank server_guid address = (w0, t0, true) ->
  let '(w1, t1) := unref w0 t0 in
  outstanding r (trace w1) = outstanding r (trace w)
  /\ user_data_frees (trace w1) = user_data_frees (trace w0)
  /\ disconnected t1 = true.
Proof.
  intros Hinit.
  destruct (init_base_acquires _ _ _ _ _ _ r Hinit) as (Hrc & Hfree & Hout).
  unfold _dbus_transport_unref, run_hook. simpl refcount. rewrite Hrc. simpl.
  destruct (vt_finalize vtable (sys w0) (set_refcount 0 t0)) as [s b].
  pose proof (finalize_base_effect (set_sys s w0)
                (set_backend b (set_refcount 0 t0)) r) as H.
  destruct (finalize_base (set_sys s w0) (set_backend b (set_refcount 0 t0)))
    as [w1 t1].
  destruct H as (_ & Hd & Ho & Hu).
  simpl in Ho, Hu. rewrite Hfree, app_nil_r in Hu.
  split; [| split; [exact Hu | exact Hd]].
  rewrite Ho, Hout.
  unfold owned. destruct r; simpl; lia.
Qed.

(** X12.  [_dbus_transport_set_unix_user_function] hands the data and the
    free function it replaces back to the caller and never frees them
    itself; when the transport is finalised, only the free function
    installed last is called, once, on the data installed with it. *)
Theorem replaced_user_data_is_returned (w : World) (t : DBusTransport)
    (f f2 : option DBusAllowUnixUserFunction) (d d2 : Z) (fr fr2 : option Z) :
  let '(t1, old_data, old_free) :=
    _dbus_transport_set_unix_user_function t f d fr in
  let '(t2, old_data2, old_free2) :=
    _dbus_transport_set_unix_user_function t1 f2 d2 fr2 in
  old_data = unix_user_data t
  /\ old_free = free_unix_user_data t
  /\ old_data2 = d
  /\ old_free2 = fr
  /\ user_data_frees (trace (fst (finalize_base w t2)))
     = user_data_frees (trace w)
       ++ match fr2 with
          | Some free_function => [(free_function, d2)]
          | None => []
          end.
Proof.
  unfold _dbus_transport_set_unix_user_function.
  repeat split.
  match goal with
  | |- context [finalize_base w ?u] =>
      pose proof (finalize_base_effect w u RLoader) as H;
      destruct (finalize_base w u) as [w' t']
  end.
  destruct H as (_ & _ & _ & H). exact H.
Qed.

(** ** The peer's identity *)

(** X13.  [_dbus_transport_get_unix_user] and
    [_dbus_transport_get_unix_process_id] answer [TRUE] only on an
    authenticated transport whose Auth holds an id that is set, and then
    return that id; otherwise they leave [_DBUS_INT32_MAX] and
    [DBUS_PID_UNSET].  On a transport disconnected before it was
    authenticated they answer [FALSE] from then on, whatever is run. *)
Theorem peer_identity_only_when_authenticated (t : DBusTransport) :
  (fst (_dbus_transport_get_unix_user t) = true ->
   authenticated t = true
   /\ snd (_dbus_transport_get_unix_user t) = uid (_dbus_auth_get_identity (auth t))
   /\ snd (_dbus_transport_get_unix_user t) <> DBUS_UID_UNSET)
  /\ (fst (_dbus_transport_get_unix_user t) = false ->
      snd (_dbus_transport_get_unix_user t) = _DBUS_INT32_MAX)
  /\ (fst (_dbus_transport_get_unix_process_id t) = true ->
      authenticated t = true
      /\ snd (_dbus_transport_get_unix_process_id t)
         = pid (_dbus_auth_get_identity (auth t))
      /\ snd (_dbus_transport_get_unix_process_id t) <> DBUS_PID_UNSET)
  /\ (fst (_dbus_transport_get_unix_process_id t) = false ->
      snd (_dbus_transport_get_unix_process_id t) = DBUS_PID_UNSET)
  /\ (severed t ->
      forall fuel ops w sts,
        exec_ops fuel ops w t = Some sts ->
        Forall (fun st =>
                  _dbus_transport_get_unix_user (snd st) = (false, _DBUS_INT32_MAX)
                  /\ _dbus_transport_get_unix_process_id (snd st)
                     = (false, DBUS_PID_UNSET)) sts).
Proof.
  unfold _dbus_transport_get_unix_user, _dbus_transport_get_unix_process_id.
  split; [| split; [| split; [| split]]].
  - destruct (authenticated t); cbn [negb]; [| discriminate].
    destruct (uid (_dbus_auth_get_identity (auth t)) =? DBUS_UID_UNSET) eqn:E;
      cbn [negb fst snd]; [discriminate |].
    intros _. apply Z.eqb_neq in E. auto.
  - destruct (authenticated t); cbn [negb]; [| reflexivity].
    destruct (uid (_dbus_auth_get_identity (auth t)) =? DBUS_UID_UNSET);
      cbn [negb fst snd]; [reflexivity | discriminate].
  - destruct (authenticated t); cbn [negb]; [| discriminate].
    destruct (pid (_dbus_auth_get_identity (auth t)) =? DBUS_PID_UNSET) eqn:E;
      cbn [negb fst snd]; [discriminate |].
    intros _. apply Z.eqb_neq in E. auto.
  - destruct (authenticated t); cbn [negb]; [| reflexivity].
    destruct (pid (_dbus_auth_get_identity (auth t)) =? DBUS_PID_UNSET);
      cbn [negb fst snd]; [reflexivity | discriminate].
  - intros Hsv fuel ops w sts Hrun.
    pose proof (exec_ops_severed vtable DBUS_WIN fuel ops w t sts Hrun Hsv) as H.
    eapply Forall_impl; [| exact H].
    intros [w1 t1] [[_ Ha] _]. simpl in *. rewrite Ha. auto.
Qed.

(** ** Dispatch *)

(** X14.  Back-pressure: while the live-messages counter is at or above
    [max_live_messages_size], [_dbus_transport_get_dispatch_status] answers
    COMPLETE without touching anything (the Auth is not stepped, the loader
    not asked), and [_dbus_transport_queue_messages] returns [TRUE] having
    delivered nothing; the transport is left as it is unless the loader is
    corrupted, in which case it is disconnected. *)
Theorem full_counter_stops_dispatch (fuel : nat) (w : World) (t : DBusTransport) :
  max_live_messages_size t <= _dbus_counter_get_value (live_messages_size t) ->
  get_dispatch_status w t = (w, t, DBUS_DISPATCH_COMPLETE)
  /\ queue_loop (S fuel) w t = Some (w, t, DBUS_DISPATCH_COMPLETE)
  /\ exists w' t',
      queue_messages (S fuel) w t = Some (w', t', true)
      /\ trace w' = trace w
      /\ (_dbus_message_loader_get_is_corrupted (loader t) = false ->
          (w', t') = (w, t))
      /\ (_dbus_message_loader_get_is_corrupted (loader t) = true ->
          disconnected t' = true).
Proof.
  intros Hfull.
  assert (Hs : get_dispatch_status w t = (w, t, DBUS_DISPATCH_COMPLETE)).
  { unfold _dbus_transport_get_dispatch_status.
    now replace (_ >=? _) with true by (symmetry; apply geb_true_iff; exact Hfull). }
  assert (Hl : queue_loop (S fuel) w t = Some (w, t, DBUS_DISPATCH_COMPLETE))
    by (simpl; now rewrite Hs).
  split; [exact Hs |]. split; [exact Hl |].
  unfold _dbus_transport_queue_messages. rewrite Hl.
  destruct (_dbus_message_loader_get_is_corrupted (loader t)).
  - destruct (disconnect w t) as [w' t'] eqn:Hd. exists w', t'.
    split; [reflexivity |].
    split; [eapply disconnect_trace; exact Hd |].
    split; [discriminate |].
    intros _. apply disconnect_inv in Hd. tauto.
  - exists w, t. repeat split; auto. discriminate.
Qed.

Lemma recover_keeps (w w' : World) (t t' : DBusTransport) (ok : bool) :
  recover_unused_bytes w t = (w', t', ok) ->
  trace w' = trace w
  /\ authenticated t' = authenticated t
  /\ unused_bytes_recovered t' = unused_bytes_recovered t
  /\ live_messages_size t' = live_messages_size t
  /\ max_live_messages_size t' = max_live_messages_size t
  /\ (_dbus_auth_needs_decoding (auth t) = false -> ok = false -> auth t' = auth t).
Proof.
  unfold recover_unused_bytes. intros H.
  repeat break_match; inv_pair; simpl; repeat split; auto; discriminate.
Qed.

(** X15.  A failed recovery of the Auth's unused bytes is retried.  On an
    authenticated transport below its limit whose unused bytes are not yet
    recovered, [_dbus_transport_get_dispatch_status] answers NEED_MEMORY
    when [recover_unused_bytes] fails and leaves [unused_bytes_recovered]
    clear, so that the next call finds the same conditions and recovers
    again; when the Auth needs no decoding, the Auth is untouched and still
    holds the bytes.  When recovery succeeds the flag is set. *)
Theorem failed_recovery_is_retried (w w2 : World) (t t2 : DBusTransport)
    (ok : bool) :
  authenticated t = true ->
  _dbus_counter_get_value (live_messages_size t) < max_live_messages_size t ->
  unused_bytes_recovered t = false ->
  recover_unused_bytes w t = (w2, t2, ok) ->
  if ok
  then unused_bytes_recovered (snd (fst (get_dispatch_status w t))) = true
  else get_dispatch_status w t = (w2, t2, DBUS_DISPATCH_NEED_MEMORY)
       /\ authenticated t2 = true
       /\ _dbus_counter_get_value (live_messages_size t2) < max_live_messages_size t2
       /\ unused_bytes_recovered t2 = false
       /\ trace w2 = trace w
       /\ (_dbus_auth_needs_decoding (auth t) = false -> auth t2 = auth t).
Proof.
  intros Ha Hroom Hflag Hrec.
  destruct (recover_keeps _ _ _ _ _ Hrec) as (Htr & Ha2 & Hf2 & Hc2 & Hm2 & Hauth).
  unfold _dbus_transport_get_dispatch_status, dispatch_authenticate,
    _dbus_transport_get_is_authenticated.
  replace (_ >=? _) with false by (symmetry; apply geb_false_iff; exact Hroom).
  rewrite Ha. cbn [negb]. rewrite Hflag. cbn [negb]. rewrite Hrec.
  destruct ok; cbn [negb].
  - destruct (_dbus_message_loader_queue_messages
                (loader (set_unused_bytes_recovered true t2))) as [l queued].
    destruct queued; cbn [negb]; [| reflexivity].
    now destruct (_dbus_message_loader_peek_message _).
  - split; [reflexivity |]. split; [congruence |]. split; [congruence |].
    split; [congruence |]. split; [exact Htr |]. intros Hn. now apply Hauth.
Qed.

(** ** Authentication *)

(** X16.  Once [_dbus_transport_get_is_authenticated] has answered [TRUE]
    it answers [TRUE] after any further operations, disconnection included,
    and such a call changes nothing: no step of the Auth, no reference on
    the connection, no event. *)
Theorem authenticated_answer_is_kept (fuel : nat) (ops : list Op)
    (w w1 : World) (t t1 : DBusTransport) (sts : list (World * DBusTransport)) :
  is_authenticated w t = (w1, t1, true) ->
  exec_ops fuel ops w1 t1 = Some sts ->
  is_authenticated w1 t1 = (w1, t1, true)
  /\ Forall (fun st => is_authenticated (fst st) (snd st) = (fst st, snd st, true))
       sts.
Proof.
  intros Hi Hrun.
  assert (Ha : authenticated t1 = true).
  { apply is_authenticated_inv in Hi. destruct Hi as (_ & _ & Hr & _). auto. }
  clear Hi.
  assert (Hkeep : forall w0 t0, authenticated t0 = true ->
                                is_authenticated w0 t0 = (w0, t0, true)).
  { intros w0 t0 H0. unfold _dbus_transport_get_is_authenticated. now rewrite H0. }
  split; [now apply Hkeep |].
  revert w1 t1 sts Ha Hrun.
  induction ops as [| op ops IH]; intros w1 t1 sts Ha; simpl.
  - intros H. inv_pair. constructor.
  - destruct (exec_op fuel op w1 t1) as [[w2 t2] |] eqn:Hop; [| discriminate].
    destruct (exec_ops fuel ops w2 t2) as [sts2 |] eqn:Hrest; [| discriminate].
    intros H. inv_pair.
    apply op_step_exec_op in Hop. destruct Hop as ((Hmono & _) & _).
    specialize (Hmono Ha).
    constructor; [now apply Hkeep | eapply IH; eassumption].
Qed.

Lemma set_authenticated_same (t : DBusTransport) :
  set_authenticated (authenticated t) t = t.
Proof. now destruct t. Qed.

(** X17.  While credentials are still to be sent or received,
    [_dbus_transport_get_is_authenticated] answers [FALSE] without stepping
    the Auth: the transport is unchanged and the call has only taken and
    released its reference on the connection. *)
Theorem handshake_waits_for_credentials (w : World) (t : DBusTransport) :
  authenticated t = false ->
  disconnected t = false ->
  send_credentials_pending t || receive_credentials_pending t = true ->
  is_authenticated w t
  = (emit (EvConnectionUnref (connection t))
       (emit (EvConnectionRef (connection t)) w), t, false).
Proof.
  intros Ha Hd Hp. unfold _dbus_transport_get_is_authenticated.
  rewrite Ha, Hd, Hp. cbn [negb andb].
  assert (E : set_authenticated false t = t)
    by (rewrite <- Ha; apply set_authenticated_same).
  now rewrite E.
Qed.

Lemma check_server_guid_locks (w : World) (t : DBusTransport) :
  match check_server_guid vtable w t with
  | Go (w', _) => lock_events (trace w') = lock_events (trace w)
  | Ret (w', _, _) => lock_events (trace w') = lock_events (trace w)
  end.
Proof.
  unfold check_server_guid, lock_events.
  destruct (match expected_guid t with
            | Some g => negb (String.eqb g (_dbus_auth_get_guid_from_server (auth t)))
            | None => false
            end).
  - destruct (disconnect w t) as [w1 t1] eqn:Hd.
    apply disconnect_trace in Hd. simpl. now rewrite Hd.
  - destruct (expected_guid t); [reflexivity |].
    destruct (_dbus_strdup (sys w) _) as [s dup]. now destruct dup.
Qed.

Lemma check_auth_identity_locks (w : World) (t : DBusTransport) :
  let w' :=
    match check_auth_identity vtable DBUS_WIN w t with
    | Go (w', _) => w'
    | Ret (w', _, _) => w'
    end in
  lock_events (trace w') = lock_events (trace w)
  \/ (DBUS_WIN = false
      /\ unix_user_function t <> None
      /\ lock_events (trace w')
         = EvConnectionLock (connection t) :: EvConnectionUnlock (connection t)
           :: lock_events (trace w)).
Proof.
  unfold check_auth_identity, lock_events.
  destruct (unix_user_function t) as [f |] eqn:Hf.
  - destruct DBUS_WIN; cbn [negb].
    + left.
      destruct (negb (_dbus_credentials_match _ _)); [| reflexivity].
      destruct (disconnect w t) as [w1 t1] eqn:Hd.
      apply disconnect_trace in Hd. simpl. now rewrite Hd.
    + right. split; [reflexivity |]. split; [discriminate |].
      destruct (f (connection t) _ (unix_user_data t)); [reflexivity |].
      match goal with
      | |- context [disconnect ?a t] =>
          destruct (disconnect a t) as [w3 t3] eqn:Hd
      end.
      apply disconnect_trace in Hd. simpl. now rewrite Hd.
  - left.
    destruct (negb (_dbus_credentials_match _ _)); [| reflexivity].
    destruct (disconnect w t) as [w1 t1] eqn:Hd.
    apply disconnect_trace in Hd. simpl. now rewrite Hd.
Qed.

(** X18.  [_dbus_transport_get_is_authenticated] returns with the
    connection lock held.  The lock is dropped at most once per call, around
    the call of the [unix_user_function], and taken back right after, on the
    path that rejects the peer as well; it is dropped only on the server
    side of a transport not yet authenticated, with a function installed,
    and never on Windows. *)
Theorem connection_lock_is_retaken (w : World) (t : DBusTransport) :
  let '(w', _, _) := is_authenticated w t in
  lock_events (trace w') = lock_events (trace w)
  \/ (authenticated t = false
      /\ is_server t = true
      /\ DBUS_WIN = false
      /\ unix_user_function t <> None
      /\ lock_events (trace w')
         = EvConnectionLock (connection t) :: EvConnectionUnlock (connection t)
           :: lock_events (trace w)).
Proof.
  unfold _dbus_transport_get_is_authenticated.
  destruct (authenticated t) eqn:Ha; [left; reflexivity |].
  destruct (disconnected t); [left; reflexivity |].
  set (w0 := emit (EvConnectionRef (connection t)) w).
  assert (Hw0 : lock_events (trace w0) = lock_events (trace w)) by reflexivity.
  destruct (if negb (send_credentials_pending t || receive_credentials_pending t)
            then let '(a, st) := _dbus_auth_do_work (auth t) in
                 (set_auth a t,
                  match st with
                  | DBUS_AUTH_STATE_AUTHENTICATED => true
                  | _ => false
                  end)
            else (t, false)) as [t0 maybe] eqn:E0.
  assert (Ht0 : is_server t0 = is_server t
                /\ unix_user_function t0 = unix_user_function t
                /\ connection t0 = connection t).
  { destruct (negb (send_credentials_pending t || receive_credentials_pending t)).
    - destruct (_dbus_auth_do_work (auth t)) as [a st]. inv_pair. simpl. auto.
    - inv_pair. auto. }
  destruct Ht0 as (Hs0 & Hf0 & Hc0).
  destruct maybe; cbn [andb].
  - destruct (is_server t0) eqn:Hs; cbn [negb]; cbv beta iota zeta.
    + rewrite Hs.
      pose proof (check_auth_identity_locks w0 t0) as H. cbv zeta in H.
      destruct (check_auth_identity vtable DBUS_WIN w0 t0)
        as [[w2 t2] | [[w2 t2] r]];
        cbv beta iota zeta in H |- *;
        (destruct H as [H | (Hw & Hf & H)];
         [left; unfold lock_events in *; simpl; congruence
         | right; repeat split; try congruence;
           unfold lock_events in *; simpl; congruence]).
    + pose proof (check_server_guid_locks w0 t0) as H.
      pose proof (check_server_guid_inv vtable w0 t0) as Hinv.
      destruct (check_server_guid vtable w0 t0) as [[w1 t1] | [[w1 t1] r]];
        cbv beta iota zeta.
      * destruct Hinv as (_ & Hfr & _).
        replace (is_server t1) with false
          by (symmetry; destruct Hfr; intuition congruence).
        left. unfold lock_events in *. simpl. congruence.
      * left. congruence.
  - cbv beta iota zeta. left. reflexivity.
Qed.

Ltac refs_balance :=
  intros; cbn -[Z.add Z.sub]; repeat destruct (option_nat_eqb _ _); lia.

(** X19.  An accepted peer is authenticated.  When the handshake is over
    and the Auth reports Authenticated, and the peer is acceptable (the
    client expected this server GUID, or expected none and could copy it; the
    server's [unix_user_function] allows the uid; or, with no such function
    in play, the identities match), [_dbus_transport_get_is_authenticated]
    answers [TRUE], sets [authenticated], keeps the transport connected and
    leaves the connection's reference count as it found it.  A client then
    holds an expected GUID: the one it had, or a copy of the server's. *)
Theorem accepted_peer_is_authenticated (w : World) (t : DBusTransport)
    (a : DBusAuth) :
  authenticated t = false ->
  disconnected t = false ->
  send_credentials_pending t = false ->
  receive_credentials_pending t = false ->
  _dbus_auth_do_work (auth t) = (a, DBUS_AUTH_STATE_AUTHENTICATED) ->
  auth_accepted DBUS_WIN w t a ->
  exists w' t',
    is_authenticated w t = (w', t', true)
    /\ authenticated t' = true
    /\ disconnected t' = false
    /\ auth t' = a
    /\ (forall cn, connection_refs cn (trace w') = connection_refs cn (trace w))
    /\ (is_server t = false -> expected_guid t' <> None)
    /\ (expected_guid t <> None -> expected_guid t' = expected_guid t).
Proof.
  intros Ha Hd Hs Hr Hwork Hacc.
  rewrite (is_authenticated_after_handshake vtable DBUS_WIN w t a Ha Hd Hs Hr Hwork).
  cbv zeta.
  destruct Hacc as [(Hsrv & Hguid) | [(Hsrv & Hwin & f & Hf & Hallow)
                                      | (Hsrv & Hnof & Hmatch)]].
  - rewrite Hsrv. cbn [negb]. unfold check_server_guid. simpl auth. simpl expected_guid.
    destruct Hguid as [Hg | (Hg & s & g & Hdup)]; rewrite Hg.
    + rewrite String.eqb_refl. cbn [negb]. simpl is_server. rewrite Hsrv.
      eexists _, _. split; [reflexivity |]. cbn -[Z.add Z.sub].
      repeat split; auto; try congruence.
      refs_balance.
    + simpl sys. rewrite Hdup. simpl is_server. rewrite Hsrv.
      eexists _, _. split; [reflexivity |]. cbn -[Z.add Z.sub].
      repeat split; auto; try congruence.
      refs_balance.
  - rewrite Hsrv. cbn [negb]. simpl is_server. rewrite Hsrv.
    unfold check_auth_identity. simpl unix_user_function. rewrite Hf, Hwin.
    cbn [negb]. simpl auth. simpl connection. simpl unix_user_data.
    rewrite Hallow.
    eexists _, _. split; [reflexivity |]. cbn -[Z.add Z.sub].
    repeat split; auto; try congruence.
    refs_balance.
  - rewrite Hsrv. cbn [negb]. simpl is_server. rewrite Hsrv.
    unfold check_auth_identity. simpl unix_user_function. simpl auth. simpl sys.
    assert (Hgo : forall X (k1 k2 : X),
               (if negb (_dbus_credentials_match
                           (_dbus_credentials_from_current_process (sys w))
                           (_dbus_auth_get_identity a))
                then k1 else k2) = k2)
      by (intros; now rewrite Hmatch).
    destruct Hnof as [Hnone | Hwin].
    + rewrite Hnone, Hgo.
      eexists _, _. split; [reflexivity |]. cbn -[Z.add Z.sub].
      repeat split; auto; try congruence.
      refs_balance.
    + rewrite Hwin. cbn [negb].
      destruct (unix_user_function t); rewrite Hgo;
        (eexists _, _; split; [reflexivity |]; cbn -[Z.add Z.sub];
         repeat split; auto; try congruence;
         refs_balance).
Qed.

(** X24.  On the server side, and on a client that already holds an
    expected GUID, every return path of
    [_dbus_transport_get_is_authenticated] that took the reference on the
    connection gives it back, once: the connection's reference count is as
    the call found it. *)
Theorem paranoid_ref_is_given_back (w w' : World) (t t' : DBusTransport)
    (r : bool) :
  authenticated t = false ->
  disconnected t = false ->
  is_server t = true \/ expected_guid t <> None ->
  is_authenticated w t = (w', t', r) ->
  connection_unrefs (connection t) (trace w')
  = S (connection_unrefs (connection t) (trace w))
  /\ connection_refs (connection t) (trace w')
     = connection_refs (connection t) (trace w).
Proof.
  intros Ha Hd Hside Hi.
  destruct (paranoid_ref_released_unless_guid_copy_fails vtable DBUS_WIN
              w w' t t' r Ha Hd Hi) as [H | (Hs & Hg & _)]; [exact H |].
  destruct Hside as [Hsrv | Hguid]; congruence.
Qed.

End LifeCycle.

(** ** Opening by address *)

Section Addresses.

Context {collab : Collaborators}.

(** X20.  The autolaunch opener declines every entry whose method is not
    "autolaunch", leaving [*transport_p] and the error as they are.  For an
    "autolaunch" entry it answers OK with a transport or DID_NOT_CONNECT
    without one, never anything else: DID_NOT_CONNECT with an out-of-memory
    error when the address string cannot be initialised (the address is then
    not looked up), DID_NOT_CONNECT with the lookup's error when the lookup
    fails (the address is then not parsed), and otherwise what
    [check_address] makes of the address found. *)
Theorem autolaunch_opener_answers (open : Opener) (w : World)
    (entry : DBusAddressEntry) (transport_p : option DBusTransport)
    (error : DBusError) :
  let f := _dbus_transport_open_autolaunch open in
  (dbus_address_entry_get_method entry <> "autolaunch"%string ->
   f w entry transport_p error
   = Some (w, DBUS_TRANSPORT_OPEN_NOT_HANDLED, transport_p, error))
  /\ (dbus_address_entry_get_method entry = "autolaunch"%string ->
      (forall w1 res tp err,
          f w entry transport_p error = Some (w1, res, tp, err) ->
          (res = DBUS_TRANSPORT_OPEN_OK /\ tp <> None)
          \/ (res = DBUS_TRANSPORT_OPEN_DID_NOT_CONNECT /\ tp = None))
      /\ (forall s1,
             _dbus_string_init (sys w) = (s1, false) ->
             f w entry transport_p error
             = Some (set_sys s1 w, DBUS_TRANSPORT_OPEN_DID_NOT_CONNECT, None,
                     _DBUS_SET_OOM))
      /\ (forall s1 s2 address error2,
             _dbus_string_init (sys w) = (s1, true) ->
             _dbus_get_autolaunch_address s1 EmptyString error
             = (s2, address, false, error2) ->
             f w entry transport_p error
             = Some (set_sys s2 w, DBUS_TRANSPORT_OPEN_DID_NOT_CONNECT, None,
                     error2))
      /\ (forall s1 s2 address error2,
             _dbus_string_init (sys w) = (s1, true) ->
             _dbus_get_autolaunch_address s1 EmptyString error
             = (s2, address, true, error2) ->
             f w entry transport_p error
             = match check_address open (set_sys s2 w) address error2 with
               | None => None
               | Some (w1, None, error1) =>
                   Some (w1, DBUS_TRANSPORT_OPEN_DID_NOT_CONNECT, None, error1)
               | Some (w1, Some t, error1) =>
                   Some (w1, DBUS_TRANSPORT_OPEN_OK, Some t, error1)
               end)).
Proof.
  intros f. subst f. unfold _dbus_transport_open_autolaunch. split.
  - intros Hm. apply String.eqb_neq in Hm. now rewrite Hm.
  - intros Hm. rewrite Hm. rewrite String.eqb_refl.
    split; [| split; [| split]].
    + intros w1 res tp err H.
      destruct (_dbus_transport_new_for_autolaunch open w error)
        as [[[w2 [t |]] e] |]; inv_pair.
      * left. split; [reflexivity | discriminate].
      * right. split; reflexivity.
    + intros s1 Hinit. unfold _dbus_transport_new_for_autolaunch.
      now rewrite Hinit.
    + intros s1 s2 address error2 Hinit Hlook.
      unfold _dbus_transport_new_for_autolaunch. rewrite Hinit. cbn [negb].
      now rewrite Hlook.
    + intros s1 s2 address error2 Hinit Hlook.
      unfold _dbus_transport_new_for_autolaunch. rewrite Hinit. cbn [negb].
      now rewrite Hlook.
Qed.

Lemma check_entries_skip_failures (open : Opener) (pre rest : list DBusAddressEntry)
    (w w1 : World) (error error1 : DBusError) :
  entries_fail open pre w error w1 error1 ->
  check_address_entries open w (pre ++ rest) error
  = check_address_entries open w1 rest error1.
Proof.
  induction 1 as [| e pre' w w1 w2 error error1 error2 Hopen Hrest IH]; simpl.
  - reflexivity.
  - now rewrite Hopen.
Qed.

(** X21.  [check_address] tries the entries of the address in order and
    returns the first transport opened: the entries before it have failed,
    each handed the error its predecessor left, and the entries after it are
    not tried.  When every entry fails it returns no transport and the last
    error; when the address does not parse, no entry is tried. *)
Theorem check_address_takes_first_transport (open : Opener) (w : World)
    (address : string) (error error1 : DBusError) (s : Sys)
    (parsed : option (list DBusAddressEntry)) :
  dbus_parse_address (sys w) address error = (s, parsed, error1) ->
  match parsed with
  | None => check_address open w address error = Some (set_sys s w, None, error1)
  | Some entries =>
      (forall pre e post w1 err1 w2 t err2,
          entries = pre ++ e :: post ->
          entries_fail open pre (set_sys s w) error1 w1 err1 ->
          open w1 e err1 = Some (w2, Some t, err2) ->
          check_address open w address error = Some (w2, Some t, err2))
      /\ (forall w1 err1,
             entries_fail open entries (set_sys s w) error1 w1 err1 ->
             check_address open w address error = Some (w1, None, err1))
  end.
Proof.
  intros Hparse. unfold check_address. rewrite Hparse.
  destruct parsed as [entries |]; [| reflexivity].
  split.
  - intros pre e post w1 err1 w2 t err2 -> Hfail Hopen.
    rewrite (check_entries_skip_failures open pre (e :: post) _ _ _ _ Hfail).
    simpl. now rewrite Hopen.
  - intros w1 err1 Hfail.
    rewrite <- (app_nil_r entries).
    now rewrite (check_entries_skip_failures open entries [] _ _ _ _ Hfail).
Qed.

End Addresses.

End TransportInvariants.

(* ===================================================================== *)
(** * The list of debug clients *)
(* ===================================================================== *)

Module BusTestFacts.
Import BusTest.

(** X22.  [bus_test_client_listed] answers [TRUE] exactly for the
    connections that are in the list of clients. *)
Theorem client_listed_iff (clients : list DBusConnection)
    (connection : DBusConnection) :
  bus_test_client_listed clients connection = true <-> In connection clients.
Proof.
  induction clients as [| c next IH]; simpl.
  - split; [discriminate | tauto].
  - destruct (Nat.eqb_spec c connection) as [E | N].
    + split; auto.
    + rewrite IH. split; [auto | intros [E | H]; [contradiction | exact H]].
Qed.

(** X23.  [bus_test_clients_foreach] calls the function on the clients in
    list order, handing each call what the call before left, for as long as
    the function returns [TRUE]; the first client on which it returns
    [FALSE] is the last one visited, and the clients after it are not
    looked at. *)
Theorem foreach_stops_at_first_false {Data : Type}
    (pre : list DBusConnection) (function : BusConnectionForeachFunction Data)
    (data : Data) :
  calls_continue Data pre function data = true ->
  bus_test_clients_foreach Data pre function data
  = fold_left (fun d c => fst (function c d)) pre data
  /\ forall c post,
      snd (function c (bus_test_clients_foreach Data pre function data)) = false ->
      bus_test_clients_foreach Data (pre ++ c :: post) function data
      = fst (function c (bus_test_clients_foreach Data pre function data)).
Proof.
  revert data. induction pre as [| p pre IH]; intros data; simpl.
  - intros _. split; [reflexivity |]. intros c post Hstop.
    destruct (function c data) as [d1 more]. simpl in Hstop. now subst more.
  - destruct (function p data) as [d1 more]. simpl.
    destruct more; simpl; [| discriminate].
    intros Hgo. exact (IH d1 Hgo).
Qed.

Lemma foreach_stops_at_first_false_witness :
  calls_continue _ [1%nat] (note_until 2%nat) [] = true
  /\ bus_test_clients_foreach _ [1%nat; 2%nat; 3%nat] (note_until 2%nat) []
     = [1%nat; 2%nat].
Proof.
  split; [reflexivity |].
  destruct (foreach_stops_at_first_false [1%nat] (note_until 2%nat) [] eq_refl)
    as [_ Hstop].
  exact (Hstop 2%nat [3%nat] eq_refl).
Defined.

End BusTestFacts.

(* ===================================================================== *)
(** * Runs of the transport on the small collaborators *)
(* ===================================================================== *)

Module InvariantRuns.
Import Transport TransportFacts TransportInvariants.

#[local] Existing Instance toy_collaborators.

Lemma flags_go_one_way_witness :
  let init :=
    _dbus_transport_init_base (toy_world []) toy_blank None
      (Some "unix:path=/tmp/bus"%string) in
  let w0 := fst (fst init) in
  let t0 := snd (fst init) in
  exists sts,
    exec_ops toy_client_vtable false 5 toy_session_ops w0 t0 = Some sts
    /\ Forall (fun st => one_way t0 (snd st)) sts.
Proof.
  intros init w0 t0.
  destruct (exec_ops toy_client_vtable false 5 toy_session_ops w0 t0)
    as [sts |] eqn:Hrun; [| vm_compute in Hrun; discriminate Hrun].
  exists sts. split; [reflexivity |].
  exact (flags_go_one_way toy_client_vtable false 5 toy_session_ops w0 t0 sts Hrun).
Defined.

Lemma references_balance_witness :
  let t := toy_handshaken false toy_fresh_auth None None [] in
  refcount t <> 0
  /\ _dbus_transport_unref toy_plain_vtable (toy_world []) (_dbus_transport_ref t)
     = (toy_world [], t).
Proof.
  intros t.
  assert (H : refcount t <> 0) by (simpl; lia).
  split; [exact H |].
  exact (proj1 (references_balance toy_plain_vtable (toy_world []) t None H)).
Defined.

Lemma last_unref_finalizes_witness :
  let w := toy_world [] in
  let t :=
    fst (fst (_dbus_transport_set_unix_user_function
                (toy_handshaken false toy_fresh_auth (Some "g1"%string) None [])
                None 77 (Some 9))) in
  refcount t = 1
  /\ (let '(w', t') := _dbus_transport_unref toy_plain_vtable w t in
      refcount t' = 0
      /\ disconnected t' = true
      /\ outstanding RExpectedGuid (trace w')
         = outstanding RExpectedGuid (trace w) - owned RExpectedGuid t
      /\ user_data_frees (trace w')
         = user_data_frees (trace w)
           ++ match free_unix_user_data t with
              | Some f => [(f, unix_user_data t)]
              | None => []
              end).
Proof.
  intros w t. split; [reflexivity |].
  exact (last_unref_finalizes toy_plain_vtable w t RExpectedGuid eq_refl).
Defined.

Lemma construction_and_finalization_balance_witness :
  let w := toy_world [] in
  let init :=
    _dbus_transport_init_base w toy_blank None (Some "unix:path=/tmp/bus"%string) in
  let w0 := fst (fst init) in
  let t0 := snd (fst init) in
  init = (w0, t0, true)
  /\ (let '(w1, t1) := _dbus_transport_unref toy_plain_vtable w0 t0 in
      outstanding RAddress (trace w1) = outstanding RAddress (trace w)
      /\ user_data_frees (trace w1) = user_data_frees (trace w0)
      /\ disconnected t1 = true).
Proof.
  intros w init w0 t0.
  assert (Hinit : init = (w0, t0, true)) by (vm_compute; reflexivity).
  split; [exact Hinit |].
  exact (construction_and_finalization_balance toy_plain_vtable w w0 toy_blank t0
           None (Some "unix:path=/tmp/bus"%string) RAddress Hinit).
Defined.

Lemma full_counter_stops_dispatch_witness :
  max_live_messages_size toy_full
  <= _dbus_counter_get_value (live_messages_size toy_full)
  /\ _dbus_transport_get_dispatch_status toy_plain_vtable false (toy_world []) toy_full
     = (toy_world [], toy_full, DBUS_DISPATCH_COMPLETE)
  /\ queue_messages_loop toy_plain_vtable false 1 (toy_world []) toy_full
     = Some (toy_world [], toy_full, DBUS_DISPATCH_COMPLETE).
Proof.
  assert (H : max_live_messages_size toy_full
              <= _dbus_counter_get_value (live_messages_size toy_full))
    by (vm_compute; discriminate).
  split; [exact H |].
  destruct (full_counter_stops_dispatch toy_plain_vtable false 0 (toy_world [])
              toy_full H) as (H1 & H2 & _).
  split; assumption.
Defined.

Lemma failed_recovery_is_retried_witness :
  let w := toy_world [false] in
  let t :=
    set_authenticated true
      (toy_handshaken false (toy_auth_done "g1" 1000 "xy") (Some "g1"%string)
         None []) in
  let w2 := fst (fst (recover_unused_bytes w t)) in
  let t2 := snd (fst (recover_unused_bytes w t)) in
  recover_unused_bytes w t = (w2, t2, false)
  /\ _dbus_transport_get_dispatch_status toy_plain_vtable false w t
     = (w2, t2, DBUS_DISPATCH_NEED_MEMORY)
  /\ unused_bytes_recovered t2 = false
  /\ auth t2 = auth t.
Proof.
  intros w t w2 t2.
  assert (Hrec : recover_unused_bytes w t = (w2, t2, false))
    by (vm_compute; reflexivity).
  split; [exact Hrec |].
  pose proof (failed_recovery_is_retried toy_plain_vtable false w w2 t t2 false
                eq_refl ltac:(vm_compute; reflexivity) eq_refl Hrec) as H.
  cbv beta iota in H. destruct H as (H1 & _ & _ & H4 & _ & H6).
  split; [exact H1 |]. split; [exact H4 |]. exact (H6 eq_refl).
Defined.

Lemma authenticated_answer_is_kept_witness :
  let w := toy_world [] in
  let t :=
    toy_handshaken false (toy_auth_done "g1" 1000 "") (Some "g1"%string) None [] in
  let w1 := fst (fst (_dbus_transport_get_is_authenticated toy_plain_vtable false w t)) in
  let t1 := snd (fst (_dbus_transport_get_is_authenticated toy_plain_vtable false w t)) in
  exists sts,
    _dbus_transport_get_is_authenticated toy_plain_vtable false w t = (w1, t1, true)
    /\ exec_ops toy_plain_vtable false 5
         [Op_disconnect; Op_get_is_authenticated; Op_unref] w1 t1 = Some sts
    /\ Forall (fun st =>
                 _dbus_transport_get_is_authenticated toy_plain_vtable false
                   (fst st) (snd st) = (fst st, snd st, true)) sts.
Proof.
  intros w t w1 t1.
  assert (Hi : _dbus_transport_get_is_authenticated toy_plain_vtable false w t
               = (w1, t1, true)) by (vm_compute; reflexivity).
  destruct (exec_ops toy_plain_vtable false 5
              [Op_disconnect; Op_get_is_authenticated; Op_unref] w1 t1)
    as [sts |] eqn:Hrun; [| vm_compute in Hrun; discriminate Hrun].
  exists sts. split; [exact Hi |]. split; [reflexivity |].
  exact (proj2 (authenticated_answer_is_kept toy_plain_vtable false 5
                  [Op_disconnect; Op_get_is_authenticated; Op_unref]
                  w w1 t t1 sts Hi Hrun)).
Defined.

Lemma handshake_waits_for_credentials_witness :
  let w := toy_world [] in
  let t :=
    set_send_credentials_pending true
      (toy_handshaken false (toy_auth_done "g1" 1000 "") (Some "g1"%string)
         None []) in
  _dbus_transport_get_is_authenticated toy_plain_vtable false w t
  = (emit (EvConnectionUnref (Some 7%nat)) (emit (EvConnectionRef (Some 7%nat)) w),
     t, false).
Proof.
  intros w t.
  exact (handshake_waits_for_credentials toy_plain_vtable false w t
           eq_refl eq_refl eq_refl).
Defined.

Lemma accepted_peer_is_authenticated_witness :
  let w := toy_world [] in
  let a := toy_auth_done "g1" 1000 "" in
  let t := toy_handshaken true a None (Some toy_allow_all) [] in
  exists w' t',
    _dbus_transport_get_is_authenticated toy_plain_vtable false w t = (w', t', true)
    /\ authenticated t' = true
    /\ disconnected t' = false.
Proof.
  intros w a t.
  destruct (accepted_peer_is_authenticated toy_plain_vtable false w t a
              eq_refl eq_refl eq_refl eq_refl eq_refl
              (or_intror
                 (or_introl
                    (conj eq_refl
                       (conj eq_refl
                          (ex_intro _ toy_allow_all (conj eq_refl eq_refl)))))))
    as (w' & t' & H1 & H2 & H3 & _).
  exists w', t'. split; [exact H1 |]. split; [exact H2 | exact H3].
Defined.

Lemma check_address_takes_first_transport_witness :
  let w := @Build_World toy_addressing [] [] in
  let entries := [toy_entry "tcp" None; toy_entry "unix" None] in
  @dbus_parse_address toy_addressing (@sys toy_addressing w) "unix" None
  = ([], Some entries, None)
  /\ @check_address toy_addressing toy_unix_opener w "unix" None
     = Some (w, Some toy_opened, None).
Proof.
  intros w entries. split; [reflexivity |].
  pose proof (@check_address_takes_first_transport toy_addressing toy_unix_opener
                w "unix"%string None None [] (Some entries) eq_refl) as H.
  cbv beta iota in H. destruct H as [Hfirst _].
  eapply (Hfirst [toy_entry "tcp" None] (toy_entry "unix" None) []).
  - reflexivity.
  - eapply (@ef_cons toy_addressing); [reflexivity | apply (@ef_nil toy_addressing)].
  - reflexivity.
Defined.

Lemma paranoid_ref_is_given_back_witness :
  let w := toy_world [] in
  let t :=
    toy_handshaken true (toy_auth_done "g1" 1000 "") None (Some toy_reject_all) [] in
  let w' := fst (fst (_dbus_transport_get_is_authenticated toy_plain_vtable false w t)) in
  connection_unrefs (Some 7%nat) (trace w') = 1%nat
  /\ connection_refs (Some 7%nat) (trace w') = 0.
Proof.
  intros w t w'.
  exact (paranoid_ref_is_given_back toy_plain_vtable false w w' t
           (snd (fst (_dbus_transport_get_is_authenticated toy_plain_vtable false w t)))
           false eq_refl eq_refl (or_introl eq_refl)
           ltac:(vm_compute; reflexivity)).
Defined.

(** An "autolaunch" entry: the address found is "unix", whose first entry
    ("tcp") does not connect and whose second does. *)
Lemma autolaunch_run :
  let w := @Build_World toy_addressing [] [] in
  @_dbus_transport_open_autolaunch toy_addressing toy_unix_opener w
    (toy_entry "autolaunch" None) None None
  = Some (w, DBUS_TRANSPORT_OPEN_OK, Some toy_opened, None).
Proof. vm_compute. reflexivity. Qed.

(** The lock is dropped and taken back around a predicate that rejects. *)
Lemma lock_run :
  let t :=
    toy_handshaken true (toy_auth_done "g1" 1000 "") None (Some toy_reject_all) [] in
  lock_events
    (trace (fst (fst (_dbus_transport_get_is_authenticated toy_plain_vtable false
                        (toy_world []) t))))
  = [EvConnectionLock (Some 7%nat); EvConnectionUnlock (Some 7%nat)].
Proof. vm_compute. reflexivity. Qed.

End InvariantRuns.
